(** * Draft lifecycle, workflow engine and schema inference of the
      legal-document backend: a shallow embedding and its properties.

    The Python services keep their aggregates in two process-wide
    dictionaries (DRAFT_STORAGE and WORKFLOW_STORAGE) that hold the
    [to_dict] image of each object; every operation reloads the object
    with [_dict_to_draft] / [_dict_to_workflow], mutates it and writes
    [to_dict] back.  The embedding follows that shape: stored values are
    JSON-like dictionaries, objects are records, and each service method
    is a function from the store to a result and a new store. *)

From Stdlib Require Import ZArith String Ascii List Bool Lia DecimalString.
From stdpp Require Import base option list gmap strings fin_maps.
Import ListNotations.

Local Open Scope string_scope.
Local Open Scope Z_scope.

(** ** Python values *)

(** The JSON-like values held by the two stores.  A [datetime] and its
    ISO-8601 text ([isoformat] / [fromisoformat], which invert each
    other) are both the instant [VTime t], counted in microseconds.
    A float literal [m * 10^e] is [VFloat m e]. *)
#[warnings="-register-all"] Inductive Value : Type :=
| VNone
| VBool (b : bool)
| VInt (n : Z)
| VFloat (m e : Z)
| VStr (s : string)
| VTime (t : Z)
| VList (l : list Value)
| VDict (d : list (string * Value)).

(** A Python [dict] with string keys, in insertion order. *)
Definition Dict : Type := list (string * Value).

(** [d.get(k)] *)
Fixpoint dict_get (k : string) (d : Dict) : option Value :=
  match d with
  | [] => None
  | (k', v) :: d' => if String.eqb k k' then Some v else dict_get k d'
  end.

(** [d[k] = v]: an existing key keeps its place, a new one goes last. *)
Fixpoint dict_set (k : string) (v : Value) (d : Dict) : Dict :=
  match d with
  | [] => [(k, v)]
  | (k', v') :: d' =>
      if String.eqb k k' then (k, v) :: d' else (k', v') :: dict_set k v d'
  end.

(** [d.update(e)] *)
Definition dict_update (d e : Dict) : Dict :=
  fold_left (fun acc kv => dict_set (fst kv) (snd kv) acc) e d.

(** Python truth value of the values that occur under [if] / [not]. *)
Definition truthy (v : Value) : bool :=
  match v with
  | VNone => false
  | VBool b => b
  | VInt n => negb (n =? 0)
  | VFloat m _ => negb (m =? 0)
  | VStr s => negb (String.eqb s "")
  | VTime _ => true
  | VList l => match l with [] => false | _ => true end
  | VDict d => match d with [] => false | _ => true end
  end.

Definition opt_str (o : option string) : Value :=
  match o with Some s => VStr s | None => VNone end.

Definition opt_time (o : option Z) : Value :=
  match o with Some t => VTime t | None => VNone end.

(** ** Exceptions *)

(** A computation that may raise; the payload is [str(e)]. *)
Inductive Res (A : Type) : Type :=
| Ok (a : A)
| Raise (e : string).
Arguments Ok {A} a.
Arguments Raise {A} e.

Definition bind {A B} (m : Res A) (f : A -> Res B) : Res B :=
  match m with Ok a => f a | Raise e => Raise e end.

Notation "x <- m ;; k" := (bind m (fun x => k))
  (at level 100, m at next level, right associativity).

Fixpoint mapM {A B} (f : A -> Res B) (l : list A) : Res (list B) :=
  match l with
  | [] => Ok []
  | a :: l' => b <- f a ;; bs <- mapM f l' ;; Ok (b :: bs)
  end.

(** [d[k]]: a missing key raises [KeyError]. *)
Definition dict_item (k : string) (d : Dict) : Res Value :=
  match dict_get k d with Some v => Ok v | None => Raise ("KeyError: " ++ k) end.

(** Typed reads of a stored field.  A field of another type than the one
    [to_dict] writes is outside the model and reported as a raise. *)
Definition as_str (v : Value) : Res string :=
  match v with VStr s => Ok s | _ => Raise "TypeError" end.
Definition as_time (v : Value) : Res Z :=
  match v with VTime t => Ok t | _ => Raise "TypeError" end.
Definition as_nat (v : Value) : Res nat :=
  match v with
  | VInt n => if 0 <=? n then Ok (Z.to_nat n) else Raise "TypeError"
  | _ => Raise "TypeError"
  end.
Definition as_bool (v : Value) : Res bool :=
  match v with VBool b => Ok b | _ => Raise "TypeError" end.
Definition as_dict (v : Value) : Res Dict :=
  match v with VDict d => Ok d | _ => Raise "TypeError" end.
Definition as_list (v : Value) : Res (list Value) :=
  match v with VList l => Ok l | _ => Raise "TypeError" end.

(** [d[k]] read as a string, as an instant *)
Definition item_str (k : string) (d : Dict) : Res string :=
  v <- dict_item k d ;; as_str v.
Definition item_time (k : string) (d : Dict) : Res Z :=
  v <- dict_item k d ;; as_time v.

(** [d.get(k)] read as an optional instant: [if d.get(k): fromisoformat(d[k])]. *)
Definition get_opt_time (k : string) (d : Dict) : Res (option Z) :=
  match dict_get k d with
  | Some v => if truthy v then t <- as_time v ;; Ok (Some t) else Ok None
  | None => Ok None
  end.

(** [d.get(k)], [None] when absent. *)
Definition get_or_none (k : string) (d : Dict) : Value :=
  match dict_get k d with Some v => v | None => VNone end.

(** [d.get(k, {})] read as a dictionary. *)
Definition get_dict_or_empty (k : string) (d : Dict) : Res Dict :=
  match dict_get k d with Some v => as_dict v | None => Ok [] end.

(** ** Strings *)

(** [str.lower], [str.replace('_', ' ')], [str.title] and the substring
    test [w in s]; the two case conversions are those of the ASCII
    letters. *)
Definition is_upper (c : ascii) : bool :=
  let n := nat_of_ascii c in (65 <=? n)%nat && (n <=? 90)%nat.
Definition is_lower (c : ascii) : bool :=
  let n := nat_of_ascii c in (97 <=? n)%nat && (n <=? 122)%nat.
Definition to_lower (c : ascii) : ascii :=
  if is_upper c then ascii_of_nat (nat_of_ascii c + 32) else c.
Definition to_upper (c : ascii) : ascii :=
  if is_lower c then ascii_of_nat (nat_of_ascii c - 32) else c.

Fixpoint str_lower (s : string) : string :=
  match s with
  | EmptyString => EmptyString
  | String c s' => String (to_lower c) (str_lower s')
  end.

Fixpoint replace_underscore (s : string) : string :=
  match s with
  | EmptyString => EmptyString
  | String c s' =>
      String (if Ascii.eqb c "_"%char then " "%char else c) (replace_underscore s')
  end.

(** [title]: a cased letter is upper after an uncased character, lower
    after a cased one. *)
Fixpoint title_from (prev_cased : bool) (s : string) : string :=
  match s with
  | EmptyString => EmptyString
  | String c s' =>
      let cased := is_upper c || is_lower c in
      String (if prev_cased then to_lower c else to_upper c) (title_from cased s')
  end.
Definition str_title (s : string) : string := title_from false s.

Fixpoint contains (w s : string) : bool :=
  String.prefix w s ||
  match s with
  | EmptyString => false
  | String _ s' => contains w s'
  end.

(** [any(w in s for w in ws)] *)
Definition any_in (ws : list string) (s : string) : bool :=
  existsb (fun w => contains w s) ws.

(** ["\n".join(parts)] *)
Definition nl : string := String (ascii_of_nat 10) EmptyString.
Fixpoint join (sep : string) (parts : list string) : string :=
  match parts with
  | [] => ""
  | [p] => p
  | p :: ps => p ++ sep ++ join sep ps
  end.

(** ** Draft aggregates (drafting_service.py) *)

Record Message : Type := { role : string; msg_content : string }.

Module DraftVersion.

Record t : Type := mk {
  id : string;
  content : Value;
  created_by : string;
  created_at : Z;
  status : string;
  user_feedback : Value;
  approved_by : Value;
  approved_at : option Z;
  rejected_reason : Value;
  modifications : Dict;
  metadata : Dict
}.

(** [DraftVersion.__init__] *)
Definition init (version_id : string) (content : Value) (created_by : string)
    (now : Z) : t :=
  {| id := version_id;
     content := content;
     created_by := created_by;
     created_at := now;
     status := "pending";
     user_feedback := VNone;
     approved_by := VNone;
     approved_at := None;
     rejected_reason := VNone;
     modifications := [];
     metadata := [("sources", VList []);
                  ("confidence", VFloat 0 0);
                  ("generation_time", VTime now);
                  ("template_used", VNone);
                  ("customizations", VList [])] |}.

Definition to_dict (v : t) : Dict :=
  [("id", VStr (id v));
   ("content", content v);
   ("createdBy", VStr (created_by v));
   ("createdAt", VTime (created_at v));
   ("status", VStr (status v));
   ("userFeedback", user_feedback v);
   ("approvedBy", approved_by v);
   ("approvedAt", opt_time (approved_at v));
   ("rejectedReason", rejected_reason v);
   ("modifications", VDict (modifications v));
   ("metadata", VDict (metadata v))].

End DraftVersion.

Module DocumentDraft.

Record t : Type := mk {
  id : string;
  user_id : string;
  chat_id : option string;   (* a draft made from a reloaded workflow has [None] *)
  document_type : string;
  title : string;
  status : string;
  current_version : Z;
  versions : list DraftVersion.t;
  created_at : Z;
  updated_at : Z;
  estimated_completion : option Z;
  workflow_id : Value;
  settings : Dict;
  original_content : option string   (* [None]: the attribute is not set *)
}.

(** [DocumentDraft.__init__] *)
Definition init (draft_id user_id : string) (chat_id : option string)
    (document_type : string) (now : Z) : t :=
  {| id := draft_id;
     user_id := user_id;
     chat_id := chat_id;
     document_type := document_type;
     title := str_title (replace_underscore document_type) ++ " Draft";
     status := "in_progress";
     current_version := 1;
     versions := [];
     created_at := now;
     updated_at := now;
     estimated_completion := None;
     workflow_id := VNone;
     settings := [("auto_approve", VBool true);
                  ("require_user_approval", VBool false);
                  ("max_versions", VInt 10);
                  ("allow_modifications", VBool true)];
     original_content := None |}.

Definition to_dict (d : t) : Dict :=
  ([("id", VStr (id d));
   ("userId", VStr (user_id d));
   ("chatId", opt_str (chat_id d));
   ("documentType", VStr (document_type d));
   ("title", VStr (title d));
   ("status", VStr (status d));
   ("currentVersion", VInt (current_version d));
   ("totalVersions", VInt (Z.of_nat (length (versions d))));
   ("versions", VList (map (fun v => VDict (DraftVersion.to_dict v)) (versions d)));
   ("createdAt", VTime (created_at d));
   ("updatedAt", VTime (updated_at d));
   ("estimatedCompletion", opt_time (estimated_completion d));
   ("workflowId", workflow_id d);
   ("settings", VDict (settings d))]
  ++ match original_content d with
     | Some s => if String.eqb s "" then [] else [("originalContent", VStr s)]
     | None => []
     end)%list.

End DocumentDraft.

(** ** More string helpers ([_parse_chat_content]) *)

(** A [string] is read as a text of code points below 256.  Python's
    [str.isspace] holds of these among them: 9 to 13, 28 to 32, 133 (next
    line) and 160 (no-break space); they are what [str.strip] removes. *)
Definition is_space (c : ascii) : bool :=
  let n := nat_of_ascii c in
  ((9 <=? n)%nat && (n <=? 13)%nat) || ((28 <=? n)%nat && (n <=? 32)%nat)
  || (n =? 133)%nat || (n =? 160)%nat.

Fixpoint lstrip (s : string) : string :=
  match s with
  | EmptyString => EmptyString
  | String c s' => if is_space c then lstrip s' else s
  end.

Fixpoint rstrip (s : string) : string :=
  match s with
  | EmptyString => EmptyString
  | String c s' =>
      let r := rstrip s' in
      if is_space c && String.eqb r "" then EmptyString else String c r
  end.

Definition strip (s : string) : string := rstrip (lstrip s).

(** [s.split(sep)] for a one-character separator *)
Fixpoint split_on (sep : ascii) (s : string) : list string :=
  match s with
  | EmptyString => [EmptyString]
  | String c s' =>
      if Ascii.eqb c sep then EmptyString :: split_on sep s'
      else match split_on sep s' with
           | h :: t => String c h :: t
           | [] => [String c EmptyString]
           end
  end.

(** [s.split(':', 1)[1] if ':' in s else ''] *)
Fixpoint after_colon (s : string) : string :=
  match s with
  | EmptyString => EmptyString
  | String c s' => if Ascii.eqb c ":"%char then s' else after_colon s'
  end.

(** [s.startswith(tuple)] *)
Definition startswith_any (ps : list string) (s : string) : bool :=
  existsb (fun p => String.prefix p s) ps.

(** ** DraftingService *)

Module DraftingService.

(** State of the line loop of [_parse_chat_content]. *)
Record ParseState : Type := {
  messages : list Message;
  current_role : option string;
  current_content : list string
}.

(** "Save previous message if exists" *)
Definition flush (ps : ParseState) : list Message :=
  match current_role ps, current_content ps with
  | Some r, _ :: _ =>
      if String.eqb r "" then messages ps
      else (messages ps ++ [{| role := r;
                               msg_content := strip (join nl (current_content ps)) |}])%list
  | _, _ => messages ps
  end.

Definition parse_line (ps : ParseState) (raw : string) : ParseState :=
  let line := strip raw in
  if String.eqb line "" then ps
  else if startswith_any ["user:"; "human:"; "client:"] (str_lower line) then
    {| messages := flush ps;
       current_role := Some "user";
       current_content := [strip (after_colon line)] |}
  else if startswith_any ["assistant:"; "ai:"; "bot:"; "wakili:"] (str_lower line) then
    {| messages := flush ps;
       current_role := Some "assistant";
       current_content := [strip (after_colon line)] |}
  else
    match current_role ps with
    | Some r =>
        if String.eqb r "" then ps
        else {| messages := messages ps;
                current_role := current_role ps;
                current_content := (current_content ps ++ [line])%list |}
    | None => ps
    end.

Definition _parse_chat_content (chat_content : string) : list Message :=
  let lines := split_on (ascii_of_nat 10) (strip chat_content) in
  flush (fold_left parse_line lines
           {| messages := []; current_role := None; current_content := [] |}).

(** A line that opens a message: stripped and lower-cased it starts with
    one of the role markers of [_parse_chat_content]. *)
Definition opens_message (raw : string) : bool :=
  startswith_any ["user:"; "human:"; "client:"; "assistant:"; "ai:"; "bot:"; "wakili:"]
    (str_lower (strip raw)).

(** What holds of the loop state of [_parse_chat_content] after every
    line: the role is unset and nothing was collected, or the role is one
    of the two the parser assigns and the collected content has a first
    line; every message saved so far has one of the two roles. *)
Definition parse_inv (ps : ParseState) : Prop :=
  ((current_role ps = None /\ current_content ps = [] /\ messages ps = []) \/
   ((current_role ps = Some "user" \/ current_role ps = Some "assistant") /\
    current_content ps <> [])) /\
  Forall (fun m => role m = "user" \/ role m = "assistant") (messages ps).

(** ["\n".join(msg.get('content', '') for msg in chat_messages)] *)
Definition _extract_conversation_text (chat_messages : list Message) : string :=
  join nl (map msg_content chat_messages).

(** [_dict_to_draft], the version loop *)
Definition _dict_to_version (version_data : Value) : Res DraftVersion.t :=
  vd <- as_dict version_data ;;
  vid <- item_str "id" vd ;;
  vcontent <- dict_item "content" vd ;;
  vby <- item_str "createdBy" vd ;;
  vat <- item_time "createdAt" vd ;;
  vstatus <- item_str "status" vd ;;
  vmods <- get_dict_or_empty "modifications" vd ;;
  vmeta <- get_dict_or_empty "metadata" vd ;;
  vapp <- get_opt_time "approvedAt" vd ;;
  Ok {| DraftVersion.id := vid;
        DraftVersion.content := vcontent;
        DraftVersion.created_by := vby;
        DraftVersion.created_at := vat;
        DraftVersion.status := vstatus;
        DraftVersion.user_feedback := get_or_none "userFeedback" vd;
        DraftVersion.approved_by := get_or_none "approvedBy" vd;
        DraftVersion.approved_at := vapp;
        DraftVersion.rejected_reason := get_or_none "rejectedReason" vd;
        DraftVersion.modifications := vmods;
        DraftVersion.metadata := vmeta |}.

Definition _dict_to_draft (draft_data : Dict) : Res DocumentDraft.t :=
  did <- item_str "id" draft_data ;;
  uid <- item_str "userId" draft_data ;;
  cid <- (v <- dict_item "chatId" draft_data ;;
          match v with
          | VStr c => Ok (Some c)
          | VNone => Ok None
          | _ => Raise "TypeError"
          end) ;;
  dtype <- item_str "documentType" draft_data ;;
  dtitle <- item_str "title" draft_data ;;
  dstatus <- item_str "status" draft_data ;;
  cur <- (v <- dict_item "currentVersion" draft_data ;;
          match v with VInt n => Ok n | _ => Raise "TypeError" end) ;;
  cat <- item_time "createdAt" draft_data ;;
  uat <- item_time "updatedAt" draft_data ;;
  dsettings <- get_dict_or_empty "settings" draft_data ;;
  est <- get_opt_time "estimatedCompletion" draft_data ;;
  orig <- match dict_get "originalContent" draft_data with
          | Some v => s <- as_str v ;; Ok (Some s)
          | None => Ok None
          end ;;
  vl <- (v <- dict_item "versions" draft_data ;; as_list v) ;;
  vs <- mapM _dict_to_version vl ;;
  Ok {| DocumentDraft.id := did;
        DocumentDraft.user_id := uid;
        DocumentDraft.chat_id := cid;
        DocumentDraft.document_type := dtype;
        DocumentDraft.title := dtitle;
        DocumentDraft.status := dstatus;
        DocumentDraft.current_version := cur;
        DocumentDraft.versions := vs;
        DocumentDraft.created_at := cat;
        DocumentDraft.updated_at := uat;
        DocumentDraft.estimated_completion := est;
        DocumentDraft.workflow_id := get_or_none "workflowId" draft_data;
        DocumentDraft.settings := dsettings;
        DocumentDraft.original_content := orig |}.

(** What [_dict_to_draft] gives back for [to_dict] of a draft: the draft
    itself, except that an empty [original_content] is not written and so
    comes back unset. *)
Definition reloaded (d : DocumentDraft.t) : DocumentDraft.t :=
  match DocumentDraft.original_content d with
  | Some EmptyString =>
      {| DocumentDraft.id := DocumentDraft.id d;
         DocumentDraft.user_id := DocumentDraft.user_id d;
         DocumentDraft.chat_id := DocumentDraft.chat_id d;
         DocumentDraft.document_type := DocumentDraft.document_type d;
         DocumentDraft.title := DocumentDraft.title d;
         DocumentDraft.status := DocumentDraft.status d;
         DocumentDraft.current_version := DocumentDraft.current_version d;
         DocumentDraft.versions := DocumentDraft.versions d;
         DocumentDraft.created_at := DocumentDraft.created_at d;
         DocumentDraft.updated_at := DocumentDraft.updated_at d;
         DocumentDraft.estimated_completion := DocumentDraft.estimated_completion d;
         DocumentDraft.workflow_id := DocumentDraft.workflow_id d;
         DocumentDraft.settings := DocumentDraft.settings d;
         DocumentDraft.original_content := None |}
  | _ => d
  end.

(** The invariant of the draft store.  Of every stored draft: the pointer
    is the number of versions, or the draft has no version yet and the
    pointer still has the value [1] that the constructor gave it. *)
Definition draft_inv (d : DocumentDraft.t) : Prop :=
  DocumentDraft.current_version d = Z.of_nat (length (DocumentDraft.versions d)) \/
  (DocumentDraft.versions d = [] /\ DocumentDraft.current_version d = 1).

(** Every entry of the store is the [to_dict] image of such a draft. *)
Definition store_inv (st : gmap string Dict) : Prop :=
  forall k x, st !! k = Some x -> exists d, x = DocumentDraft.to_dict d /\ draft_inv d.

(** [get_draft]: no user id is taken; a stored id yields its draft. *)
Definition get_draft (st : gmap string Dict) (draft_id : string)
    : Res (option DocumentDraft.t) :=
  match st !! draft_id with
  | Some draft_data => d <- _dict_to_draft draft_data ;; Ok (Some d)
  | None => Ok None
  end.

(** [next((v for v in draft.versions if v.id == version_id), None)]:
    position and value of the first version with that id. *)
Definition find_version (version_id : string) (vs : list DraftVersion.t)
    : option (nat * DraftVersion.t) :=
  list_find (fun v => DraftVersion.id v = version_id) vs.

Definition set_version (i : nat) (v : DraftVersion.t) (d : DocumentDraft.t)
    : DocumentDraft.t :=
  {| DocumentDraft.id := DocumentDraft.id d;
     DocumentDraft.user_id := DocumentDraft.user_id d;
     DocumentDraft.chat_id := DocumentDraft.chat_id d;
     DocumentDraft.document_type := DocumentDraft.document_type d;
     DocumentDraft.title := DocumentDraft.title d;
     DocumentDraft.status := DocumentDraft.status d;
     DocumentDraft.current_version := DocumentDraft.current_version d;
     DocumentDraft.versions := <[i := v]> (DocumentDraft.versions d);
     DocumentDraft.created_at := DocumentDraft.created_at d;
     DocumentDraft.updated_at := DocumentDraft.updated_at d;
     DocumentDraft.estimated_completion := DocumentDraft.estimated_completion d;
     DocumentDraft.workflow_id := DocumentDraft.workflow_id d;
     DocumentDraft.settings := DocumentDraft.settings d;
     DocumentDraft.original_content := DocumentDraft.original_content d |}.

(** [draft.status = s; draft.updated_at = now] *)
Definition set_status (s : string) (now : Z) (d : DocumentDraft.t) : DocumentDraft.t :=
  {| DocumentDraft.id := DocumentDraft.id d;
     DocumentDraft.user_id := DocumentDraft.user_id d;
     DocumentDraft.chat_id := DocumentDraft.chat_id d;
     DocumentDraft.document_type := DocumentDraft.document_type d;
     DocumentDraft.title := DocumentDraft.title d;
     DocumentDraft.status := s;
     DocumentDraft.current_version := DocumentDraft.current_version d;
     DocumentDraft.versions := DocumentDraft.versions d;
     DocumentDraft.created_at := DocumentDraft.created_at d;
     DocumentDraft.updated_at := now;
     DocumentDraft.estimated_completion := DocumentDraft.estimated_completion d;
     DocumentDraft.workflow_id := DocumentDraft.workflow_id d;
     DocumentDraft.settings := DocumentDraft.settings d;
     DocumentDraft.original_content := DocumentDraft.original_content d |}.

(** [draft.versions.append(version); draft.current_version = len(draft.versions);
    draft.updated_at = now] *)
Definition append_version (v : DraftVersion.t) (now : Z) (d : DocumentDraft.t)
    : DocumentDraft.t :=
  let vs := (DocumentDraft.versions d ++ [v])%list in
  {| DocumentDraft.id := DocumentDraft.id d;
     DocumentDraft.user_id := DocumentDraft.user_id d;
     DocumentDraft.chat_id := DocumentDraft.chat_id d;
     DocumentDraft.document_type := DocumentDraft.document_type d;
     DocumentDraft.title := DocumentDraft.title d;
     DocumentDraft.status := DocumentDraft.status d;
     DocumentDraft.current_version := Z.of_nat (length vs);
     DocumentDraft.versions := vs;
     DocumentDraft.created_at := DocumentDraft.created_at d;
     DocumentDraft.updated_at := now;
     DocumentDraft.estimated_completion := DocumentDraft.estimated_completion d;
     DocumentDraft.workflow_id := DocumentDraft.workflow_id d;
     DocumentDraft.settings := DocumentDraft.settings d;
     DocumentDraft.original_content := DocumentDraft.original_content d |}.

(** The field writes of [approve_draft_version] on the version. *)
Definition approve_version (user_id : string) (feedback : Value) (now : Z)
    (v : DraftVersion.t) : DraftVersion.t :=
  {| DraftVersion.id := DraftVersion.id v;
     DraftVersion.content := DraftVersion.content v;
     DraftVersion.created_by := DraftVersion.created_by v;
     DraftVersion.created_at := DraftVersion.created_at v;
     DraftVersion.status := "approved";
     DraftVersion.user_feedback := feedback;
     DraftVersion.approved_by := VStr user_id;
     DraftVersion.approved_at := Some now;
     DraftVersion.rejected_reason := DraftVersion.rejected_reason v;
     DraftVersion.modifications := DraftVersion.modifications v;
     DraftVersion.metadata := DraftVersion.metadata v |}.

(** The field writes of [reject_draft_version] on the version. *)
Definition reject_version (reason : string) (feedback : Value)
    (v : DraftVersion.t) : DraftVersion.t :=
  {| DraftVersion.id := DraftVersion.id v;
     DraftVersion.content := DraftVersion.content v;
     DraftVersion.created_by := DraftVersion.created_by v;
     DraftVersion.created_at := DraftVersion.created_at v;
     DraftVersion.status := "rejected";
     DraftVersion.user_feedback := feedback;
     DraftVersion.approved_by := DraftVersion.approved_by v;
     DraftVersion.approved_at := DraftVersion.approved_at v;
     DraftVersion.rejected_reason := VStr reason;
     DraftVersion.modifications := DraftVersion.modifications v;
     DraftVersion.metadata := DraftVersion.metadata v |}.

(** The field writes of [modify_draft_version] on the version. *)
Definition modify_version (mods : Dict) (v : DraftVersion.t) : DraftVersion.t :=
  {| DraftVersion.id := DraftVersion.id v;
     DraftVersion.content := DraftVersion.content v;
     DraftVersion.created_by := DraftVersion.created_by v;
     DraftVersion.created_at := DraftVersion.created_at v;
     DraftVersion.status := "modified";
     DraftVersion.user_feedback :=
       match dict_get "feedback" mods with Some f => f | None => VStr "" end;
     DraftVersion.approved_by := DraftVersion.approved_by v;
     DraftVersion.approved_at := DraftVersion.approved_at v;
     DraftVersion.rejected_reason := DraftVersion.rejected_reason v;
     DraftVersion.modifications := dict_update (DraftVersion.modifications v) mods;
     DraftVersion.metadata := DraftVersion.metadata v |}.

(** [approve_draft_version] *)
Definition approve_draft_version (st : gmap string Dict)
    (draft_id version_id user_id : string) (feedback : Value) (now : Z)
    : Res bool * gmap string Dict :=
  match get_draft st draft_id with
  | Raise e => (Raise e, st)
  | Ok None => (Ok false, st)
  | Ok (Some draft) =>
      if negb (String.eqb (DocumentDraft.user_id draft) user_id) then (Ok false, st)
      else
        match find_version version_id (DocumentDraft.versions draft) with
        | None => (Ok false, st)
        | Some (i, version) =>
            if negb (String.eqb (DraftVersion.status version) "pending")
            then (Ok false, st)
            else
              let draft' :=
                set_status "completed" now
                  (set_version i (approve_version user_id feedback now version) draft) in
              (Ok true, <[draft_id := DocumentDraft.to_dict draft']> st)
        end
  end.

(** [reject_draft_version] *)
Definition reject_draft_version (st : gmap string Dict)
    (draft_id version_id user_id reason : string) (feedback : Value) (now : Z)
    : Res bool * gmap string Dict :=
  match get_draft st draft_id with
  | Raise e => (Raise e, st)
  | Ok None => (Ok false, st)
  | Ok (Some draft) =>
      if negb (String.eqb (DocumentDraft.user_id draft) user_id) then (Ok false, st)
      else
        match find_version version_id (DocumentDraft.versions draft) with
        | None => (Ok false, st)
        | Some (i, version) =>
            if negb (String.eqb (DraftVersion.status version) "pending")
            then (Ok false, st)
            else
              let draft' :=
                set_status "in_progress" now
                  (set_version i (reject_version reason feedback version) draft) in
              (Ok true, <[draft_id := DocumentDraft.to_dict draft']> st)
        end
  end.

(** [modify_draft_version] *)
Definition modify_draft_version (st : gmap string Dict)
    (draft_id version_id user_id : string) (mods : Dict) (now : Z)
    : Res bool * gmap string Dict :=
  match get_draft st draft_id with
  | Raise e => (Raise e, st)
  | Ok None => (Ok false, st)
  | Ok (Some draft) =>
      if negb (String.eqb (DocumentDraft.user_id draft) user_id) then (Ok false, st)
      else
        match find_version version_id (DocumentDraft.versions draft) with
        | None => (Ok false, st)
        | Some (i, version) =>
            let draft' :=
              set_status (DocumentDraft.status draft) now
                (set_version i (modify_version mods version) draft) in
            (Ok true, <[draft_id := DocumentDraft.to_dict draft']> st)
        end
  end.

(** [delete_draft] *)
Definition delete_draft (st : gmap string Dict) (draft_id user_id : string)
    : Res bool * gmap string Dict :=
  match get_draft st draft_id with
  | Raise e => (Raise e, st)
  | Ok None => (Ok false, st)
  | Ok (Some draft) =>
      if negb (String.eqb (DocumentDraft.user_id draft) user_id) then (Ok false, st)
      else
        match st !! draft_id with
        | Some _ => (Ok true, delete draft_id st)
        | None => (Ok false, st)
        end
  end.

(** *** Operations that call the collaborators *)

(** What the service consumes: the chat-history store behind
    [_load_chat_messages] (which absorbs its failures and answers the
    empty list), the conversation analyzer, the drafting agent, and
    Python's [json.dumps] and [str]. *)
Record Collaborators : Type := {
  _load_chat_messages : string -> option string -> list Message;
  analyze_conversation : list Message -> Res Dict;
  draft_document : string -> Dict -> Res Value;
  json_dumps : Value -> string;
  py_str : Value -> string
}.

Section Service.

Variable C : Collaborators.

(** [context or {}] *)
Definition or_empty (context : option Dict) : Dict :=
  match context with Some c => c | None => [] end.

(** [_generate_draft_content]: a failure of a collaborator is caught and
    turned into an error payload. *)
Definition _generate_draft_content (chat_messages : list Message)
    (document_type : string) (context : option Dict) (now : Z) : Value :=
  let attempt :=
    let conversation_text := _extract_conversation_text chat_messages in
    analysis_result <- analyze_conversation C chat_messages ;;
    let drafting_context :=
      [("conversation_text", VStr conversation_text);
       ("document_type", VStr document_type);
       ("analysis_result", VDict analysis_result);
       ("user_context", VDict (or_empty context))] in
    draft_result <- draft_document C document_type drafting_context ;;
    Ok (VDict
      [("document_type", VStr document_type);
       ("content", draft_result);
       ("sections",
        VList [VDict [("title", VStr (str_title (replace_underscore document_type)));
                      ("content", draft_result)]]);
       ("metadata",
        VDict [("generation_time", VTime now);
               ("confidence", VFloat 8 (-1));
               ("sources", VList []);
               ("template_used", VStr document_type);
               ("customizations", VList [])])]) in
  match attempt with
  | Ok v => v
  | Raise e =>
      VDict
        [("document_type", VStr document_type);
         ("content", VDict [("error", VStr e)]);
         ("sections", VList []);
         ("metadata",
          VDict [("generation_time", VTime now);
                 ("confidence", VFloat 0 0);
                 ("sources", VList []);
                 ("template_used", VStr "");
                 ("customizations", VList [])])]
  end.

(** The document type chosen by the two [create_draft_*] methods when the
    caller gave none: the analyzer's answer, ['custom_document'] when there
    are no messages, the key is absent or the analysis raised. *)
Definition infer_document_type (chat_messages : list Message) : Value :=
  match chat_messages with
  | [] => VStr "custom_document"
  | _ =>
      match analyze_conversation C chat_messages with
      | Ok analysis_result =>
          match dict_get "document_type" analysis_result with
          | Some v => v
          | None => VStr "custom_document"
          end
      | Raise _ => VStr "custom_document"
      end
  end.

(** [DocumentDraft(...)] applies [str.replace] to the type: any value
    that is not a string raises there. *)
Definition construct_draft (draft_id user_id : string) (chat_id : option string)
    (document_type : Value) (now : Z) : Res DocumentDraft.t :=
  match document_type with
  | VStr dt => Ok (DocumentDraft.init draft_id user_id chat_id dt now)
  | _ => Raise "AttributeError"
  end.

(** [create_draft_from_chat]; [draft_id] is the fresh [uuid4]. *)
Definition create_draft_from_chat (st : gmap string Dict)
    (user_id : string) (chat_id : option string) (document_type : option string)
    (draft_id : string) (now : Z) : Res DocumentDraft.t * gmap string Dict :=
  let dt :=
    match document_type with
    | Some (String c r) => VStr (String c r)
    | _ => infer_document_type (_load_chat_messages C user_id chat_id)
    end in
  match construct_draft draft_id user_id chat_id dt now with
  | Ok draft => (Ok draft, <[draft_id := DocumentDraft.to_dict draft]> st)
  | Raise e => (Raise e, st)
  end.

Definition with_original_content (chat_content : string) (d : DocumentDraft.t)
    : DocumentDraft.t :=
  {| DocumentDraft.id := DocumentDraft.id d;
     DocumentDraft.user_id := DocumentDraft.user_id d;
     DocumentDraft.chat_id := DocumentDraft.chat_id d;
     DocumentDraft.document_type := DocumentDraft.document_type d;
     DocumentDraft.title := DocumentDraft.title d;
     DocumentDraft.status := DocumentDraft.status d;
     DocumentDraft.current_version := DocumentDraft.current_version d;
     DocumentDraft.versions := DocumentDraft.versions d;
     DocumentDraft.created_at := DocumentDraft.created_at d;
     DocumentDraft.updated_at := DocumentDraft.updated_at d;
     DocumentDraft.estimated_completion := DocumentDraft.estimated_completion d;
     DocumentDraft.workflow_id := DocumentDraft.workflow_id d;
     DocumentDraft.settings := DocumentDraft.settings d;
     DocumentDraft.original_content := Some chat_content |}.

(** [create_draft_from_content] *)
Definition create_draft_from_content (st : gmap string Dict)
    (user_id chat_content : string) (document_type : option string)
    (draft_id : string) (now : Z) : Res DocumentDraft.t * gmap string Dict :=
  let dt :=
    match document_type with
    | Some (String c r) => VStr (String c r)
    | _ => infer_document_type (_parse_chat_content chat_content)
    end in
  match construct_draft draft_id user_id (Some ("content_" ++ draft_id)) dt now with
  | Ok draft0 =>
      let draft := with_original_content chat_content draft0 in
      (Ok draft, <[draft_id := DocumentDraft.to_dict draft]> st)
  | Raise e => (Raise e, st)
  end.

(** [generate_draft_version]; [version_id] is the fresh [uuid4]. *)
Definition generate_draft_version (st : gmap string Dict)
    (draft_id user_id : string) (context : option Dict)
    (version_id : string) (now : Z)
    : Res (option DraftVersion.t) * gmap string Dict :=
  match get_draft st draft_id with
  | Raise e => (Raise e, st)
  | Ok None => (Ok None, st)
  | Ok (Some draft) =>
      if negb (String.eqb (DocumentDraft.user_id draft) user_id) then (Ok None, st)
      else
        let chat_messages :=
          match DocumentDraft.original_content draft with
          | Some (String c r) => _parse_chat_content (String c r)
          | _ => _load_chat_messages C user_id (DocumentDraft.chat_id draft)
          end in
        let draft_content :=
          _generate_draft_content chat_messages
            (DocumentDraft.document_type draft) context now in
        let version := DraftVersion.init version_id draft_content user_id now in
        let draft' := append_version version now draft in
        (Ok (Some version), <[draft_id := DocumentDraft.to_dict draft']> st)
  end.

(** The context bundle built by [regenerate_draft_version]. *)
Definition regeneration_context (previous_version : option DraftVersion.t)
    (feedback : Value) : Dict :=
  [("previous_version",
    match previous_version with Some v => DraftVersion.content v | None => VNone end);
   ("user_feedback", feedback);
   ("rejection_reason",
    match previous_version with
    | Some v => DraftVersion.rejected_reason v
    | None => VNone
    end);
   ("modifications",
    match previous_version with
    | Some v => VDict (DraftVersion.modifications v)
    | None => VDict []
    end)].

(** [regenerate_draft_version] *)
Definition regenerate_draft_version (st : gmap string Dict)
    (draft_id version_id user_id : string) (feedback : Value)
    (new_version_id : string) (now : Z)
    : Res (option DraftVersion.t) * gmap string Dict :=
  match get_draft st draft_id with
  | Raise e => (Raise e, st)
  | Ok None => (Ok None, st)
  | Ok (Some draft) =>
      if negb (String.eqb (DocumentDraft.user_id draft) user_id) then (Ok None, st)
      else
        let previous_version :=
          snd <$> find_version version_id (DocumentDraft.versions draft) in
        let context := regeneration_context previous_version feedback in
        generate_draft_version st draft_id user_id (Some context) new_version_id now
  end.

(** [_compare_versions]; both differs are stubs that answer [[]]. *)
Definition _compare_versions (v1 v2 : DraftVersion.t) : Dict :=
  [("content_changes", VList []);
   ("metadata_changes", VList []);
   ("status_changes",
    VDict [("from", VStr (DraftVersion.status v1));
           ("to", VStr (DraftVersion.status v2))])].

(** [get_draft_comparison] *)
Definition get_draft_comparison (st : gmap string Dict)
    (draft_id version_id_1 version_id_2 user_id : string) : Res (option Dict) :=
  draft_opt <- get_draft st draft_id ;;
  match draft_opt with
  | None => Ok None
  | Some draft =>
      if negb (String.eqb (DocumentDraft.user_id draft) user_id) then Ok None
      else
        match find_version version_id_1 (DocumentDraft.versions draft),
              find_version version_id_2 (DocumentDraft.versions draft) with
        | Some (_, v1), Some (_, v2) =>
            Ok (Some [("version1", VDict (DraftVersion.to_dict v1));
                      ("version2", VDict (DraftVersion.to_dict v2));
                      ("comparison", VDict (_compare_versions v1 v2))])
        | _, _ => Ok None
        end
  end.

(** [_export_as_text] *)
Definition section_text (section : Value) : list string :=
  match section with
  | VDict sd =>
      (match dict_get "title" sd with
       | Some t => [(nl ++ py_str C t ++ nl)%string]
       | None => []
       end ++
       match dict_get "content" sd with
       | Some c => [py_str C c]
       | None => []
       end)%list
  | _ => []
  end.

(** The [text_parts] that [_export_as_text] collects from a content that
    is not empty: of a dictionary the titles and contents of its sections,
    its own content and its other string entries; a string itself;
    nothing of any other value. *)
Definition text_parts (content : Value) : list string :=
  match content with
  | VDict cd =>
      (match dict_get "sections" cd with
       | Some (VList sections) => concat (map section_text sections)
       | _ => []
       end ++
       match dict_get "content" cd with
       | Some (VStr c) => [c]
       | Some (VDict c) => [json_dumps C (VDict c)]
       | _ => []
       end ++
       concat (map (fun kv =>
                 match snd kv with
                 | VStr value =>
                     if String.eqb (fst kv) "sections" || String.eqb (fst kv) "content"
                     then []
                     else [(fst kv ++ ": " ++ value)%string]
                 | _ => []
                 end) cd))%list
  | VStr c => [c]
  | _ => []
  end.

Definition _export_as_text (content : Value) : string :=
  if negb (truthy content) then "No content available"
  else
    let result := join nl (text_parts content) in
    if String.eqb (strip result) "" then "Content exported successfully" else result.

(** "Get latest approved version or current version" *)
Definition latest_version (vs : list DraftVersion.t) : option DraftVersion.t :=
  match find (fun v => String.eqb (DraftVersion.status v) "approved") (rev vs) with
  | Some v => Some v
  | None => last vs
  end.

(** The dictionary [export_data] that [export_draft] prepares. *)
Definition export_data (draft : DocumentDraft.t) (v : DraftVersion.t) (now : Z) : Value :=
  VDict [("draft",
          VDict [("id", VStr (DocumentDraft.id draft));
                 ("title", VStr (DocumentDraft.title draft));
                 ("documentType", VStr (DocumentDraft.document_type draft));
                 ("status", VStr (DocumentDraft.status draft));
                 ("createdAt", VTime (DocumentDraft.created_at draft));
                 ("updatedAt", VTime (DocumentDraft.updated_at draft))]);
         ("version", VDict (DraftVersion.to_dict v));
         ("exportedAt", VTime now)].

(** [export_draft] *)
Definition export_draft (st : gmap string Dict) (draft_id user_id format : string)
    (now : Z) : Res (option string) :=
  draft_opt <- get_draft st draft_id ;;
  match draft_opt with
  | None => Ok None
  | Some draft =>
      if negb (String.eqb (DocumentDraft.user_id draft) user_id) then Ok None
      else
        match latest_version (DocumentDraft.versions draft) with
        | None => Ok None
        | Some v =>
            if String.eqb format "json" then Ok (Some (json_dumps C (export_data draft v now)))
            else if String.eqb format "txt"
                 then Ok (Some (_export_as_text (DraftVersion.content v)))
            else if String.eqb format "docx"
                 then Ok (Some (json_dumps C (export_data draft v now)))
            else if String.eqb format "pdf"
                 then Ok (Some (json_dumps C (export_data draft v now)))
            else Ok None
        end
  end.

(** [draft_data.get('userId') == user_id] *)
Definition stored_owner_is (user_id : string) (draft_data : Dict) : bool :=
  match dict_get "userId" draft_data with
  | Some (VStr u) => String.eqb u user_id
  | _ => false
  end.

(** [get_user_drafts] (the order of [DRAFT_STORAGE.values()] is the order
    of [map_to_list] here). *)
Definition get_user_drafts (st : gmap string Dict) (user_id : string)
    : Res (list DocumentDraft.t) :=
  mapM _dict_to_draft
    (filter (fun d => stored_owner_is user_id d = true) (snd <$> map_to_list st)).

(** The stores the service can be in: the empty store at start-up, then
    whatever its mutating methods leave behind, whatever their arguments
    and answers. *)
Inductive reachable : gmap string Dict -> Prop :=
| reach_start : reachable ∅
| reach_create_from_chat st user_id chat_id document_type draft_id now :
    reachable st ->
    reachable (snd (create_draft_from_chat st user_id chat_id document_type draft_id now))
| reach_create_from_content st user_id chat_content document_type draft_id now :
    reachable st ->
    reachable (snd (create_draft_from_content st user_id chat_content document_type
                      draft_id now))
| reach_generate st draft_id user_id context version_id now :
    reachable st ->
    reachable (snd (generate_draft_version st draft_id user_id context version_id now))
| reach_approve st draft_id version_id user_id feedback now :
    reachable st ->
    reachable (snd (approve_draft_version st draft_id version_id user_id feedback now))
| reach_reject st draft_id version_id user_id reason feedback now :
    reachable st ->
    reachable (snd (reject_draft_version st draft_id version_id user_id reason feedback now))
| reach_modify st draft_id version_id user_id mods now :
    reachable st ->
    reachable (snd (modify_draft_version st draft_id version_id user_id mods now))
| reach_regenerate st draft_id version_id user_id feedback new_version_id now :
    reachable st ->
    reachable (snd (regenerate_draft_version st draft_id version_id user_id feedback
                      new_version_id now))
| reach_delete st draft_id user_id :
    reachable st ->
    reachable (snd (delete_draft st draft_id user_id)).

End Service.

End DraftingService.

(** ** Workflow aggregates (workflow_service.py) *)

Module WorkflowStep.

Record t : Type := mk {
  id : string;
  name : string;
  description : string;
  status : string;
  progress : Z;
  start_time : option Z;
  end_time : option Z;
  duration : Value;          (* [None] or the seconds between start and end *)
  result : Value;
  error : Value;
  can_modify : bool;
  can_approve : bool
}.

(** [WorkflowStep.__init__] *)
Definition init (step_id name description : string) : t :=
  {| id := step_id;
     name := name;
     description := description;
     status := "pending";
     progress := 0;
     start_time := None;
     end_time := None;
     duration := VNone;
     result := VNone;
     error := VNone;
     can_modify := false;
     can_approve := false |}.

Definition to_dict (s : t) : Dict :=
  [("id", VStr (id s));
   ("name", VStr (name s));
   ("description", VStr (description s));
   ("status", VStr (status s));
   ("progress", VInt (progress s));
   ("startTime", opt_time (start_time s));
   ("endTime", opt_time (end_time s));
   ("duration", duration s);
   ("result", result s);
   ("error", error s);
   ("canModify", VBool (can_modify s));
   ("canApprove", VBool (can_approve s))].

End WorkflowStep.

Module Workflow.

(** The [orchestrator] attribute is only ever [None] and is left out.
    [current_step] is only ever assigned 0, a loop index or its own
    successor, so it is a natural number here. *)
Record t : Type := mk {
  id : string;
  name : string;
  description : string;
  user_id : string;
  status : string;
  current_step : nat;
  steps : list WorkflowStep.t;
  created_at : Z;
  updated_at : Z;
  estimated_duration : Z;
  chat_id : option string;
  draft_id : Value
}.

(** [Workflow.__init__] *)
Definition init (workflow_id name description user_id : string) (now : Z) : t :=
  {| id := workflow_id;
     name := name;
     description := description;
     user_id := user_id;
     status := "idle";
     current_step := 0%nat;
     steps := [];
     created_at := now;
     updated_at := now;
     estimated_duration := 0;
     chat_id := None;
     draft_id := VNone |}.

Definition to_dict (w : t) : Dict :=
  [("id", VStr (id w));
   ("name", VStr (name w));
   ("description", VStr (description w));
   ("status", VStr (status w));
   ("currentStep", VInt (Z.of_nat (current_step w)));
   ("totalSteps", VInt (Z.of_nat (length (steps w))));
   ("steps", VList (map (fun s => VDict (WorkflowStep.to_dict s)) (steps w)));
   ("createdAt", VTime (created_at w));
   ("updatedAt", VTime (updated_at w));
   ("estimatedDuration", VInt (estimated_duration w));
   ("draftId", draft_id w)].

End Workflow.

(** A coroutine handed to [asyncio.create_task]: it keeps the workflow
    object of the call that spawned it and runs after that call returns.
    The fields of that object and of its steps are the task's own, with
    one exception: [WorkflowStep.to_dict] (line 46) puts the [result]
    dictionary itself into the stored entry and [_dict_to_workflow]
    (line 834) hands the same dictionary to every workflow it reloads, so
    the result of a step is one object for the store, for the task that
    wrote it and for the requests that loaded it.  Handlers assign a new
    dictionary to [step.result]; the one in-place update is the
    [step.result.update(modifications)] of [modify_step] (line 210),
    which therefore also reaches the object of a task that is alive
    ([WorkflowService.shared_update] below).  A [Task] is the object as
    it is when the task runs. *)
Inductive Task : Type :=
| ExecuteWorkflow (workflow : Workflow.t)
| ExecuteWorkflowStep (workflow : Workflow.t) (step_index : nat).

(** The workflow object a task holds. *)
Definition task_workflow (task : Task) : Workflow.t :=
  match task with
  | ExecuteWorkflow workflow => workflow
  | ExecuteWorkflowStep workflow _ => workflow
  end.

(** The branches of the substring dispatch in [_execute_dynamic_step]. *)
Inductive DynamicKind : Type :=
| InformationGathering
| PartyInformation
| KeyTerms
| LegalRequirements
| DocumentGeneration
| ReviewValidation
| FinalApproval
| GenericStep.

Module WorkflowService.

(** [d.get(k, False)] read as a flag *)
Definition get_flag (k : string) (d : Dict) : Res bool :=
  match dict_get k d with Some v => as_bool v | None => Ok false end.

(** [_dict_to_workflow], the step loop *)
Definition _dict_to_step (step_data : Value) : Res WorkflowStep.t :=
  sd <- as_dict step_data ;;
  sid <- item_str "id" sd ;;
  sname <- item_str "name" sd ;;
  sdesc <- item_str "description" sd ;;
  sstatus <- item_str "status" sd ;;
  sprogress <- (v <- dict_item "progress" sd ;;
                match v with VInt n => Ok n | _ => Raise "TypeError" end) ;;
  smod <- get_flag "canModify" sd ;;
  sapp <- get_flag "canApprove" sd ;;
  sstart <- get_opt_time "startTime" sd ;;
  send <- get_opt_time "endTime" sd ;;
  Ok {| WorkflowStep.id := sid;
        WorkflowStep.name := sname;
        WorkflowStep.description := sdesc;
        WorkflowStep.status := sstatus;
        WorkflowStep.progress := sprogress;
        WorkflowStep.start_time := sstart;
        WorkflowStep.end_time := send;
        WorkflowStep.duration := get_or_none "duration" sd;
        WorkflowStep.result := get_or_none "result" sd;
        WorkflowStep.error := get_or_none "error" sd;
        WorkflowStep.can_modify := smod;
        WorkflowStep.can_approve := sapp |}.

(** [_dict_to_workflow]: the owner is [workflow_data.get('user_id', '')]. *)
Definition _dict_to_workflow (workflow_data : Dict) : Res Workflow.t :=
  wid <- item_str "id" workflow_data ;;
  wname <- item_str "name" workflow_data ;;
  wdesc <- item_str "description" workflow_data ;;
  wuser <- match dict_get "user_id" workflow_data with
           | Some v => as_str v
           | None => Ok ""
           end ;;
  wstatus <- item_str "status" workflow_data ;;
  wcur <- (v <- dict_item "currentStep" workflow_data ;; as_nat v) ;;
  wcat <- item_time "createdAt" workflow_data ;;
  wuat <- item_time "updatedAt" workflow_data ;;
  west <- (v <- dict_item "estimatedDuration" workflow_data ;;
           match v with VInt n => Ok n | _ => Raise "TypeError" end) ;;
  sl <- (v <- dict_item "steps" workflow_data ;; as_list v) ;;
  ss <- mapM _dict_to_step sl ;;
  Ok {| Workflow.id := wid;
        Workflow.name := wname;
        Workflow.description := wdesc;
        Workflow.user_id := wuser;
        Workflow.status := wstatus;
        Workflow.current_step := wcur;
        Workflow.steps := ss;
        Workflow.created_at := wcat;
        Workflow.updated_at := wuat;
        Workflow.estimated_duration := west;
        Workflow.chat_id := None;
        Workflow.draft_id := get_or_none "draftId" workflow_data |}.

(** What [_dict_to_workflow] gives back for [to_dict] of a workflow:
    [to_dict] writes neither the owner nor the chat id, so the owner comes
    back as [''] and the chat id as [None]. *)
Definition reloaded (w : Workflow.t) : Workflow.t :=
  {| Workflow.id := Workflow.id w;
     Workflow.name := Workflow.name w;
     Workflow.description := Workflow.description w;
     Workflow.user_id := "";
     Workflow.status := Workflow.status w;
     Workflow.current_step := Workflow.current_step w;
     Workflow.steps := Workflow.steps w;
     Workflow.created_at := Workflow.created_at w;
     Workflow.updated_at := Workflow.updated_at w;
     Workflow.estimated_duration := Workflow.estimated_duration w;
     Workflow.chat_id := None;
     Workflow.draft_id := Workflow.draft_id w |}.

(** A store all of whose entries were written by [to_dict]. *)
Definition stored_by_to_dict (st : gmap string Dict) : Prop :=
  forall k x, st !! k = Some x -> exists w, x = Workflow.to_dict w.

(** [get_workflow]: no user id is taken. *)
Definition get_workflow (st : gmap string Dict) (workflow_id : string)
    : Res (option Workflow.t) :=
  match st !! workflow_id with
  | Some workflow_data => w <- _dict_to_workflow workflow_data ;; Ok (Some w)
  | None => Ok None
  end.

(** [workflow_data.get('user_id') == user_id] *)
Definition stored_owner_is (user_id : string) (workflow_data : Dict) : bool :=
  match dict_get "user_id" workflow_data with
  | Some (VStr u) => String.eqb u user_id
  | _ => false
  end.

(** [get_user_workflows] (the order of [WORKFLOW_STORAGE.values()] is
    the order of [map_to_list] here). *)
Definition get_user_workflows (st : gmap string Dict) (user_id : string)
    : Res (list Workflow.t) :=
  mapM _dict_to_workflow
    (filter (fun d => stored_owner_is user_id d = true) (snd <$> map_to_list st)).

(** Field writes on a workflow object *)
Definition with_status (s : string) (w : Workflow.t) : Workflow.t :=
  {| Workflow.id := Workflow.id w;
     Workflow.name := Workflow.name w;
     Workflow.description := Workflow.description w;
     Workflow.user_id := Workflow.user_id w;
     Workflow.status := s;
     Workflow.current_step := Workflow.current_step w;
     Workflow.steps := Workflow.steps w;
     Workflow.created_at := Workflow.created_at w;
     Workflow.updated_at := Workflow.updated_at w;
     Workflow.estimated_duration := Workflow.estimated_duration w;
     Workflow.chat_id := Workflow.chat_id w;
     Workflow.draft_id := Workflow.draft_id w |}.

Definition with_updated_at (now : Z) (w : Workflow.t) : Workflow.t :=
  {| Workflow.id := Workflow.id w;
     Workflow.name := Workflow.name w;
     Workflow.description := Workflow.description w;
     Workflow.user_id := Workflow.user_id w;
     Workflow.status := Workflow.status w;
     Workflow.current_step := Workflow.current_step w;
     Workflow.steps := Workflow.steps w;
     Workflow.created_at := Workflow.created_at w;
     Workflow.updated_at := now;
     Workflow.estimated_duration := Workflow.estimated_duration w;
     Workflow.chat_id := Workflow.chat_id w;
     Workflow.draft_id := Workflow.draft_id w |}.

Definition with_draft_id (d : Value) (w : Workflow.t) : Workflow.t :=
  {| Workflow.id := Workflow.id w;
     Workflow.name := Workflow.name w;
     Workflow.description := Workflow.description w;
     Workflow.user_id := Workflow.user_id w;
     Workflow.status := Workflow.status w;
     Workflow.current_step := Workflow.current_step w;
     Workflow.steps := Workflow.steps w;
     Workflow.created_at := Workflow.created_at w;
     Workflow.updated_at := Workflow.updated_at w;
     Workflow.estimated_duration := Workflow.estimated_duration w;
     Workflow.chat_id := Workflow.chat_id w;
     Workflow.draft_id := d |}.

Definition with_current_step (i : nat) (w : Workflow.t) : Workflow.t :=
  {| Workflow.id := Workflow.id w;
     Workflow.name := Workflow.name w;
     Workflow.description := Workflow.description w;
     Workflow.user_id := Workflow.user_id w;
     Workflow.status := Workflow.status w;
     Workflow.current_step := i;
     Workflow.steps := Workflow.steps w;
     Workflow.created_at := Workflow.created_at w;
     Workflow.updated_at := Workflow.updated_at w;
     Workflow.estimated_duration := Workflow.estimated_duration w;
     Workflow.chat_id := Workflow.chat_id w;
     Workflow.draft_id := Workflow.draft_id w |}.

Definition with_steps (ss : list WorkflowStep.t) (w : Workflow.t) : Workflow.t :=
  {| Workflow.id := Workflow.id w;
     Workflow.name := Workflow.name w;
     Workflow.description := Workflow.description w;
     Workflow.user_id := Workflow.user_id w;
     Workflow.status := Workflow.status w;
     Workflow.current_step := Workflow.current_step w;
     Workflow.steps := ss;
     Workflow.created_at := Workflow.created_at w;
     Workflow.updated_at := Workflow.updated_at w;
     Workflow.estimated_duration := Workflow.estimated_duration w;
     Workflow.chat_id := Workflow.chat_id w;
     Workflow.draft_id := Workflow.draft_id w |}.

(** [workflow.steps[i] = f(workflow.steps[i])] for an index in range
    (every such write in the service sits under a bounds test). *)
Definition update_step (i : nat) (f : WorkflowStep.t -> WorkflowStep.t)
    (w : Workflow.t) : Workflow.t :=
  with_steps (alter f i (Workflow.steps w)) w.

(** Field writes on a step object *)
Definition step_with_status (s : string) (st : WorkflowStep.t) : WorkflowStep.t :=
  {| WorkflowStep.id := WorkflowStep.id st;
     WorkflowStep.name := WorkflowStep.name st;
     WorkflowStep.description := WorkflowStep.description st;
     WorkflowStep.status := s;
     WorkflowStep.progress := WorkflowStep.progress st;
     WorkflowStep.start_time := WorkflowStep.start_time st;
     WorkflowStep.end_time := WorkflowStep.end_time st;
     WorkflowStep.duration := WorkflowStep.duration st;
     WorkflowStep.result := WorkflowStep.result st;
     WorkflowStep.error := WorkflowStep.error st;
     WorkflowStep.can_modify := WorkflowStep.can_modify st;
     WorkflowStep.can_approve := WorkflowStep.can_approve st |}.

Definition step_with_start_time (t : Z) (st : WorkflowStep.t) : WorkflowStep.t :=
  {| WorkflowStep.id := WorkflowStep.id st;
     WorkflowStep.name := WorkflowStep.name st;
     WorkflowStep.description := WorkflowStep.description st;
     WorkflowStep.status := WorkflowStep.status st;
     WorkflowStep.progress := WorkflowStep.progress st;
     WorkflowStep.start_time := Some t;
     WorkflowStep.end_time := WorkflowStep.end_time st;
     WorkflowStep.duration := WorkflowStep.duration st;
     WorkflowStep.result := WorkflowStep.result st;
     WorkflowStep.error := WorkflowStep.error st;
     WorkflowStep.can_modify := WorkflowStep.can_modify st;
     WorkflowStep.can_approve := WorkflowStep.can_approve st |}.

Definition step_with_progress (p : Z) (st : WorkflowStep.t) : WorkflowStep.t :=
  {| WorkflowStep.id := WorkflowStep.id st;
     WorkflowStep.name := WorkflowStep.name st;
     WorkflowStep.description := WorkflowStep.description st;
     WorkflowStep.status := WorkflowStep.status st;
     WorkflowStep.progress := p;
     WorkflowStep.start_time := WorkflowStep.start_time st;
     WorkflowStep.end_time := WorkflowStep.end_time st;
     WorkflowStep.duration := WorkflowStep.duration st;
     WorkflowStep.result := WorkflowStep.result st;
     WorkflowStep.error := WorkflowStep.error st;
     WorkflowStep.can_modify := WorkflowStep.can_modify st;
     WorkflowStep.can_approve := WorkflowStep.can_approve st |}.

Definition step_with_error (e : Value) (st : WorkflowStep.t) : WorkflowStep.t :=
  {| WorkflowStep.id := WorkflowStep.id st;
     WorkflowStep.name := WorkflowStep.name st;
     WorkflowStep.description := WorkflowStep.description st;
     WorkflowStep.status := WorkflowStep.status st;
     WorkflowStep.progress := WorkflowStep.progress st;
     WorkflowStep.start_time := WorkflowStep.start_time st;
     WorkflowStep.end_time := WorkflowStep.end_time st;
     WorkflowStep.duration := WorkflowStep.duration st;
     WorkflowStep.result := WorkflowStep.result st;
     WorkflowStep.error := e;
     WorkflowStep.can_modify := WorkflowStep.can_modify st;
     WorkflowStep.can_approve := WorkflowStep.can_approve st |}.

Definition step_with_result (r : Value) (st : WorkflowStep.t) : WorkflowStep.t :=
  {| WorkflowStep.id := WorkflowStep.id st;
     WorkflowStep.name := WorkflowStep.name st;
     WorkflowStep.description := WorkflowStep.description st;
     WorkflowStep.status := WorkflowStep.status st;
     WorkflowStep.progress := WorkflowStep.progress st;
     WorkflowStep.start_time := WorkflowStep.start_time st;
     WorkflowStep.end_time := WorkflowStep.end_time st;
     WorkflowStep.duration := WorkflowStep.duration st;
     WorkflowStep.result := r;
     WorkflowStep.error := WorkflowStep.error st;
     WorkflowStep.can_modify := WorkflowStep.can_modify st;
     WorkflowStep.can_approve := WorkflowStep.can_approve st |}.

Definition step_with_can_approve (b : bool) (st : WorkflowStep.t) : WorkflowStep.t :=
  {| WorkflowStep.id := WorkflowStep.id st;
     WorkflowStep.name := WorkflowStep.name st;
     WorkflowStep.description := WorkflowStep.description st;
     WorkflowStep.status := WorkflowStep.status st;
     WorkflowStep.progress := WorkflowStep.progress st;
     WorkflowStep.start_time := WorkflowStep.start_time st;
     WorkflowStep.end_time := WorkflowStep.end_time st;
     WorkflowStep.duration := WorkflowStep.duration st;
     WorkflowStep.result := WorkflowStep.result st;
     WorkflowStep.error := WorkflowStep.error st;
     WorkflowStep.can_modify := WorkflowStep.can_modify st;
     WorkflowStep.can_approve := b |}.

Definition step_with_can_modify (b : bool) (st : WorkflowStep.t) : WorkflowStep.t :=
  {| WorkflowStep.id := WorkflowStep.id st;
     WorkflowStep.name := WorkflowStep.name st;
     WorkflowStep.description := WorkflowStep.description st;
     WorkflowStep.status := WorkflowStep.status st;
     WorkflowStep.progress := WorkflowStep.progress st;
     WorkflowStep.start_time := WorkflowStep.start_time st;
     WorkflowStep.end_time := WorkflowStep.end_time st;
     WorkflowStep.duration := WorkflowStep.duration st;
     WorkflowStep.result := WorkflowStep.result st;
     WorkflowStep.error := WorkflowStep.error st;
     WorkflowStep.can_modify := b;
     WorkflowStep.can_approve := WorkflowStep.can_approve st |}.

(** [step.end_time = t; if step.start_time: step.duration = end - start]
    (the seconds are kept as microseconds times [10^-6]). *)
Definition step_finish (t : Z) (st : WorkflowStep.t) : WorkflowStep.t :=
  {| WorkflowStep.id := WorkflowStep.id st;
     WorkflowStep.name := WorkflowStep.name st;
     WorkflowStep.description := WorkflowStep.description st;
     WorkflowStep.status := WorkflowStep.status st;
     WorkflowStep.progress := 100;
     WorkflowStep.start_time := WorkflowStep.start_time st;
     WorkflowStep.end_time := Some t;
     WorkflowStep.duration :=
       match WorkflowStep.start_time st with
       | Some t0 => VFloat (t - t0) (-6)
       | None => WorkflowStep.duration st
       end;
     WorkflowStep.result := WorkflowStep.result st;
     WorkflowStep.error := WorkflowStep.error st;
     WorkflowStep.can_modify := WorkflowStep.can_modify st;
     WorkflowStep.can_approve := WorkflowStep.can_approve st |}.

(** [next((s for s in workflow.steps if s.id == step_id), None)] *)
Definition find_step (step_id : string) (ss : list WorkflowStep.t)
    : option (nat * WorkflowStep.t) :=
  list_find (fun s => WorkflowStep.id s = step_id) ss.

(** [WORKFLOW_STORAGE[workflow.id] = workflow.to_dict()] *)
Definition store (w : Workflow.t) (st : gmap string Dict) : gmap string Dict :=
  <[Workflow.id w := Workflow.to_dict w]> st.

(** *** Control *)

(** Each control method answers the workflow object, the new store and
    the task it hands to [asyncio.create_task], if any. *)

(** [_start_workflow] *)
Definition _start_workflow (st : gmap string Dict) (workflow : Workflow.t) (now : Z)
    : Workflow.t * gmap string Dict * option Task :=
  let w1 := with_updated_at now (with_current_step 0 (with_status "running" workflow)) in
  let w2 :=
    match Workflow.steps w1 with
    | [] => w1
    | _ :: _ =>
        update_step 0 (fun s => step_with_start_time now (step_with_status "running" s)) w1
    end in
  (w2, store w2 st, Some (ExecuteWorkflow w2)).

(** [_pause_workflow] *)
Definition _pause_workflow (st : gmap string Dict) (workflow : Workflow.t) (now : Z)
    : Workflow.t * gmap string Dict * option Task :=
  let w1 := with_updated_at now (with_status "paused" workflow) in
  let w2 :=
    if (Workflow.current_step w1 <? length (Workflow.steps w1))%nat
    then update_step (Workflow.current_step w1) (step_with_status "paused") w1
    else w1 in
  (w2, store w2 st, None).

(** [_resume_workflow] *)
Definition _resume_workflow (st : gmap string Dict) (workflow : Workflow.t) (now : Z)
    : Workflow.t * gmap string Dict * option Task :=
  let w1 := with_updated_at now (with_status "running" workflow) in
  let w2 :=
    if (Workflow.current_step w1 <? length (Workflow.steps w1))%nat
    then update_step (Workflow.current_step w1) (step_with_status "running") w1
    else w1 in
  (w2, store w2 st, Some (ExecuteWorkflowStep w2 (Workflow.current_step w2))).

(** [_stop_workflow] *)
Definition _stop_workflow (st : gmap string Dict) (workflow : Workflow.t) (now : Z)
    : Workflow.t * gmap string Dict * option Task :=
  let w1 := with_updated_at now (with_status "error" workflow) in
  let w2 :=
    if (Workflow.current_step w1 <? length (Workflow.steps w1))%nat
    then update_step (Workflow.current_step w1)
           (fun s => step_with_error (VStr "Workflow stopped by user")
                       (step_with_status "error" s)) w1
    else w1 in
  (w2, store w2 st, None).

(** [control_workflow]: no user id is taken and the current status of the
    workflow is not consulted. *)
Definition control_workflow (st : gmap string Dict) (workflow_id action : string)
    (now : Z) : Res (option Workflow.t) * gmap string Dict * option Task :=
  match get_workflow st workflow_id with
  | Raise e => (Raise e, st, None)
  | Ok None => (Ok None, st, None)
  | Ok (Some workflow) =>
      let wrap (r : Workflow.t * gmap string Dict * option Task) :=
        (Ok (Some (fst (fst r))), snd (fst r), snd r) in
      if String.eqb action "start" then wrap (_start_workflow st workflow now)
      else if String.eqb action "pause" then wrap (_pause_workflow st workflow now)
      else if String.eqb action "resume" then wrap (_resume_workflow st workflow now)
      else if String.eqb action "stop" then wrap (_stop_workflow st workflow now)
      else (Ok (Some workflow), st, None)
  end.

(** [approve_step]: the test is on the status of the step alone. *)
Definition approve_step (st : gmap string Dict) (workflow_id step_id : string)
    (now : Z) : Res (option Workflow.t) * gmap string Dict * option Task :=
  match get_workflow st workflow_id with
  | Raise e => (Raise e, st, None)
  | Ok None => (Ok None, st, None)
  | Ok (Some workflow) =>
      match find_step step_id (Workflow.steps workflow) with
      | Some (i, step) =>
          if String.eqb (WorkflowStep.status step) "completed" then
            let w1 := update_step i (step_with_can_approve false) workflow in
            let w2 :=
              if Z.of_nat (Workflow.current_step w1)
                 <? Z.of_nat (length (Workflow.steps w1)) - 1
              then
                let w := with_current_step (S (Workflow.current_step w1)) w1 in
                update_step (Workflow.current_step w)
                  (fun s => step_with_start_time now (step_with_status "running" s)) w
              else w1 in
            let w3 := with_updated_at now w2 in
            (Ok (Some w3), <[workflow_id := Workflow.to_dict w3]> st,
             Some (ExecuteWorkflowStep w3 (Workflow.current_step w3)))
          else (Ok (Some workflow), st, None)
      | None => (Ok (Some workflow), st, None)
      end
  end.

(** [modify_step] *)
Definition modify_step (st : gmap string Dict) (workflow_id step_id : string)
    (modifications : Dict) (now : Z) : Res (option Workflow.t) * gmap string Dict :=
  match get_workflow st workflow_id with
  | Raise e => (Raise e, st)
  | Ok None => (Ok None, st)
  | Ok (Some workflow) =>
      match find_step step_id (Workflow.steps workflow) with
      | Some (i, step) =>
          if String.eqb (WorkflowStep.status step) "completed" then
            let applied :=
              if truthy (WorkflowStep.result step) && truthy (VDict modifications) then
                match WorkflowStep.result step with
                | VDict r =>
                    Ok (update_step i
                          (fun s => step_with_can_modify false
                                      (step_with_result (VDict (dict_update r modifications)) s))
                          workflow)
                | _ => Raise "AttributeError"
                end
              else Ok workflow in
            match applied with
            | Ok w1 =>
                let w2 := with_updated_at now w1 in
                (Ok (Some w2), <[workflow_id := Workflow.to_dict w2]> st)
            | Raise e => (Raise e, st)
            end
          else (Ok (Some workflow), st)
      | None => (Ok (Some workflow), st)
      end
  end.

(** The [current_step] of the workflow stored under an id. *)
Definition stored_current_step (st : gmap string Dict) (workflow_id : string)
    : option nat :=
  match get_workflow st workflow_id with
  | Ok (Some w) => Some (Workflow.current_step w)
  | _ => None
  end.

(** What the service consumes: the chat-history store behind
    [_load_chat_messages], the analyzer, the entity-mapper methods called
    by the named step handlers, the payload builders of the dynamic step,
    Python's [json.dumps] and [strftime], and its own drafting service. *)
Record Collaborators : Type := {
  _load_chat_messages : string -> option string -> list Message;
  analyze_conversation : list Message -> Res Dict;
  conduct_legal_research : string -> Res Dict;
  extract_document_info : string -> Res Dict;
  draft_document : string -> Res Dict;
  validate_document : string -> Res Dict;
  review_document : string -> Res Dict;
  dynamic_result : DynamicKind -> list Message -> Workflow.t -> WorkflowStep.t -> Res Value;
  json_dumps : Value -> string;
  strftime : Z -> string;
  drafting_service : DraftingService.Collaborators
}.

Section Service.

Variable C : Collaborators.

(** [export_workflow] *)
Definition export_workflow (st : gmap string Dict) (workflow_id format : string)
    : Res (option string) :=
  wo <- get_workflow st workflow_id ;;
  match wo with
  | None => Ok None
  | Some workflow =>
      let results :=
        VDict [("workflow",
                VDict [("id", VStr (Workflow.id workflow));
                       ("name", VStr (Workflow.name workflow));
                       ("description", VStr (Workflow.description workflow));
                       ("status", VStr (Workflow.status workflow));
                       ("created_at", VTime (Workflow.created_at workflow));
                       ("completed_at", VTime (Workflow.updated_at workflow))]);
               ("steps",
                VList (map (fun step =>
                         VDict [("name", VStr (WorkflowStep.name step));
                                ("description", VStr (WorkflowStep.description step));
                                ("status", VStr (WorkflowStep.status step));
                                ("duration", WorkflowStep.duration step);
                                ("result", WorkflowStep.result step);
                                ("error", WorkflowStep.error step)])
                       (Workflow.steps workflow)))] in
      if String.eqb format "json" then Ok (Some (json_dumps C results))
      else if String.eqb format "pdf" then Ok (Some (json_dumps C results))
      else if String.eqb format "docx" then Ok (Some (json_dumps C results))
      else Ok None
  end.

(** The result payload shared by the five named handlers. *)
Definition named_result (type_tag : string) (r : Dict) (now : Z) : Value :=
  VDict [("type", VStr type_tag);
         ("content", match dict_get "content" r with Some c => c | None => VDict [] end);
         ("metadata",
          VDict [("sources",
                  match dict_get "sources" r with Some v => v | None => VList [] end);
                 ("confidence",
                  match dict_get "confidence" r with Some v => v | None => VFloat 0 0 end);
                 ("timestamp", VTime now)])].

Definition conversation_of (workflow : Workflow.t) : string :=
  join nl (map msg_content
             (_load_chat_messages C (Workflow.user_id workflow) (Workflow.chat_id workflow))).

(** A handler answers the exception it raised, if any, and the workflow
    object with the step at [i] as the handler left it. *)

(** [_execute_research_step] *)
Definition _execute_research_step (workflow : Workflow.t) (i : nat) (now : Z)
    : option string * Workflow.t :=
  match conduct_legal_research C (conversation_of workflow) with
  | Raise e => (Some e, workflow)
  | Ok r =>
      (None,
       update_step i
         (fun s => step_with_can_approve true
                     (step_with_status "completed"
                        (step_with_result (named_result "research" r now) s)))
         workflow)
  end.

(** [_execute_extraction_step] *)
Definition _execute_extraction_step (workflow : Workflow.t) (i : nat) (now : Z)
    : option string * Workflow.t :=
  match extract_document_info C (conversation_of workflow) with
  | Raise e => (Some e, workflow)
  | Ok r =>
      (None,
       update_step i
         (fun s => step_with_can_approve true
                     (step_with_status "completed"
                        (step_with_result (named_result "extraction" r now) s)))
         workflow)
  end.

(** [_execute_drafting_step] *)
Definition _execute_drafting_step (workflow : Workflow.t) (i : nat) (now : Z)
    : option string * Workflow.t :=
  match draft_document C (conversation_of workflow) with
  | Raise e => (Some e, workflow)
  | Ok r =>
      (None,
       update_step i
         (fun s => step_with_can_modify true
                     (step_with_can_approve true
                        (step_with_status "completed"
                           (step_with_result (named_result "draft" r now) s))))
         workflow)
  end.

(** [_execute_validation_step] *)
Definition _execute_validation_step (workflow : Workflow.t) (i : nat) (now : Z)
    : option string * Workflow.t :=
  match validate_document C (conversation_of workflow) with
  | Raise e => (Some e, workflow)
  | Ok r =>
      (None,
       update_step i
         (fun s => step_with_can_approve true
                     (step_with_status "completed"
                        (step_with_result (named_result "validation" r now) s)))
         workflow)
  end.

(** [_execute_review_step]: the status is set, [can_approve] is not. *)
Definition _execute_review_step (workflow : Workflow.t) (i : nat) (now : Z)
    : option string * Workflow.t :=
  match review_document C (conversation_of workflow) with
  | Raise e => (Some e, workflow)
  | Ok r =>
      (None,
       update_step i
         (fun s => step_with_status "completed"
                     (step_with_result (named_result "review" r now) s))
         workflow)
  end.

(** The substring dispatch of [_execute_dynamic_step]. *)
Definition dynamic_kind (step_name_lower : string) : DynamicKind :=
  if contains "information gathering" step_name_lower then InformationGathering
  else if contains "party information" step_name_lower then PartyInformation
  else if contains "key terms" step_name_lower then KeyTerms
  else if contains "legal requirements" step_name_lower then LegalRequirements
  else if contains "document generation" step_name_lower then DocumentGeneration
  else if contains "review" step_name_lower || contains "validation" step_name_lower
       then ReviewValidation
  else if contains "final approval" step_name_lower then FinalApproval
  else GenericStep.

(** [_execute_dynamic_step]; it writes the store once, after setting the
    progress to 25. *)
Definition _execute_dynamic_step (st : gmap string Dict) (workflow : Workflow.t)
    (i : nat) (step : WorkflowStep.t)
    : option string * Workflow.t * gmap string Dict :=
  let chat_messages :=
    _load_chat_messages C (Workflow.user_id workflow) (Workflow.chat_id workflow) in
  let w1 := update_step i (step_with_progress 25) workflow in
  let st1 := store w1 st in
  let kind := dynamic_kind (str_lower (WorkflowStep.name step)) in
  match dynamic_result C kind chat_messages w1 (step_with_progress 25 step) with
  | Raise e => (Some e, w1, st1)
  | Ok r =>
      (None,
       update_step i
         (fun s => step_with_can_approve true
                     (step_with_status "completed" (step_with_result r s)))
         w1,
       st1)
  end.

(** [_execute_workflow_step]; [t_start] and [t_end] are the two readings
    of the clock, before and after the handler (the handler's own
    reading, which only stamps its payload, is taken equal to [t_end]). *)
Definition _execute_workflow_step (st : gmap string Dict) (workflow : Workflow.t)
    (step_index : nat) (t_start t_end : Z) : Workflow.t * gmap string Dict :=
  if (length (Workflow.steps workflow) <=? step_index)%nat then (workflow, st)
  else
    let w1 :=
      update_step step_index
        (fun s => step_with_progress 0
                    (step_with_start_time t_start (step_with_status "running" s)))
        workflow in
    let st1 := store w1 st in
    match Workflow.steps w1 !! step_index with
    | None => (workflow, st)
    | Some step =>
        let step_name_lower := str_lower (WorkflowStep.name step) in
        let '(raised, w2, st2) :=
          if String.eqb step_name_lower "research"
          then (_execute_research_step w1 step_index t_end, st1)
          else if String.eqb step_name_lower "extraction"
          then (_execute_extraction_step w1 step_index t_end, st1)
          else if String.eqb step_name_lower "drafting"
          then (_execute_drafting_step w1 step_index t_end, st1)
          else if String.eqb step_name_lower "validation"
          then (_execute_validation_step w1 step_index t_end, st1)
          else if String.eqb step_name_lower "review"
          then (_execute_review_step w1 step_index t_end, st1)
          else _execute_dynamic_step st1 w1 step_index step in
        let w3 :=
          match raised with
          | Some e =>
              with_status "error"
                (update_step step_index
                   (fun s => step_with_error (VStr e) (step_with_status "error" s)) w2)
          | None => w2
          end in
        let w4 := with_updated_at t_end (update_step step_index (step_finish t_end) w3) in
        (w4, store w4 st2)
    end.

(** The loop of [_execute_workflow] over the remaining indices, run
    without any other request in between; [clock i] gives the two clock
    readings of step [i]. *)
Fixpoint execute_steps (clock : nat -> Z * Z) (indices : list nat)
    (workflow : Workflow.t) (st : gmap string Dict) : Workflow.t * gmap string Dict :=
  match indices with
  | [] => (workflow, st)
  | i :: rest =>
      if negb (String.eqb (Workflow.status workflow) "running") then (workflow, st)
      else
        let w1 := with_current_step i workflow in
        let '(w2, st2) :=
          _execute_workflow_step st w1 i (fst (clock i)) (snd (clock i)) in
        if negb (String.eqb (Workflow.status w2) "running") then (w2, st2)
        else execute_steps clock rest w2 st2
  end.

(** [_execute_workflow].  No exception escapes [_execute_workflow_step],
    so the [except] branch of the driver is never entered. *)
Definition _execute_workflow (st : gmap string Dict) (workflow : Workflow.t)
    (clock : nat -> Z * Z) (t_final : Z) : Workflow.t * gmap string Dict :=
  let '(w1, st1) :=
    execute_steps clock (seq 0 (length (Workflow.steps workflow))) workflow st in
  if String.eqb (Workflow.status w1) "running" then
    let w2 := with_updated_at t_final (with_status "completed" w1) in
    (w2, store w2 st1)
  else (w1, st1).

(** Running a task to its end from the object it holds, no other request
    being served before it ends.  The task reads nothing from
    [WORKFLOW_STORAGE]; it writes its own object over the entry of the
    workflow. *)
Definition run_task (st : gmap string Dict) (task : Task) (clock : nat -> Z * Z)
    (t_final : Z) : Workflow.t * gmap string Dict :=
  match task with
  | ExecuteWorkflow w => _execute_workflow st w clock t_final
  | ExecuteWorkflowStep w i => _execute_workflow_step st w i (fst (clock i)) (snd (clock i))
  end.

(** The indices at which the loop of [_execute_workflow] calls
    [_execute_workflow_step], in the order of the calls. *)
Fixpoint executed_indices (clock : nat -> Z * Z) (indices : list nat)
    (workflow : Workflow.t) (st : gmap string Dict) : list nat :=
  match indices with
  | [] => []
  | i :: rest =>
      if negb (String.eqb (Workflow.status workflow) "running") then []
      else
        let w1 := with_current_step i workflow in
        let '(w2, st2) :=
          _execute_workflow_step st w1 i (fst (clock i)) (snd (clock i)) in
        i :: (if negb (String.eqb (Workflow.status w2) "running") then []
              else executed_indices clock rest w2 st2)
  end.

(** The steps a task executes: the driver those of its loop, the executor
    of one step that step when it exists. *)
Definition steps_run_by (st : gmap string Dict) (task : Task) (clock : nat -> Z * Z)
    : list nat :=
  match task with
  | ExecuteWorkflow w =>
      executed_indices clock (seq 0 (length (Workflow.steps w))) w st
  | ExecuteWorkflowStep w i =>
      if (length (Workflow.steps w) <=? i)%nat then [] else [i]
  end.

(** What the in-place [step.result.update(modifications)] of a
    [modify_step] call does to the workflow object of a live task that
    shares the result dictionary of the step at [step_index]. *)
Definition shared_update (step_index : nat) (modifications : Dict) (w : Workflow.t)
    : Workflow.t :=
  update_step step_index
    (fun s =>
       match WorkflowStep.result s with
       | VDict r => step_with_result (VDict (dict_update r modifications)) s
       | _ => s
       end)
    w.

(** [_analyze_chat_for_document_intent] *)
Definition _analyze_chat_for_document_intent (chat_messages : list Message) : Dict :=
  match analyze_conversation C chat_messages with
  | Ok r => r
  | Raise _ =>
      [("has_document_intent", VBool false);
       ("document_type", VNone);
       ("confidence", VFloat 0 0);
       ("requirements", VDict []);
       ("extracted_info", VDict [])]
  end.

(** [f"step_{step_counter}"] *)
Definition step_name_of (step_counter : nat) : string :=
  "step_" ++ NilZero.string_of_uint (Nat.to_uint step_counter).

(** [steps.append(WorkflowStep(f"step_{step_counter}", ...)); step_counter += 1] *)
Definition add_step (name description : string) (acc : list WorkflowStep.t * nat)
    : list WorkflowStep.t * nat :=
  ((fst acc ++ [WorkflowStep.init (step_name_of (snd acc)) name description])%list,
   S (snd acc)).

(** [not extracted_info.get(k)] *)
Definition lacks (k : string) (extracted_info : Dict) : bool :=
  negb (truthy (get_or_none k extracted_info)).

(** [_create_dynamic_workflow_steps] *)
Definition _create_dynamic_workflow_steps (analysis_result : Dict)
    : Res (list WorkflowStep.t) :=
  extracted_info <- get_dict_or_empty "extracted_info" analysis_result ;;
  let a1 := add_step "Information Gathering"
              "Collect and organize required information from conversation" ([], 1%nat) in
  let a2 := if lacks "parties_involved" extracted_info
            then add_step "Party Information" "Define parties involved in the document" a1
            else a1 in
  let a3 := if lacks "key_terms" extracted_info
            then add_step "Key Terms Definition" "Define key terms and conditions" a2
            else a2 in
  let a4 := if lacks "legal_requirements" extracted_info
            then add_step "Legal Requirements" "Identify and verify legal requirements" a3
            else a3 in
  let a5 := add_step "Document Generation"
              "Generate the document based on collected information" a4 in
  let a6 := add_step "Review & Validation"
              "Review document for accuracy and compliance" a5 in
  let a7 := add_step "Final Approval" "Final review and approval" a6 in
  Ok (fst a7).

Definition generic_steps : list WorkflowStep.t :=
  [WorkflowStep.init "step_1" "Research" "Legal research and case law analysis";
   WorkflowStep.init "step_2" "Extraction" "Document information extraction";
   WorkflowStep.init "step_3" "Drafting" "Document drafting and generation";
   WorkflowStep.init "step_4" "Validation" "Legal compliance and quality check";
   WorkflowStep.init "step_5" "Review" "Final review and approval"].

Definition new_workflow (workflow_id name description user_id : string)
    (chat_id : option string) (steps : list WorkflowStep.t) (now : Z) : Workflow.t :=
  {| Workflow.id := workflow_id;
     Workflow.name := name;
     Workflow.description := description;
     Workflow.user_id := user_id;
     Workflow.status := "idle";
     Workflow.current_step := 0%nat;
     Workflow.steps := steps;
     Workflow.created_at := now;
     Workflow.updated_at := now;
     Workflow.estimated_duration := Z.of_nat (length steps) * 3;
     Workflow.chat_id := chat_id;
     Workflow.draft_id := VNone |}.

(** [create_workflow_from_chat]; [workflow_id] is the fresh [uuid4]. *)
Definition create_workflow_from_chat (st : gmap string Dict)
    (user_id chat_id workflow_id : string) (now : Z)
    : Res Workflow.t * gmap string Dict :=
  let chat_messages := _load_chat_messages C user_id (Some chat_id) in
  let analysis_result := _analyze_chat_for_document_intent chat_messages in
  let built :=
    if truthy (match dict_get "has_document_intent" analysis_result with
               | Some v => v
               | None => VBool false
               end)
    then
      match (match dict_get "document_type" analysis_result with
             | Some v => v
             | None => VStr "custom_document"
             end) with
      | VStr document_type =>
          steps <- _create_dynamic_workflow_steps analysis_result ;;
          Ok (str_title (replace_underscore document_type) ++ " Workflow",
              "Document creation workflow for " ++ replace_underscore document_type,
              steps)
      | _ => Raise "AttributeError"
      end
    else Ok ("Legal Workflow " ++ strftime C now,
             "Multi-step legal document processing workflow",
             generic_steps) in
  match built with
  | Ok (name, description, steps) =>
      let workflow :=
        new_workflow workflow_id name description user_id (Some chat_id) steps now in
      (Ok workflow, store workflow st)
  | Raise e => (Raise e, st)
  end.

(** [create_draft_from_workflow]; the two stores are the workflow store
    and the draft store.  The draft is written before the link to the
    workflow is set on the draft object, so the stored draft has none. *)
Definition create_draft_from_workflow (wst dst : gmap string Dict)
    (workflow_id user_id draft_id : string) (now : Z)
    : Res (option string) * gmap string Dict * gmap string Dict :=
  match get_workflow wst workflow_id with
  | Raise e => (Raise e, wst, dst)
  | Ok None => (Ok None, wst, dst)
  | Ok (Some workflow) =>
      if negb (String.eqb (Workflow.user_id workflow) user_id) then (Ok None, wst, dst)
      else
        match DraftingService.create_draft_from_chat (drafting_service C)
                dst user_id (Workflow.chat_id workflow) None draft_id now with
        | (Raise e, dst') => (Raise e, wst, dst')
        | (Ok draft, dst') =>
            let w1 := with_draft_id (VStr (DocumentDraft.id draft)) workflow in
            (Ok (Some (DocumentDraft.id draft)), <[workflow_id := Workflow.to_dict w1]> wst, dst')
        end
  end.

(** The workflow stores the service can be in: empty at start-up, then
    whatever its mutating methods and the tasks they spawn leave behind. *)
Inductive reachable : gmap string Dict -> Prop :=
| reach_start : reachable ∅
| reach_create st user_id chat_id workflow_id now :
    reachable st ->
    reachable (snd (create_workflow_from_chat st user_id chat_id workflow_id now))
| reach_control st workflow_id action now :
    reachable st ->
    reachable (snd (fst (control_workflow st workflow_id action now)))
| reach_approve_step st workflow_id step_id now :
    reachable st ->
    reachable (snd (fst (approve_step st workflow_id step_id now)))
| reach_modify_step st workflow_id step_id modifications now :
    reachable st ->
    reachable (snd (modify_step st workflow_id step_id modifications now))
| reach_create_draft st dst workflow_id user_id draft_id now :
    reachable st ->
    reachable (snd (fst (create_draft_from_workflow st dst workflow_id user_id draft_id now)))
| reach_task st task clock t_final :
    reachable st ->
    reachable (snd (run_task st task clock t_final)).

End Service.

End WorkflowService.

(** ** The HTTP handlers (api/endpoints) *)

(** What a handler answers: the JSON body it returns, the attachment it
    streams, or the [HTTPException] it raises. *)
Inductive Response : Type :=
| Json (body : Dict)
| Stream (data media_type content_disposition : string)
| HTTPException (status_code : Z) (detail : string).

(** The values read from the verified token and from the request body are
    strings or missing: [user_id] is [user_data.get("id")], [chat_id],
    [action] and [format] are the request's entries. *)

(** [not user_id] *)
Definition no_user (user_id : option string) : bool :=
  match user_id with
  | Some (String _ _) => false
  | _ => true
  end.

(** The string behind a user id that passed [not user_id]. *)
Definition the_user (user_id : option string) : string :=
  match user_id with Some u => u | None => "" end.

(** *** The workflow handlers (api/endpoints/workflows.py) *)

Module WorkflowEndpoints.

(** [workflow.user_id != user_id] *)
Definition not_owner (workflow : Workflow.t) (user_id : option string) : bool :=
  match user_id with
  | Some u => negb (String.eqb (Workflow.user_id workflow) u)
  | None => true
  end.

(** [get_workflows]: its [except Exception] clause also catches the 401
    raised inside the [try]. *)
Definition get_workflows (st : gmap string Dict) (user_id : option string) : Response :=
  if no_user user_id then HTTPException 500 "Failed to retrieve workflows"
  else
    match WorkflowService.get_user_workflows st (the_user user_id) with
    | Raise _ => HTTPException 500 "Failed to retrieve workflows"
    | Ok workflows =>
        Json [("success", VBool true);
              ("workflows", VList (map (fun w => VDict (Workflow.to_dict w)) workflows))]
    end.

(** The three tests that open every handler of a stored workflow: the
    caller, the workflow, the owner.  [failure] is the detail of the 500
    answer of the handler. *)
Definition authorize (st : gmap string Dict) (workflow_id : string)
    (user_id : option string) (failure : string) : Response + Workflow.t :=
  match WorkflowService.get_workflow st workflow_id with
  | Raise _ => inl (HTTPException 500 failure)
  | Ok None => inl (HTTPException 404 "Workflow not found")
  | Ok (Some workflow) =>
      if not_owner workflow user_id then inl (HTTPException 403 "Access denied")
      else inr workflow
  end.

(** [get_workflow] *)
Definition get_workflow (st : gmap string Dict) (workflow_id : string)
    (user_id : option string) : Response :=
  if no_user user_id then HTTPException 401 "Invalid user token"
  else
    match authorize st workflow_id user_id "Failed to retrieve workflow" with
    | inl refusal => refusal
    | inr workflow =>
        Json [("success", VBool true); ("workflow", VDict (Workflow.to_dict workflow))]
    end.

(** [control_workflow] *)
Definition control_workflow (st : gmap string Dict) (workflow_id : string)
    (action user_id : option string) (now : Z)
    : Response * gmap string Dict * option Task :=
  if no_user user_id then (HTTPException 401 "Invalid user token", st, None)
  else
    match action with
    | Some a =>
        if String.eqb a "start" || String.eqb a "pause" || String.eqb a "resume"
           || String.eqb a "stop"
        then
          match authorize st workflow_id user_id "Failed to control workflow" with
          | inl refusal => (refusal, st, None)
          | inr _ =>
              match WorkflowService.control_workflow st workflow_id a now with
              | (Ok (Some updated_workflow), st', task) =>
                  (Json [("success", VBool true);
                         ("workflow", VDict (Workflow.to_dict updated_workflow));
                         ("message", VStr ("Workflow " ++ a ++ "ed successfully"))],
                   st', task)
              | (_, st', task) =>
                  (HTTPException 500 "Failed to control workflow", st', task)
              end
          end
        else (HTTPException 400 "Valid action (start, pause, resume, stop) is required",
              st, None)
    | None => (HTTPException 400 "Valid action (start, pause, resume, stop) is required",
               st, None)
    end.

(** [approve_step] *)
Definition approve_step (st : gmap string Dict) (workflow_id step_id : string)
    (user_id : option string) (now : Z) : Response * gmap string Dict * option Task :=
  if no_user user_id then (HTTPException 401 "Invalid user token", st, None)
  else
    match authorize st workflow_id user_id "Failed to approve step" with
    | inl refusal => (refusal, st, None)
    | inr _ =>
        match WorkflowService.approve_step st workflow_id step_id now with
        | (Ok (Some updated_workflow), st', task) =>
            (Json [("success", VBool true);
                   ("workflow", VDict (Workflow.to_dict updated_workflow));
                   ("message", VStr "Step approved successfully")],
             st', task)
        | (_, st', task) => (HTTPException 500 "Failed to approve step", st', task)
        end
    end.

(** [modify_step]; [modifications] is [request.get("modifications", {})]. *)
Definition modify_step (st : gmap string Dict) (workflow_id step_id : string)
    (modifications : Dict) (user_id : option string) (now : Z)
    : Response * gmap string Dict :=
  if no_user user_id then (HTTPException 401 "Invalid user token", st)
  else
    match authorize st workflow_id user_id "Failed to modify step" with
    | inl refusal => (refusal, st)
    | inr _ =>
        match WorkflowService.modify_step st workflow_id step_id modifications now with
        | (Ok (Some updated_workflow), st') =>
            (Json [("success", VBool true);
                   ("workflow", VDict (Workflow.to_dict updated_workflow));
                   ("message", VStr "Step modified successfully")],
             st')
        | (_, st') => (HTTPException 500 "Failed to modify step", st')
        end
    end.

(** [delete_workflow]: the entry is removed from [WORKFLOW_STORAGE] by
    the handler itself. *)
Definition delete_workflow (st : gmap string Dict) (workflow_id : string)
    (user_id : option string) : Response * gmap string Dict :=
  if no_user user_id then (HTTPException 401 "Invalid user token", st)
  else
    match authorize st workflow_id user_id "Failed to delete workflow" with
    | inl refusal => (refusal, st)
    | inr _ =>
        (Json [("success", VBool true); ("message", VStr "Workflow deleted successfully")],
         delete workflow_id st)
    end.

Section Handlers.

Variable C : WorkflowService.Collaborators.

(** [create_workflow_from_chat]; [workflow_id] is the fresh [uuid4] of
    the service. *)
Definition create_workflow_from_chat (st : gmap string Dict)
    (chat_id user_id : option string) (workflow_id : string) (now : Z)
    : Response * gmap string Dict :=
  if no_user user_id then (HTTPException 401 "Invalid user token", st)
  else
    match chat_id with
    | Some (String c r) =>
        match WorkflowService.create_workflow_from_chat C st (the_user user_id)
                (String c r) workflow_id now with
        | (Ok workflow, st') =>
            (Json [("success", VBool true);
                   ("workflow", VDict (Workflow.to_dict workflow));
                   ("message", VStr "Workflow created successfully")],
             st')
        | (Raise _, st') => (HTTPException 500 "Failed to create workflow", st')
        end
    | _ => (HTTPException 400 "chat_id is required", st)
    end.

(** [export_workflow]; [format] is [request.get("format", "json")]. *)
Definition export_workflow (st : gmap string Dict) (workflow_id format : string)
    (user_id : option string) : Response :=
  if no_user user_id then HTTPException 401 "Invalid user token"
  else if negb (String.eqb format "json" || String.eqb format "pdf"
                || String.eqb format "docx")
  then HTTPException 400 "Valid format (json, pdf, docx) is required"
  else
    match authorize st workflow_id user_id "Failed to export workflow" with
    | inl refusal => refusal
    | inr _ =>
        match WorkflowService.export_workflow C st workflow_id format with
        | Ok (Some (String c r)) =>
            Stream (String c r)
              (if String.eqb format "json" then "application/json"
               else if String.eqb format "pdf" then "application/pdf"
               else "application/vnd.openxmlformats-officedocument.wordprocessingml.document")
              ("attachment; filename=workflow-" ++ workflow_id ++ "." ++ format)
        | _ => HTTPException 500 "Failed to export workflow"
        end
    end.

(** [create_draft_from_workflow]; the ownership test is the service's. *)
Definition create_draft_from_workflow (wst dst : gmap string Dict)
    (workflow_id : string) (user_id : option string) (draft_id : string) (now : Z)
    : Response * gmap string Dict * gmap string Dict :=
  if no_user user_id then (HTTPException 401 "Invalid user token", wst, dst)
  else
    match WorkflowService.create_draft_from_workflow C wst dst workflow_id
            (the_user user_id) draft_id now with
    | (Ok (Some (String c r)), wst', dst') =>
        (Json [("success", VBool true);
               ("draft_id", VStr (String c r));
               ("message", VStr "Draft created from workflow successfully")],
         wst', dst')
    | (Ok _, wst', dst') =>
        (HTTPException 404 "Workflow not found or access denied", wst', dst')
    | (Raise _, wst', dst') =>
        (HTTPException 500 "Failed to create draft from workflow", wst', dst')
    end.

(** The workflow stores that requests to these handlers can produce:
    empty at start-up, then what a handler leaves behind, and what a task
    spawned by a handler leaves behind when it runs. *)
Inductive reachable : gmap string Dict -> Prop :=
| reach_start : reachable ∅
| reach_create st chat_id user_id workflow_id now :
    reachable st ->
    reachable (snd (create_workflow_from_chat st chat_id user_id workflow_id now))
| reach_control st workflow_id action user_id now :
    reachable st ->
    reachable (snd (fst (control_workflow st workflow_id action user_id now)))
| reach_approve_step st workflow_id step_id user_id now :
    reachable st ->
    reachable (snd (fst (approve_step st workflow_id step_id user_id now)))
| reach_modify_step st workflow_id step_id modifications user_id now :
    reachable st ->
    reachable (snd (modify_step st workflow_id step_id modifications user_id now))
| reach_delete st workflow_id user_id :
    reachable st ->
    reachable (snd (delete_workflow st workflow_id user_id))
| reach_create_draft st dst workflow_id user_id draft_id now :
    reachable st ->
    reachable (snd (fst (create_draft_from_workflow st dst workflow_id user_id draft_id now)))
| reach_control_task st0 st workflow_id action user_id now task clock t_final :
    reachable st0 ->
    snd (control_workflow st0 workflow_id action user_id now) = Some task ->
    reachable st ->
    reachable (snd (WorkflowService.run_task C st task clock t_final))
| reach_approve_task st0 st workflow_id step_id user_id now task clock t_final :
    reachable st0 ->
    snd (approve_step st0 workflow_id step_id user_id now) = Some task ->
    reachable st ->
    reachable (snd (WorkflowService.run_task C st task clock t_final)).

(** A workflow as [create_workflow_from_chat] leaves it: idle, at step 0,
    without a draft, every step pending. *)
Definition untouched (w : Workflow.t) : Prop :=
  Workflow.status w = "idle" /\
  Workflow.current_step w = 0%nat /\
  Workflow.draft_id w = VNone /\
  Forall (fun s => WorkflowStep.status s = "pending") (Workflow.steps w).

Definition all_untouched (st : gmap string Dict) : Prop :=
  forall k x, st !! k = Some x -> exists w, x = Workflow.to_dict w /\ untouched w.

End Handlers.

End WorkflowEndpoints.

(** *** The draft handlers (api/endpoints/drafting.py) *)

Module DraftEndpoints.

(** [draft.user_id != user_id] *)
Definition not_owner (draft : DocumentDraft.t) (user_id : option string) : bool :=
  match user_id with
  | Some u => negb (String.eqb (DocumentDraft.user_id draft) u)
  | None => true
  end.

(** [get_draft]: an unknown id and a draft of somebody else get different
    answers. *)
Definition get_draft (st : gmap string Dict) (draft_id : string)
    (user_id : option string) : Response :=
  if no_user user_id then HTTPException 401 "Invalid user token"
  else
    match DraftingService.get_draft st draft_id with
    | Raise _ => HTTPException 500 "Failed to retrieve draft"
    | Ok None => HTTPException 404 "Draft not found"
    | Ok (Some draft) =>
        if not_owner draft user_id then HTTPException 403 "Access denied"
        else Json [("success", VBool true); ("draft", VDict (DocumentDraft.to_dict draft))]
    end.

(** [approve_draft_version]; [feedback] is [request.get("feedback")]. *)
Definition approve_draft_version (st : gmap string Dict)
    (draft_id version_id : string) (feedback : Value) (user_id : option string) (now : Z)
    : Response * gmap string Dict :=
  if no_user user_id then (HTTPException 401 "Invalid user token", st)
  else
    match DraftingService.approve_draft_version st draft_id version_id (the_user user_id)
            feedback now with
    | (Raise _, st') => (HTTPException 500 "Failed to approve draft version", st')
    | (Ok false, st') =>
        (HTTPException 404 "Draft or version not found, or version cannot be approved", st')
    | (Ok true, st') =>
        match DraftingService.get_draft st' draft_id with
        | Raise _ => (HTTPException 500 "Failed to approve draft version", st')
        | Ok None => (HTTPException 404 "Draft not found after approval", st')
        | Ok (Some updated_draft) =>
            (Json [("success", VBool true);
                   ("draft", VDict (DocumentDraft.to_dict updated_draft));
                   ("message", VStr "Draft version approved successfully")],
             st')
        end
    end.

(** [modify_draft_version]; [modifications] is
    [request.get("modifications", {})]. *)
Definition modify_draft_version (st : gmap string Dict)
    (draft_id version_id : string) (modifications : Dict) (user_id : option string)
    (now : Z) : Response * gmap string Dict :=
  if no_user user_id then (HTTPException 401 "Invalid user token", st)
  else if negb (truthy (VDict modifications))
  then (HTTPException 400 "Modifications are required", st)
  else
    match DraftingService.modify_draft_version st draft_id version_id (the_user user_id)
            modifications now with
    | (Raise _, st') => (HTTPException 500 "Failed to modify draft version", st')
    | (Ok false, st') => (HTTPException 404 "Draft or version not found", st')
    | (Ok true, st') =>
        (Json [("success", VBool true);
               ("message", VStr "Draft version modified successfully")],
         st')
    end.

(** [delete_draft] *)
Definition delete_draft (st : gmap string Dict) (draft_id : string)
    (user_id : option string) : Response * gmap string Dict :=
  if no_user user_id then (HTTPException 401 "Invalid user token", st)
  else
    match DraftingService.delete_draft st draft_id (the_user user_id) with
    | (Raise _, st') => (HTTPException 500 "Failed to delete draft", st')
    | (Ok false, st') => (HTTPException 404 "Draft not found or access denied", st')
    | (Ok true, st') =>
        (Json [("success", VBool true); ("message", VStr "Draft deleted successfully")],
         st')
    end.

(** [get_draft_version] *)
Definition get_draft_version (st : gmap string Dict) (draft_id version_id : string)
    (user_id : option string) : Response :=
  if no_user user_id then HTTPException 401 "Invalid user token"
  else
    match DraftingService.get_draft st draft_id with
    | Raise _ => HTTPException 500 "Failed to retrieve draft version"
    | Ok None => HTTPException 404 "Draft not found or access denied"
    | Ok (Some draft) =>
        if not_owner draft user_id
        then HTTPException 404 "Draft not found or access denied"
        else
          match DraftingService.find_version version_id (DocumentDraft.versions draft) with
          | None => HTTPException 404 "Version not found"
          | Some (_, version) =>
              Json [("success", VBool true);
                    ("version", VDict (DraftVersion.to_dict version))]
          end
    end.

(** [get_draft_versions] *)
Definition get_draft_versions (st : gmap string Dict) (draft_id : string)
    (user_id : option string) : Response :=
  if no_user user_id then HTTPException 401 "Invalid user token"
  else
    match DraftingService.get_draft st draft_id with
    | Raise _ => HTTPException 500 "Failed to retrieve draft versions"
    | Ok None => HTTPException 404 "Draft not found or access denied"
    | Ok (Some draft) =>
        if not_owner draft user_id
        then HTTPException 404 "Draft not found or access denied"
        else
          Json [("success", VBool true);
                ("versions",
                 VList (map (fun v => VDict (DraftVersion.to_dict v))
                          (DocumentDraft.versions draft)))]
    end.

End DraftEndpoints.

(** ** The entity mapper (entity_mapper/entity_mapper.py) *)

Module EntityMapper.

(** [validate_document]: the same verdict for every text. *)
Definition validate_document (conversation_text : string) : Dict :=
  [("status", VStr "PENDING_REVIEW");
   ("quality_score", VInt 95);
   ("issues", VList []);
   ("recommendations", VList [VStr "Document ready for review"])].

End EntityMapper.

(** ** Schema inference (entity_mapper/dynamic_schema_loader.py) *)

(** One field descriptor of [field_discovery]; [None] is an absent key. *)
Record Field : Type := {
  pattern : option string;
  field_type : option string;
  field_role : option string;
  validation : option string;
  priority : option string
}.

(** [d[k] = v] on a dictionary with values of any type *)
Fixpoint assoc_set {A} (k : string) (v : A) (d : list (string * A)) : list (string * A) :=
  match d with
  | [] => [(k, v)]
  | (k', v') :: d' =>
      if String.eqb k k' then (k, v) :: d' else (k', v') :: assoc_set k v d'
  end.

Fixpoint assoc_get {A} (k : string) (d : list (string * A)) : option A :=
  match d with
  | [] => None
  | (k', v) :: d' => if String.eqb k k' then Some v else assoc_get k d'
  end.

Module DynamicSchemaLoader.

(** The loader object: the directory and the schemas read from it. *)
Record t : Type := {
  schemas_dir : string;
  schemas : gmap string Value
}.

(** The [characteristics] dictionary; it always has these eight keys, so
    the defaults of the later [characteristics.get(k, default)] are never
    taken. *)
Record Characteristics : Type := {
  name : string;
  description : string;
  category : string;
  jurisdiction : string;
  parties_involved : list string;
  key_topics : list string;
  legal_requirements : list string;
  business_terms : list string
}.

(** The schema dictionary, one field per key. *)
Record Schema : Type := {
  schema_name : string;
  schema_description : string;
  schema_category : string;
  schema_jurisdiction : string;
  field_discovery : list (string * list Field);
  field_generation : Dict;
  schema_validation : Dict;
  templates : Dict;
  review_workflow : Dict;
  user_interaction : Dict
}.

(** [_extract_legal_requirements] *)
Definition _extract_legal_requirements (conversation : string) : list string :=
  ((if contains "confidentiality" conversation || contains "nda" conversation
    then ["confidentiality_clause"] else []) ++
   (if contains "non-compete" conversation || contains "restrictive" conversation
    then ["non_compete_clause"] else []) ++
   (if contains "termination" conversation || contains "notice" conversation
    then ["termination_procedures"] else []) ++
   (if contains "dispute" conversation || contains "arbitration" conversation
    then ["dispute_resolution"] else []))%list.

(** [_extract_business_terms] *)
Definition _extract_business_terms (conversation : string) : list string :=
  ((if any_in ["salary"; "payment"; "compensation"; "fee"] conversation
    then ["financial_terms"] else []) ++
   (if any_in ["duration"; "period"; "term"; "length"] conversation
    then ["duration_terms"] else []) ++
   (if any_in ["performance"; "evaluation"; "review"] conversation
    then ["performance_terms"] else []))%list.

(** [_analyze_conversation_context] *)
Definition _analyze_conversation_context (conversation : string) : Characteristics :=
  let conversation_lower := str_lower conversation in
  let '(nm, cat, parties, topics) :=
    if any_in ["employment"; "employee"; "employer"; "job"; "work"] conversation_lower
    then ("Employment Contract", "employment", ["employer"; "employee"],
          ["salary"; "working hours"; "benefits"; "termination"])
    else if any_in ["lease"; "rent"; "tenant"; "landlord"; "property"] conversation_lower
    then ("Lease Agreement", "property", ["landlord"; "tenant"],
          ["rent"; "duration"; "property details"; "utilities"])
    else if any_in ["partnership"; "business"; "company"; "venture"] conversation_lower
    then ("Partnership Agreement", "business", ["partner1"; "partner2"],
          ["capital"; "profit sharing"; "management"; "dissolution"])
    else if any_in ["service"; "consulting"; "freelance"; "contractor"] conversation_lower
    then ("Service Agreement", "services", ["client"; "service_provider"],
          ["scope"; "payment"; "deliverables"; "timeline"])
    else ("Dynamic Document", "general", [], []) in
  {| name := nm;
     description := "Generated based on conversation context";
     category := cat;
     jurisdiction := "kenya";
     parties_involved := parties;
     key_topics := topics;
     legal_requirements := _extract_legal_requirements conversation_lower;
     business_terms := _extract_business_terms conversation_lower |}.

(** [_generate_field_discovery] *)
Definition party_field (party : string) : Field :=
  {| pattern := Some (party ++ "|" ++ replace_underscore party);
     field_type := Some "party";
     field_role := Some party;
     validation := None;
     priority := Some "critical" |}.

Definition topic_fields (topic : string) : list Field :=
  if String.eqb topic "salary" then
    [{| pattern := Some "salary|compensation|payment|remuneration";
        field_type := Some "currency";
        field_role := None;
        validation := Some "required";
        priority := Some "high" |}]
  else if String.eqb topic "duration" then
    [{| pattern := Some "duration|period|term|length";
        field_type := Some "duration";
        field_role := None;
        validation := Some "required";
        priority := Some "high" |}]
  else [].

Definition _generate_field_discovery (c : Characteristics)
    : list (string * list Field) :=
  let with_parties :=
    match parties_involved c with
    | [] => []
    | _ :: _ => [("parties", map party_field (parties_involved c))]
    end in
  fold_left (fun fd topic => assoc_set topic (topic_fields topic) fd)
            (key_topics c) with_parties.

Definition str_list (l : list string) : Value := VList (map VStr l).

(** [_generate_field_generation_rules] *)
Definition _generate_field_generation_rules (c : Characteristics) : Dict :=
  [("auto_fields",
    VList [VDict [("trigger", VStr "parties_mentioned");
                  ("generate",
                   str_list (map (fun party => party ++ "_details") (parties_involved c)))]]);
   ("conditional_fields",
    VList [VDict [("condition", VStr "confidentiality_required");
                  ("add_fields",
                   str_list ["confidentiality_scope"; "duration"; "penalties"])]])].

(** [_generate_validation_rules] *)
Definition _generate_validation_rules (c : Characteristics) : Dict :=
  [("required_sections", str_list (key_topics c));
   ("legal_requirements", str_list (legal_requirements c));
   ("business_logic", str_list ["start_date <= end_date"; "amount >= 0"])].

(** [_generate_templates] *)
Definition _generate_templates (c : Characteristics) : Dict :=
  [("standard",
    VDict [("name", VStr ("Standard " ++ name c));
           ("sections", str_list (key_topics c))])].

(** [_generate_review_workflow] *)
Definition stage (n d v : string) : Value :=
  VDict [("name", VStr n); ("description", VStr d); ("validation", VStr v)].

Definition _generate_review_workflow (c : Characteristics) : Dict :=
  [("stages",
    VList [stage "Information Gathering" "Extract and validate all required information"
                 "required_fields_complete";
           stage "Legal Compliance" "Ensure compliance with relevant laws"
                 "legal_requirements_met";
           stage "Business Terms" "Review and finalize business terms"
                 "business_terms_agreed";
           stage "Document Generation" "Generate final document" "document_complete"])].

(** [_generate_user_interaction] *)
Definition _generate_user_interaction (c : Characteristics) : Dict :=
  [("information_gathering",
    str_list (List.app
                (map (fun party => "What are the details for " ++ party ++ "?")
                     (parties_involved c))
                (map (fun topic => "What are the " ++ topic ++ "?") (key_topics c))));
   ("validation_questions",
    str_list ["Please confirm all party details";
              "Please review the key terms";
              "Please confirm legal compliance"]);
   ("final_confirmation",
    str_list ["All information has been reviewed and is correct";
              "The document complies with relevant laws";
              "All parties agree to the terms";
              "Ready to generate final document"])].

(** [create_dynamic_schema]: the method reads neither [self.schemas] nor
    the directory and assigns nothing on [self]. *)
Definition create_dynamic_schema (self : t) (document_type conversation_context : string)
    : Schema :=
  let characteristics := _analyze_conversation_context conversation_context in
  {| schema_name := name characteristics;
     schema_description := description characteristics;
     schema_category := category characteristics;
     schema_jurisdiction := jurisdiction characteristics;
     field_discovery := _generate_field_discovery characteristics;
     field_generation := _generate_field_generation_rules characteristics;
     schema_validation := _generate_validation_rules characteristics;
     templates := _generate_templates characteristics;
     review_workflow := _generate_review_workflow characteristics;
     user_interaction := _generate_user_interaction characteristics |}.

End DynamicSchemaLoader.

(** ** Form generation (entity_mapper/dynamic_form_generator.py) *)

Module DynamicFormGenerator.

Import DynamicSchemaLoader.

Record t : Type := { schema_loader : DynamicSchemaLoader.t }.

(** One entry of [form_structure['fields']]; [options] and
    [prefilled_value] are keys that may be absent. *)
Record FieldConfig : Type := {
  config_type : string;
  label : string;
  required : bool;
  config_priority : string;
  config_validation : Dict;
  extraction_patterns : list string;
  options : option (list string);
  prefilled_value : option Value
}.

Record FormStructure : Type := {
  fields : list (string * FieldConfig);
  field_order : list string;
  sections : list (string * list string)
}.

(** The form dictionary; [next_questions] appears after an update. *)
Record Form : Type := {
  document_type : string;
  schema : Schema;
  form_structure : FormStructure;
  validation_rules : Dict;
  interaction_flow : Dict;
  extracted_info : gmap string Value;
  missing_info : list string;
  next_questions : option (list string)
}.

(** [_detect_document_type] *)
Definition _detect_document_type (conversation : string) : string :=
  let conversation_lower := str_lower conversation in
  if any_in ["employment"; "employee"; "employer"; "job"; "work"] conversation_lower
  then "employment_contract"
  else if any_in ["lease"; "rent"; "tenant"; "landlord"; "property"] conversation_lower
  then "lease_agreement"
  else if any_in ["partnership"; "business"; "company"; "venture"] conversation_lower
  then "partnership_agreement"
  else if any_in ["service"; "consulting"; "freelance"; "contractor"] conversation_lower
  then "service_agreement"
  else if any_in ["demand"; "payment"; "debt"; "owed"] conversation_lower
  then "demand_letter"
  else if any_in ["court"; "plaint"; "lawsuit"; "case"] conversation_lower
  then "plaint"
  else if any_in ["affidavit"; "sworn"; "statement"; "witness"] conversation_lower
  then "affidavit"
  else "custom_document".

(** [_map_field_type] *)
Definition _map_field_type (schema_type : string) : string :=
  match assoc_get schema_type
          [("text", "text"); ("textarea", "textarea"); ("number", "number");
           ("date", "date"); ("select", "select"); ("boolean", "select");
           ("currency", "number"); ("duration", "number"); ("party", "text")] with
  | Some t => t
  | None => "text"
  end.

(** [_get_validation_rules] *)
Definition _get_validation_rules (field_type : string) : Dict :=
  if String.eqb field_type "text" then [("min_length", VInt 2); ("max_length", VInt 100)]
  else if String.eqb field_type "textarea"
  then [("min_length", VInt 10); ("max_length", VInt 1000)]
  else if String.eqb field_type "number" then [("min", VInt 0); ("max", VInt 999999999)]
  else if String.eqb field_type "currency" then [("min", VInt 0); ("max", VInt 999999999)]
  else if String.eqb field_type "date"
  then [("min", VStr "1900-01-01"); ("max", VStr "2100-12-31")]
  else [].

Definition or_default (d : string) (o : option string) : string :=
  match o with Some s => s | None => d end.

(** [_get_select_options] *)
Definition _get_select_options (field : Field) : list string :=
  if match field_type field with Some ft => String.eqb ft "boolean" | None => false end
  then ["Yes"; "No"]
  else
    let role := or_default "" (field_role field) in
    if contains "type" role then ["Standard"; "Custom"; "Other"]
    else if contains "status" role then ["Active"; "Inactive"; "Pending"]
    else ["Option 1"; "Option 2"; "Option 3"].

(** [field.get('validation') == 'required'] *)
Definition is_required (field : Field) : bool :=
  match validation field with Some v => String.eqb v "required" | None => false end.

(** [_create_field_config]: the prefilled value is looked up under the
    role of the field. *)
Definition _create_field_config (field : Field) (extracted_info : gmap string Value)
    : FieldConfig :=
  let ft := or_default "text" (field_type field) in
  {| config_type := _map_field_type ft;
     label := str_title (replace_underscore (or_default "value" (field_role field)));
     required := is_required field;
     config_priority := or_default "medium" (priority field);
     config_validation := _get_validation_rules ft;
     extraction_patterns := [or_default "" (pattern field)];
     options := if String.eqb ft "select" then Some (_get_select_options field) else None;
     prefilled_value :=
       match field_role field with
       | Some r => extracted_info !! r
       | None => None
       end |}.

(** [f"{category}_{field.get('role', 'value')}"] *)
Definition field_name_of (category : string) (field : Field) : string :=
  category ++ "_" ++ or_default "value" (field_role field).

(** [_generate_form_structure] *)
Definition add_field (category : string) (extracted_info : gmap string Value)
    (acc : FormStructure * list string) (field : Field)
    : FormStructure * list string :=
  let fs := fst acc in
  let field_name := field_name_of category field in
  ({| fields := assoc_set field_name (_create_field_config field extracted_info) (fields fs);
      field_order := (field_order fs ++ [field_name])%list;
      sections := sections fs |},
   (snd acc ++ [field_name])%list).

Definition add_section (extracted_info : gmap string Value) (fs : FormStructure)
    (entry : string * list Field) : FormStructure :=
  let '(fs', section_fields) :=
    fold_left (add_field (fst entry) extracted_info) (snd entry) (fs, []) in
  {| fields := fields fs';
     field_order := field_order fs';
     sections :=
       (sections fs' ++ [(str_title (replace_underscore (fst entry)), section_fields)])%list |}.

Definition _generate_form_structure (schema : Schema)
    (extracted_info : gmap string Value) : FormStructure :=
  fold_left (add_section extracted_info) (field_discovery schema)
            {| fields := []; field_order := []; sections := [] |}.

(** [_get_required_fields] *)
Definition _get_required_fields (schema : Schema) : list string :=
  concat (map (fun entry =>
                 map (field_name_of (fst entry)) (filter (fun f => is_required f = true) (snd entry)))
              (field_discovery schema)).

(** [d.get(k, [])] *)
Definition get_list (k : string) (d : Dict) : Value :=
  match dict_get k d with Some v => v | None => VList [] end.

(** [_generate_validation_rules] *)
Definition _generate_validation_rules (schema : Schema) : Dict :=
  [("required_fields", str_list (_get_required_fields schema));
   ("business_rules", get_list "business_logic" (schema_validation schema));
   ("legal_requirements", get_list "legal_requirements" (schema_validation schema))].

(** [_generate_interaction_flow] *)
Definition _generate_interaction_flow (schema : Schema) : Dict :=
  [("stages", get_list "stages" (review_workflow schema));
   ("questions", get_list "information_gathering" (user_interaction schema));
   ("validation_questions",
    get_list "validation_questions" (user_interaction schema));
   ("final_confirmation",
    get_list "final_confirmation" (user_interaction schema))].

(** [_identify_missing_info]: a required field is missing when its name
    is not a key of [extracted_info]. *)
Definition _identify_missing_info (schema : Schema) (extracted_info : gmap string Value)
    : list string :=
  concat (map (fun entry =>
                 concat (map (fun field =>
                           if is_required field then
                             let field_name := field_name_of (fst entry) field in
                             match extracted_info !! field_name with
                             | None => [field_name]
                             | Some _ => []
                             end
                           else [])
                        (snd entry)))
              (field_discovery schema)).

(** [field_name.split('_', 1)]: the part after the first underscore *)
Fixpoint after_underscore (s : string) : option string :=
  match s with
  | EmptyString => None
  | String c s' => if Ascii.eqb c "_"%char then Some s' else after_underscore s'
  end.

(** [_generate_next_questions]; unpacking the split raises when a name
    has no underscore. *)
Definition next_question (field_name : string) : Res string :=
  match after_underscore field_name with
  | None => Raise "ValueError"
  | Some field_type =>
      if contains "employer" field_name || contains "employee" field_name
      then Ok ("What is the " ++ replace_underscore field_type ++ " name and details?")
      else if contains "salary" field_name || contains "payment" field_name
      then Ok "What is the agreed salary/compensation amount?"
      else if contains "duration" field_name || contains "period" field_name
      then Ok "What is the contract duration/period?"
      else if contains "start" field_name || contains "commencement" field_name
      then Ok "What is the start/commencement date?"
      else Ok ("Please provide " ++ replace_underscore field_name)
  end.

Definition _generate_next_questions (missing_info : list string) (schema : Schema)
    : Res (list string) :=
  mapM next_question missing_info.

(** [update_form_with_user_input]: [extracted_info.update(user_input)],
    then the missing fields are identified again. *)
Definition update_form_with_user_input (form_data : Form)
    (user_input : gmap string Value) : Res Form :=
  let info := user_input ∪ extracted_info form_data in
  let missing := _identify_missing_info (schema form_data) info in
  qs <- _generate_next_questions missing (schema form_data) ;;
  Ok {| document_type := document_type form_data;
        schema := schema form_data;
        form_structure := form_structure form_data;
        validation_rules := validation_rules form_data;
        interaction_flow := interaction_flow form_data;
        extracted_info := info;
        missing_info := missing;
        next_questions := Some qs |}.

Section Extraction.

(** [_extract_information_from_conversation], built on Python's regular
    expressions, is taken as given. *)
Variable _extract_information_from_conversation : string -> Schema -> gmap string Value.

(** [generate_form_from_conversation] *)
Definition generate_form_from_conversation (self : t) (conversation : string) : Form :=
  let document_type := _detect_document_type conversation in
  let schema := create_dynamic_schema (schema_loader self) document_type conversation in
  let extracted_info := _extract_information_from_conversation conversation schema in
  {| document_type := document_type;
     schema := schema;
     form_structure := _generate_form_structure schema extracted_info;
     validation_rules := _generate_validation_rules schema;
     interaction_flow := _generate_interaction_flow schema;
     extracted_info := extracted_info;
     missing_info := _identify_missing_info schema extracted_info;
     next_questions := None |}.

End Extraction.

End DynamicFormGenerator.

(** ** Example data *)

(** A store with one draft of user alice that has one pending version. *)
Definition version_v1 : DraftVersion.t :=
  DraftVersion.init "v1" (VDict [("content", VStr "Dear Sir")]) "alice" 10.

Definition draft_d1 : DocumentDraft.t :=
  DraftingService.append_version version_v1 10
    (DocumentDraft.init "d1" "alice" (Some "chat1") "demand_letter" 5).

Definition store_d1 : gmap string Dict := {[ "d1" := DocumentDraft.to_dict draft_d1 ]}.

(** A draft of alice with two versions: the first approved by her, the
    second generated afterwards and still pending. *)
Definition version_v1_approved : DraftVersion.t :=
  {| DraftVersion.id := "v1";
     DraftVersion.content := VDict [("content", VStr "Dear Sir")];
     DraftVersion.created_by := "alice";
     DraftVersion.created_at := 10;
     DraftVersion.status := "approved";
     DraftVersion.user_feedback := VNone;
     DraftVersion.approved_by := VStr "alice";
     DraftVersion.approved_at := Some 20;
     DraftVersion.rejected_reason := VNone;
     DraftVersion.modifications := [];
     DraftVersion.metadata := DraftVersion.metadata version_v1 |}.

Definition version_v2 : DraftVersion.t :=
  DraftVersion.init "v2" (VDict [("content", VStr "Dear Madam")]) "alice" 25.

Definition draft_d2 : DocumentDraft.t :=
  DraftingService.append_version version_v2 25
    (DraftingService.append_version version_v1_approved 10
       (DocumentDraft.init "d2" "alice" (Some "chat1") "demand_letter" 5)).

Definition store_d2 : gmap string Dict := {[ "d2" := DocumentDraft.to_dict draft_d2 ]}.

(** Collaborators that answer nothing: an empty chat history, an empty
    analysis, an empty document. *)
Definition silent : DraftingService.Collaborators :=
  {| DraftingService._load_chat_messages := fun _ _ => [];
     DraftingService.analyze_conversation := fun _ => Ok [];
     DraftingService.draft_document := fun _ _ => Ok (VStr "");
     DraftingService.json_dumps := fun _ => "";
     DraftingService.py_str := fun _ => "" |}.

(** The store right after alice created a draft and before any version
    was generated. *)
Definition store_fresh : gmap string Dict :=
  snd (DraftingService.create_draft_from_chat silent ∅
         "alice" (Some "chat1") (Some "demand_letter") "d1" 5).

Definition quiet : WorkflowService.Collaborators :=
  {| WorkflowService._load_chat_messages := fun _ _ => [];
     WorkflowService.analyze_conversation := fun _ => Ok [];
     WorkflowService.conduct_legal_research := fun _ => Ok [];
     WorkflowService.extract_document_info := fun _ => Ok [];
     WorkflowService.draft_document := fun _ => Ok [];
     WorkflowService.validate_document := fun _ => Ok [];
     WorkflowService.review_document := fun _ => Ok [];
     WorkflowService.dynamic_result := fun _ _ _ _ => Ok (VDict []);
     WorkflowService.json_dumps := fun _ => "";
     WorkflowService.strftime := fun _ => "2024-01-01 09:00";
     WorkflowService.drafting_service := silent |}.

(** The workflow store after alice created a workflow from a chat without
    document intent: the generic five steps. *)
Definition store_w1 : gmap string Dict :=
  snd (WorkflowService.create_workflow_from_chat quiet ∅ "alice" "chat1" "w1" 5).

(** A workflow with steps A, B, C in which A is completed, B is running
    and C is pending. *)
Definition step_A : WorkflowStep.t :=
  WorkflowService.step_with_can_approve true
    (WorkflowService.step_with_status "completed" (WorkflowStep.init "step_1" "A" "first")).
Definition step_B : WorkflowStep.t :=
  WorkflowService.step_with_start_time 7
    (WorkflowService.step_with_status "running" (WorkflowStep.init "step_2" "B" "second")).
Definition step_C : WorkflowStep.t := WorkflowStep.init "step_3" "C" "third".

Definition workflow_abc : Workflow.t :=
  WorkflowService.with_current_step 1
    (WorkflowService.with_status "running"
       (WorkflowService.new_workflow "w2" "ABC" "three steps" "alice" (Some "chat1")
          [step_A; step_B; step_C] 5)).

Definition store_abc : gmap string Dict := {[ "w2" := Workflow.to_dict workflow_abc ]}.

(** A one-step workflow whose only step is completed with a result of two
    entries. *)
Definition step_A_done : WorkflowStep.t :=
  WorkflowService.step_with_result
    (VDict [("summary", VStr "draft"); ("tone", VStr "plain")]) step_A.

Definition workflow_done : Workflow.t :=
  WorkflowService.with_status "running"
    (WorkflowService.new_workflow "w5" "One" "one step" "alice" (Some "chat1")
       [step_A_done] 5).

Definition store_done : gmap string Dict :=
  {[ "w5" := Workflow.to_dict workflow_done ]}.

(** The same completed step followed by a step that is running. *)
Definition workflow_done_next : Workflow.t :=
  WorkflowService.with_current_step 1
    (WorkflowService.with_status "running"
       (WorkflowService.new_workflow "w5" "Two" "two steps" "alice" (Some "chat1")
          [step_A_done; step_B] 5)).

(** The form for a conversation about an employment contract with a
    salary, nothing having been extracted from the text, and the same form
    after the user supplied the salary under the name of the field. *)
Definition loader : DynamicSchemaLoader.t :=
  {| DynamicSchemaLoader.schemas_dir := "schemas"; DynamicSchemaLoader.schemas := ∅ |}.

Definition form_generator : DynamicFormGenerator.t :=
  {| DynamicFormGenerator.schema_loader := loader |}.

Definition employment_form : DynamicFormGenerator.Form :=
  DynamicFormGenerator.generate_form_from_conversation (fun _ _ => ∅) form_generator
    "Please prepare an employment contract; the salary is still open.".

Definition salary_input : gmap string Value := {[ "salary_value" := VStr "50000" ]}.

(** The draft that [store_fresh] holds. *)
Definition draft_fresh : DocumentDraft.t :=
  DocumentDraft.init "d1" "alice" (Some "chat1") "demand_letter" 5.

(** Collaborators whose [json.dumps] writes the identifier of the exported
    version and whose [str] is constant. *)
Definition dumps_version_id : DraftingService.Collaborators :=
  {| DraftingService._load_chat_messages := fun _ _ => [];
     DraftingService.analyze_conversation := fun _ => Ok [];
     DraftingService.draft_document := fun _ _ => Ok (VStr "");
     DraftingService.json_dumps :=
       fun data =>
         match data with
         | VDict e =>
             match dict_get "version" e with
             | Some (VDict v) =>
                 match dict_get "id" v with Some (VStr i) => i | _ => "" end
             | _ => ""
             end
         | _ => ""
         end;
     DraftingService.py_str := fun _ => "" |}.

(** Collaborators whose conversation analyzer is down. *)
Definition analyzer_down : DraftingService.Collaborators :=
  {| DraftingService._load_chat_messages := fun _ _ => [];
     DraftingService.analyze_conversation := fun _ => Raise "analyzer unavailable";
     DraftingService.draft_document := fun _ _ => Ok (VStr "");
     DraftingService.json_dumps := fun _ => "";
     DraftingService.py_str := fun _ => "" |}.

(** Collaborators with a one-message chat history and an analyzer that
    reports no document type ([{'document_type': None}]). *)
Definition analysis_without_type : DraftingService.Collaborators :=
  {| DraftingService._load_chat_messages :=
       fun _ _ => [{| role := "user"; msg_content := "hello" |}];
     DraftingService.analyze_conversation := fun _ => Ok [("document_type", VNone)];
     DraftingService.draft_document := fun _ _ => Ok (VStr "");
     DraftingService.json_dumps := fun _ => "";
     DraftingService.py_str := fun _ => "" |}.

(** The collaborators of [quiet] with the validation of the entity
    mapper. *)
Definition with_entity_mapper : WorkflowService.Collaborators :=
  {| WorkflowService._load_chat_messages := fun _ _ => [];
     WorkflowService.analyze_conversation := fun _ => Ok [];
     WorkflowService.conduct_legal_research := fun _ => Ok [];
     WorkflowService.extract_document_info := fun _ => Ok [];
     WorkflowService.draft_document := fun _ => Ok [];
     WorkflowService.validate_document := fun t => Ok (EntityMapper.validate_document t);
     WorkflowService.review_document := fun _ => Ok [];
     WorkflowService.dynamic_result := fun _ _ _ _ => Ok (VDict []);
     WorkflowService.json_dumps := fun _ => "";
     WorkflowService.strftime := fun _ => "2024-01-01 09:00";
     WorkflowService.drafting_service := silent |}.

(** * Properties *)

(** ** The exception monad and dictionaries *)

Lemma mapM_map_Ok {A B} (f : B -> Res A) (g : A -> B) (l : list A) :
  (forall a, f (g a) = Ok a) -> mapM f (map g l) = Ok l.
Proof.
  intros Hfg. induction l as [|a l IH]; simpl; [reflexivity|].
  rewrite Hfg. simpl. rewrite IH. reflexivity.
Qed.

Lemma eqb_refl_neg (s : string) : negb (String.eqb s s) = false.
Proof. now rewrite String.eqb_refl. Qed.

Lemma eqb_neq_neg (s t : string) : s <> t -> negb (String.eqb s t) = true.
Proof. intros H. apply String.eqb_neq in H. now rewrite H. Qed.

(** ** Drafts: storing and reloading *)

Module DraftFacts.

Import DraftingService.

Lemma dict_to_version_to_dict (v : DraftVersion.t) :
  _dict_to_version (VDict (DraftVersion.to_dict v)) = Ok v.
Proof.
  destruct v as [i c cb ca s uf ab aa rr mo me].
  destruct aa as [t|]; reflexivity.
Qed.

Lemma dict_to_draft_to_dict (d : DocumentDraft.t) :
  _dict_to_draft (DocumentDraft.to_dict d) = Ok (reloaded d).
Proof.
  destruct d as [i u c dt ti s cv vs ca ua ec wf se oc].
  unfold _dict_to_draft, DocumentDraft.to_dict, reloaded.
  cbn [DocumentDraft.id DocumentDraft.user_id DocumentDraft.chat_id
       DocumentDraft.document_type DocumentDraft.title DocumentDraft.status
       DocumentDraft.current_version DocumentDraft.versions DocumentDraft.created_at
       DocumentDraft.updated_at DocumentDraft.estimated_completion
       DocumentDraft.workflow_id DocumentDraft.settings DocumentDraft.original_content].
  assert (Hvs : mapM _dict_to_version
                  (map (fun v => VDict (DraftVersion.to_dict v)) vs) = Ok vs)
    by (apply mapM_map_Ok, dict_to_version_to_dict).
  destruct oc as [[|ch r]|]; destruct ec as [t|]; destruct c as [c|];
    cbn; rewrite Hvs; reflexivity.
Qed.

(** Reloading changes neither the versions nor the status nor the pointer. *)
Lemma reloaded_versions d : DocumentDraft.versions (reloaded d) = DocumentDraft.versions d.
Proof. unfold reloaded. now destruct (DocumentDraft.original_content d) as [[|]|]. Qed.
Lemma reloaded_status d : DocumentDraft.status (reloaded d) = DocumentDraft.status d.
Proof. unfold reloaded. now destruct (DocumentDraft.original_content d) as [[|]|]. Qed.
Lemma reloaded_current_version d :
  DocumentDraft.current_version (reloaded d) = DocumentDraft.current_version d.
Proof. unfold reloaded. now destruct (DocumentDraft.original_content d) as [[|]|]. Qed.

(** Reading back what an operation has just written. *)
Lemma get_draft_insert (st : gmap string Dict) draft_id d :
  get_draft (<[draft_id := DocumentDraft.to_dict d]> st) draft_id = Ok (Some (reloaded d)).
Proof.
  unfold get_draft. rewrite lookup_insert_eq, dict_to_draft_to_dict. reflexivity.
Qed.

(** The first version with a given id stays where it is when it is
    replaced by a version with the same id. *)
Lemma find_version_replace vid (vs : list DraftVersion.t) i v v' :
  find_version vid vs = Some (i, v) ->
  DraftVersion.id v' = vid ->
  find_version vid (<[i := v']> vs) = Some (i, v').
Proof.
  unfold find_version. intros Hf Hid.
  apply list_find_Some in Hf as (Hl & Hp & Hleast).
  apply list_find_Some. split_and!.
  - apply list_lookup_insert_eq. eapply lookup_lt_Some; eauto.
  - exact Hid.
  - intros j y Hj Hlt. rewrite list_lookup_insert_ne in Hj by lia. eauto.
Qed.

Lemma find_version_id vid (vs : list DraftVersion.t) i v :
  find_version vid vs = Some (i, v) -> DraftVersion.id v = vid /\ vs !! i = Some v.
Proof. intros (? & ? & _)%list_find_Some. auto. Qed.

End DraftFacts.

(** ** C1: approving and rejecting a version *)

(** C1.  For a draft owned by [user_id] whose first version with id
    [version_id] is [v]: when [v] is pending, [approve_draft_version]
    answers [True] and the stored draft then has status 'completed' with
    that version 'approved', and [reject_draft_version] answers [True] and
    the stored draft then has status 'in_progress' with that version
    'rejected'; when [v] is not pending, both answer [False] and the store
    is the one they were given. *)
Theorem approve_reject_only_pending
    (st : gmap string Dict) (draft_id version_id user_id reason : string)
    (feedback : Value) (now : Z) (d : DocumentDraft.t) (i : nat) (v : DraftVersion.t) :
  DraftingService.get_draft st draft_id = Ok (Some d) ->
  DocumentDraft.user_id d = user_id ->
  DraftingService.find_version version_id (DocumentDraft.versions d) = Some (i, v) ->
  (DraftVersion.status v = "pending" ->
     (exists st' d' v',
        DraftingService.approve_draft_version st draft_id version_id user_id feedback now
          = (Ok true, st') /\
        DraftingService.get_draft st' draft_id = Ok (Some d') /\
        DocumentDraft.status d' = "completed" /\
        DraftingService.find_version version_id (DocumentDraft.versions d') = Some (i, v') /\
        DraftVersion.status v' = "approved" /\
        DocumentDraft.versions d' = <[i := v']> (DocumentDraft.versions d)) /\
     (exists st' d' v',
        DraftingService.reject_draft_version st draft_id version_id user_id reason
          feedback now = (Ok true, st') /\
        DraftingService.get_draft st' draft_id = Ok (Some d') /\
        DocumentDraft.status d' = "in_progress" /\
        DraftingService.find_version version_id (DocumentDraft.versions d') = Some (i, v') /\
        DraftVersion.status v' = "rejected" /\
        DocumentDraft.versions d' = <[i := v']> (DocumentDraft.versions d)))
  /\
  (DraftVersion.status v <> "pending" ->
     DraftingService.approve_draft_version st draft_id version_id user_id feedback now
       = (Ok false, st) /\
     DraftingService.reject_draft_version st draft_id version_id user_id reason
       feedback now = (Ok false, st)).
Proof.
  intros Hget Hown Hfind.
  destruct (DraftFacts.find_version_id _ _ _ _ Hfind) as [Hid _].
  split.
  - intros Hpend. split.
    + set (v' := DraftingService.approve_version user_id feedback now v).
      set (d' := DraftingService.set_status "completed" now
                   (DraftingService.set_version i v' d)).
      exists (<[draft_id := DocumentDraft.to_dict d']> st),
             (DraftingService.reloaded d'), v'.
      unfold DraftingService.approve_draft_version.
      rewrite Hget, Hown, eqb_refl_neg, Hfind, Hpend. cbn [negb String.eqb].
      split; [reflexivity|]. split; [apply DraftFacts.get_draft_insert|].
      rewrite DraftFacts.reloaded_status, DraftFacts.reloaded_versions.
      cbn. split_and!; [reflexivity| |reflexivity|reflexivity].
      now apply DraftFacts.find_version_replace with (v := v).
    + set (v' := DraftingService.reject_version reason feedback v).
      set (d' := DraftingService.set_status "in_progress" now
                   (DraftingService.set_version i v' d)).
      exists (<[draft_id := DocumentDraft.to_dict d']> st),
             (DraftingService.reloaded d'), v'.
      unfold DraftingService.reject_draft_version.
      rewrite Hget, Hown, eqb_refl_neg, Hfind, Hpend. cbn [negb String.eqb].
      split; [reflexivity|]. split; [apply DraftFacts.get_draft_insert|].
      rewrite DraftFacts.reloaded_status, DraftFacts.reloaded_versions.
      cbn. split_and!; [reflexivity| |reflexivity|reflexivity].
      now apply DraftFacts.find_version_replace with (v := v).
  - intros Hnp.
    unfold DraftingService.approve_draft_version, DraftingService.reject_draft_version.
    rewrite Hget, Hown, eqb_refl_neg, Hfind, (eqb_neq_neg _ _ Hnp). split; reflexivity.
Qed.

Lemma approve_reject_only_pending_witness :
  DraftingService.get_draft store_d1 "d1" = Ok (Some draft_d1) /\
  DraftVersion.status version_v1 = "pending" /\
  (exists st' d' v',
     DraftingService.approve_draft_version store_d1 "d1" "v1" "alice" VNone 20
       = (Ok true, st') /\
     DraftingService.get_draft st' "d1" = Ok (Some d') /\
     DocumentDraft.status d' = "completed" /\
     DraftingService.find_version "v1" (DocumentDraft.versions d') = Some (0%nat, v') /\
     DraftVersion.status v' = "approved" /\
     DocumentDraft.versions d' = <[0%nat := v']> (DocumentDraft.versions draft_d1)).
Proof.
  assert (Hget : DraftingService.get_draft store_d1 "d1" = Ok (Some draft_d1))
    by (vm_compute; reflexivity).
  split; [exact Hget|]. split; [reflexivity|].
  refine (proj1 (proj1 (approve_reject_only_pending store_d1 "d1" "v1" "alice" "late"
                          VNone 20 draft_d1 0%nat version_v1 Hget _ _) _)).
  - reflexivity.
  - vm_compute; reflexivity.
  - reflexivity.
Defined.

(** ** C2: the current-version pointer *)

Module VersionPointer.

Import DraftingService.

Lemma draft_inv_reloaded d : draft_inv d -> draft_inv (reloaded d).
Proof.
  unfold draft_inv.
  now rewrite DraftFacts.reloaded_versions, DraftFacts.reloaded_current_version.
Qed.

Lemma store_inv_empty : store_inv ∅.
Proof. intros k x H. now rewrite lookup_empty in H. Qed.

Lemma store_inv_insert st k d :
  store_inv st -> draft_inv d -> store_inv (<[k := DocumentDraft.to_dict d]> st).
Proof.
  intros Hst Hd k' x. rewrite lookup_insert. case_decide.
  - intros [= <-]. eauto.
  - apply Hst.
Qed.

Lemma store_inv_delete st k : store_inv st -> store_inv (delete k st).
Proof.
  intros Hst k' x. rewrite lookup_delete. case_decide; [discriminate|apply Hst].
Qed.

Lemma store_inv_get st draft_id d :
  store_inv st -> get_draft st draft_id = Ok (Some d) -> draft_inv d.
Proof.
  unfold get_draft. intros Hst Hg.
  destruct (st !! draft_id) as [x|] eqn:Hx; [|discriminate].
  destruct (Hst _ _ Hx) as (d0 & -> & Hd0).
  rewrite DraftFacts.dict_to_draft_to_dict in Hg. cbn in Hg.
  injection Hg as <-. now apply draft_inv_reloaded.
Qed.

Lemma draft_inv_init draft_id user_id chat_id dt now :
  draft_inv (DocumentDraft.init draft_id user_id chat_id dt now).
Proof. right. split; reflexivity. Qed.

Lemma draft_inv_append v now d : draft_inv (append_version v now d).
Proof. left. reflexivity. Qed.

Lemma draft_inv_set i v s now d :
  draft_inv d -> draft_inv (set_status s now (set_version i v d)).
Proof.
  unfold draft_inv. cbn. rewrite length_insert. intros [H|[H1 H2]]; [now left|].
  right. rewrite H1. now split.
Qed.

Create HintDb version_pointer.

#[local] Hint Resolve store_inv_empty store_inv_insert store_inv_delete
  draft_inv_init draft_inv_append draft_inv_set : version_pointer.

Section Preservation.

Variable C : Collaborators.

Lemma create_from_chat_inv st user_id chat_id dt draft_id now :
  store_inv st ->
  store_inv (snd (create_draft_from_chat C st user_id chat_id dt draft_id now)).
Proof.
  intros Hst. unfold create_draft_from_chat, construct_draft.
  repeat case_match; simplify_eq; cbn [snd]; auto with version_pointer.
Qed.

Lemma create_from_content_inv st user_id chat_content dt draft_id now :
  store_inv st ->
  store_inv (snd (create_draft_from_content C st user_id chat_content dt draft_id now)).
Proof.
  intros Hst. unfold create_draft_from_content, construct_draft.
  repeat case_match; simplify_eq; cbn [snd]; auto; apply store_inv_insert; auto;
    right; split; reflexivity.
Qed.

Lemma generate_inv st draft_id user_id context version_id now :
  store_inv st ->
  store_inv (snd (generate_draft_version C st draft_id user_id context version_id now)).
Proof.
  intros Hst. unfold generate_draft_version.
  destruct (get_draft st draft_id) as [[d|]|e]; cbn [snd]; auto.
  destruct (negb _); cbn [snd]; auto with version_pointer.
Qed.

Lemma approve_inv st draft_id version_id user_id feedback now :
  store_inv st ->
  store_inv (snd (approve_draft_version st draft_id version_id user_id feedback now)).
Proof.
  intros Hst. unfold approve_draft_version.
  destruct (get_draft st draft_id) as [[d|]|e] eqn:Hg; cbn [snd]; auto.
  pose proof (store_inv_get _ _ _ Hst Hg).
  repeat case_match; simplify_eq; cbn [snd]; auto with version_pointer.
Qed.

Lemma reject_inv st draft_id version_id user_id reason feedback now :
  store_inv st ->
  store_inv (snd (reject_draft_version st draft_id version_id user_id reason feedback now)).
Proof.
  intros Hst. unfold reject_draft_version.
  destruct (get_draft st draft_id) as [[d|]|e] eqn:Hg; cbn [snd]; auto.
  pose proof (store_inv_get _ _ _ Hst Hg).
  repeat case_match; simplify_eq; cbn [snd]; auto with version_pointer.
Qed.

Lemma modify_inv st draft_id version_id user_id mods now :
  store_inv st ->
  store_inv (snd (modify_draft_version st draft_id version_id user_id mods now)).
Proof.
  intros Hst. unfold modify_draft_version.
  destruct (get_draft st draft_id) as [[d|]|e] eqn:Hg; cbn [snd]; auto.
  pose proof (store_inv_get _ _ _ Hst Hg).
  repeat case_match; simplify_eq; cbn [snd]; auto with version_pointer.
Qed.

Lemma regenerate_inv st draft_id version_id user_id feedback new_version_id now :
  store_inv st ->
  store_inv (snd (regenerate_draft_version C st draft_id version_id user_id feedback
                    new_version_id now)).
Proof.
  intros Hst. unfold regenerate_draft_version.
  destruct (get_draft st draft_id) as [[d|]|e]; cbn [snd]; auto.
  destruct (negb _); cbn [snd]; auto using generate_inv.
Qed.

Lemma delete_inv st draft_id user_id :
  store_inv st -> store_inv (snd (delete_draft st draft_id user_id)).
Proof.
  intros Hst. unfold delete_draft.
  repeat case_match; simplify_eq; cbn [snd]; auto with version_pointer.
Qed.

Lemma reachable_inv st :
  reachable C st -> store_inv st.
Proof.
  induction 1;
    eauto using store_inv_empty, create_from_chat_inv, create_from_content_inv,
      generate_inv, approve_inv, reject_inv, modify_inv, regenerate_inv, delete_inv.
Qed.

End Preservation.

End VersionPointer.

(** C2, as the code has it.  After every [generate_draft_version] that
    produced a version, the stored draft has [current_version] equal to
    the number of its versions; and every draft loaded from a store the
    service can reach has [current_version] equal to the number of its
    versions, or has no version yet and [current_version = 1]. *)
Theorem current_version_counts_versions
    (C : DraftingService.Collaborators) (st : gmap string Dict) :
  DraftingService.reachable C st ->
  (forall draft_id user_id context version_id now v st',
     DraftingService.generate_draft_version C st draft_id user_id context version_id now
       = (Ok (Some v), st') ->
     exists d',
       DraftingService.get_draft st' draft_id = Ok (Some d') /\
       DocumentDraft.current_version d' = Z.of_nat (length (DocumentDraft.versions d')) /\
       last (DocumentDraft.versions d') = Some v) /\
  (forall draft_id d,
     DraftingService.get_draft st draft_id = Ok (Some d) ->
     DocumentDraft.current_version d = Z.of_nat (length (DocumentDraft.versions d)) \/
     (DocumentDraft.versions d = [] /\ DocumentDraft.current_version d = 1)).
Proof.
  intros Hreach. split.
  - intros draft_id user_id context version_id now v st'.
    unfold DraftingService.generate_draft_version.
    destruct (DraftingService.get_draft st draft_id) as [[d|]|e]; [|discriminate..].
    destruct (negb _); [discriminate|].
    intros [= <- <-]. eexists. split; [apply DraftFacts.get_draft_insert|].
    rewrite DraftFacts.reloaded_versions, DraftFacts.reloaded_current_version. cbn.
    split; [reflexivity|apply last_snoc].
  - intros draft_id d Hg.
    eapply VersionPointer.store_inv_get; [|exact Hg].
    eapply VersionPointer.reachable_inv; eassumption.
Qed.

Lemma current_version_counts_versions_witness :
  DraftingService.reachable silent store_fresh /\
  (exists v st' d',
     DraftingService.generate_draft_version silent store_fresh "d1" "alice" None "v1" 10
       = (Ok (Some v), st') /\
     DraftingService.get_draft st' "d1" = Ok (Some d') /\
     DocumentDraft.current_version d' = Z.of_nat (length (DocumentDraft.versions d'))) /\
  (DraftingService.get_draft store_fresh "d1" = Ok (Some draft_fresh) /\
   (DocumentDraft.current_version draft_fresh
      = Z.of_nat (length (DocumentDraft.versions draft_fresh)) \/
    (DocumentDraft.versions draft_fresh = [] /\
     DocumentDraft.current_version draft_fresh = 1))).
Proof.
  assert (Hr : DraftingService.reachable silent store_fresh)
    by (apply DraftingService.reach_create_from_chat, DraftingService.reach_start).
  assert (Hget : DraftingService.get_draft store_fresh "d1" = Ok (Some draft_fresh))
    by (vm_compute; reflexivity).
  destruct (current_version_counts_versions silent store_fresh Hr) as [Hgen Hload].
  split; [exact Hr|]. split.
  - assert (Hg : exists v st',
               DraftingService.generate_draft_version silent store_fresh "d1" "alice"
                 None "v1" 10 = (Ok (Some v), st')).
    { unfold DraftingService.generate_draft_version. rewrite Hget. eexists _, _. reflexivity. }
    destruct Hg as (v & st' & Hg).
    destruct (Hgen _ _ _ _ _ _ _ Hg) as (d' & Hd' & Hcv & _).
    exists v, st', d'. auto.
  - split; [exact Hget|]. exact (Hload _ _ Hget).
Defined.

(** A draft that was just created and stored reloads with
    [current_version = 1] and no version: the equality of C2 fails there. *)
Lemma fresh_draft_pointer_is_one :
  exists d,
    DraftingService.get_draft store_fresh "d1" = Ok (Some d) /\
    DocumentDraft.versions d = [] /\
    DocumentDraft.current_version d = 1 /\
    DocumentDraft.current_version d <> Z.of_nat (length (DocumentDraft.versions d)).
Proof.
  eexists. split; [vm_compute; reflexivity|].
  split; [reflexivity|]. split; [reflexivity|]. discriminate.
Qed.

(** ** C3: who may act on a stored aggregate *)

(** C3, as the code has it.  The draft operations that take a user id
    -- generate, approve, reject, modify, regenerate, compare, export and
    delete -- answer for a stored draft of another user exactly what they
    answer for an id that is not stored (no version, [False], no
    comparison, no export), and leave the store as it was. *)
Theorem draft_operations_hide_foreign_drafts
    (C : DraftingService.Collaborators) (st absent : gmap string Dict) (draft_id user_id : string) (d : DocumentDraft.t) :
  DraftingService.get_draft st draft_id = Ok (Some d) ->
  DocumentDraft.user_id d <> user_id ->
  absent !! draft_id = None ->
  (forall context version_id now,
     DraftingService.generate_draft_version C st draft_id user_id context version_id now = (Ok None, st) /\
     DraftingService.generate_draft_version C absent draft_id user_id context version_id now = (Ok None, absent)) /\
  (forall version_id feedback now,
     DraftingService.approve_draft_version st draft_id version_id user_id feedback now
       = (Ok false, st) /\
     DraftingService.approve_draft_version absent draft_id version_id user_id feedback now
       = (Ok false, absent)) /\
  (forall version_id reason feedback now,
     DraftingService.reject_draft_version st draft_id version_id user_id reason feedback now
       = (Ok false, st) /\
     DraftingService.reject_draft_version absent draft_id version_id user_id reason
       feedback now = (Ok false, absent)) /\
  (forall version_id mods now,
     DraftingService.modify_draft_version st draft_id version_id user_id mods now
       = (Ok false, st) /\
     DraftingService.modify_draft_version absent draft_id version_id user_id mods now
       = (Ok false, absent)) /\
  (forall version_id feedback new_version_id now,
     DraftingService.regenerate_draft_version C st draft_id version_id user_id feedback new_version_id now
       = (Ok None, st) /\
     DraftingService.regenerate_draft_version C absent draft_id version_id user_id feedback new_version_id now
       = (Ok None, absent)) /\
  (forall version_id_1 version_id_2,
     DraftingService.get_draft_comparison st draft_id version_id_1 version_id_2 user_id
       = Ok None /\
     DraftingService.get_draft_comparison absent draft_id version_id_1 version_id_2 user_id
       = Ok None) /\
  (forall format now,
     DraftingService.export_draft C st draft_id user_id format now
       = Ok None /\
     DraftingService.export_draft C absent draft_id user_id format now
       = Ok None) /\
  (DraftingService.delete_draft st draft_id user_id = (Ok false, st) /\
   DraftingService.delete_draft absent draft_id user_id = (Ok false, absent)).
Proof.
  intros Hget Hown Habs.
  assert (Hnone : DraftingService.get_draft absent draft_id = Ok None)
    by (unfold DraftingService.get_draft; now rewrite Habs).
  pose proof (eqb_neq_neg _ _ Hown) as Hne.
  unfold DraftingService.generate_draft_version, DraftingService.approve_draft_version,
    DraftingService.reject_draft_version, DraftingService.modify_draft_version,
    DraftingService.regenerate_draft_version, DraftingService.get_draft_comparison,
    DraftingService.export_draft, DraftingService.delete_draft.
  rewrite Hget, Hnone. cbn [bind]. rewrite Hne.
  repeat split.
Qed.

Lemma draft_operations_hide_foreign_drafts_witness :
  DraftingService.get_draft store_d1 "d1" = Ok (Some draft_d1) /\
  DocumentDraft.user_id draft_d1 <> "bob" /\
  (∅ : gmap string Dict) !! "d1" = None /\
  DraftingService.delete_draft store_d1 "d1" "bob" = (Ok false, store_d1) /\
  DraftingService.delete_draft ∅ "d1" "bob" = (Ok false, ∅).
Proof.
  assert (Hget : DraftingService.get_draft store_d1 "d1" = Ok (Some draft_d1))
    by (vm_compute; reflexivity).
  assert (Hown : DocumentDraft.user_id draft_d1 <> "bob") by discriminate.
  assert (Habs : (∅ : gmap string Dict) !! "d1" = None) by reflexivity.
  split; [exact Hget|]. split; [exact Hown|]. split; [exact Habs|].
  exact (proj2 (proj2 (proj2 (proj2 (proj2 (proj2 (proj2
    (draft_operations_hide_foreign_drafts silent store_d1 ∅ "d1" "bob" draft_d1
       Hget Hown Habs)))))))).
Defined.

(** [get_draft] and [control_workflow] take no user id: the draft and the
    workflow that alice created are served and acted on for whoever asks,
    while an id that is not stored gets the not-found answer. *)
Lemma foreign_aggregates_are_served :
  DraftingService.get_draft store_d1 "d1" = Ok (Some draft_d1) /\
  DocumentDraft.user_id draft_d1 = "alice" /\
  DraftingService.get_draft store_d1 "d1" <> DraftingService.get_draft store_d1 "d9" /\
  DraftingService.get_draft store_d1 "d9" = Ok None /\
  (exists w,
     fst (fst (WorkflowService.control_workflow store_w1 "w1" "start" 9)) = Ok (Some w) /\
     Workflow.status w = "running" /\
     WorkflowService.stored_current_step
       (snd (fst (WorkflowService.control_workflow store_w1 "w1" "start" 9))) "w1"
       = Some 0%nat) /\
  fst (fst (WorkflowService.control_workflow store_w1 "w9" "start" 9)) = Ok None.
Proof.
  split; [vm_compute; reflexivity|]. split; [reflexivity|].
  split; [vm_compute; discriminate|].
  split; [vm_compute; reflexivity|]. split; [|vm_compute; reflexivity].
  eexists. split; [vm_compute; reflexivity|]. split; [reflexivity|].
  vm_compute; reflexivity.
Qed.

(** ** Workflows: storing and reloading *)

Module WorkflowFacts.

Import WorkflowService.

Lemma as_nat_of_nat (n : nat) : as_nat (VInt (Z.of_nat n)) = Ok n.
Proof.
  unfold as_nat. destruct (Z.leb_spec 0 (Z.of_nat n)); [|lia].
  now rewrite Nat2Z.id.
Qed.

Lemma dict_to_step_to_dict (s : WorkflowStep.t) :
  _dict_to_step (VDict (WorkflowStep.to_dict s)) = Ok s.
Proof.
  destruct s as [i n d s p st en du r e cm ca].
  destruct st as [t0|], en as [t1|]; reflexivity.
Qed.

Lemma dict_to_workflow_to_dict (w : Workflow.t) :
  _dict_to_workflow (Workflow.to_dict w) = Ok (reloaded w).
Proof.
  destruct w as [i n d u s c ss ca ua ed ch dr].
  unfold _dict_to_workflow, Workflow.to_dict, reloaded.
  cbn [Workflow.id Workflow.name Workflow.description Workflow.user_id Workflow.status
       Workflow.current_step Workflow.steps Workflow.created_at Workflow.updated_at
       Workflow.estimated_duration Workflow.chat_id Workflow.draft_id].
  assert (Hss : mapM _dict_to_step (map (fun s => VDict (WorkflowStep.to_dict s)) ss) = Ok ss)
    by (apply mapM_map_Ok, dict_to_step_to_dict).
  cbn -[as_nat]. rewrite as_nat_of_nat. cbn. rewrite Hss. reflexivity.
Qed.

(** [to_dict] writes no owner: neither under the key the reload reads
    ('user_id') nor under the key the draft store uses ('userId'). *)
Lemma to_dict_has_no_owner (w : Workflow.t) :
  dict_get "user_id" (Workflow.to_dict w) = None /\
  dict_get "userId" (Workflow.to_dict w) = None.
Proof. split; reflexivity. Qed.

Lemma get_workflow_insert (st : gmap string Dict) workflow_id w :
  get_workflow (<[workflow_id := Workflow.to_dict w]> st) workflow_id
    = Ok (Some (reloaded w)).
Proof.
  unfold get_workflow. rewrite lookup_insert_eq, dict_to_workflow_to_dict. reflexivity.
Qed.

Lemma stored_empty : stored_by_to_dict ∅.
Proof. intros k x H. now rewrite lookup_empty in H. Qed.

Lemma stored_insert st k w :
  stored_by_to_dict st -> stored_by_to_dict (<[k := Workflow.to_dict w]> st).
Proof.
  intros Hst k' x. rewrite lookup_insert. case_decide.
  - intros [= <-]. eauto.
  - apply Hst.
Qed.

Lemma stored_store st w : stored_by_to_dict st -> stored_by_to_dict (store w st).
Proof. apply stored_insert. Qed.

Lemma get_workflow_stored st workflow_id w :
  stored_by_to_dict st -> get_workflow st workflow_id = Ok (Some w) ->
  exists w0, st !! workflow_id = Some (Workflow.to_dict w0) /\ w = reloaded w0.
Proof.
  unfold get_workflow. intros Hst Hg.
  destruct (st !! workflow_id) as [x|] eqn:Hx; [|discriminate].
  destruct (Hst _ _ Hx) as (w0 & ->).
  rewrite dict_to_workflow_to_dict in Hg. cbn in Hg. injection Hg as <-. eauto.
Qed.

Create HintDb workflow_store.
#[local] Hint Resolve stored_empty stored_insert stored_store : workflow_store.

Section Preservation.

Variable C : Collaborators.

Lemma execute_step_stored st w i t0 t1 :
  stored_by_to_dict st -> stored_by_to_dict (snd (_execute_workflow_step C st w i t0 t1)).
Proof.
  intros Hst. unfold _execute_workflow_step, _execute_dynamic_step,
    _execute_research_step, _execute_extraction_step, _execute_drafting_step,
    _execute_validation_step, _execute_review_step.
  repeat case_match; simplify_eq; cbn [snd]; auto with workflow_store.
Qed.

Lemma execute_steps_stored clock indices w st :
  stored_by_to_dict st -> stored_by_to_dict (snd (execute_steps C clock indices w st)).
Proof.
  revert w st. induction indices as [|i rest IH]; intros w st Hst; cbn [execute_steps]; [exact Hst|].
  destruct (negb _); [exact Hst|].
  pose proof (execute_step_stored st (with_current_step i w) i
                (fst (clock i)) (snd (clock i)) Hst) as H1.
  destruct (_execute_workflow_step C st (with_current_step i w) i _ _) as [w2 st2].
  cbn [snd] in H1. destruct (negb _); [exact H1|]. now apply IH.
Qed.

Lemma run_task_stored st task clock t_final :
  stored_by_to_dict st -> stored_by_to_dict (snd (run_task C st task clock t_final)).
Proof.
  intros Hst. destruct task as [w|w i]; cbn [run_task].
  - unfold _execute_workflow.
    pose proof (execute_steps_stored clock (seq 0 (length (Workflow.steps w))) w st Hst) as H1.
    destruct (execute_steps _ _ _ _ _) as [w1 st1]. cbn [snd] in H1.
    destruct (String.eqb _ _); cbn [snd]; auto with workflow_store.
  - now apply execute_step_stored.
Qed.

Lemma reachable_stored st : reachable C st -> stored_by_to_dict st.
Proof.
  induction 1 as [|st u c wid now _ IH|st wid a now _ IH|st wid sid now _ IH
                  |st wid sid m now _ IH|st dst wid u did now _ IH|st task clock tf _ IH].
  - apply stored_empty.
  - unfold create_workflow_from_chat.
    repeat case_match; simplify_eq; cbn [snd]; auto with workflow_store.
  - unfold control_workflow, _start_workflow, _pause_workflow, _resume_workflow,
      _stop_workflow.
    repeat case_match; simplify_eq; cbn [fst snd]; auto with workflow_store.
  - unfold approve_step.
    repeat case_match; simplify_eq; cbn [fst snd]; auto with workflow_store.
  - unfold modify_step.
    repeat case_match; simplify_eq; cbn [fst snd]; auto with workflow_store.
  - unfold create_draft_from_workflow.
    repeat case_match; simplify_eq; cbn [fst snd]; auto with workflow_store.
  - now apply run_task_stored.
Qed.

End Preservation.

End WorkflowFacts.

(** ** The executor and the driver *)

Module DriverFacts.

Import WorkflowService.

(** The side conditions on the workflow object a handler hands back. *)
Ltac step_frame Hstep :=
  cbn [update_step with_steps Workflow.id Workflow.current_step Workflow.status
       Workflow.steps];
  first [ reflexivity
        | now rewrite !length_alter
        | (intros ? ?; rewrite !list_lookup_alter_ne by congruence; reflexivity)
        | (intros _; rewrite !list_lookup_alter_eq, Hstep; cbn; eexists; split; reflexivity)
        | (intros ?; discriminate) ].

Section Driver.

Variable C : Collaborators.

(** One run of the executor on an existing step: which fields of the
    workflow object it leaves alone, what it does to the step, what it
    writes, and that none of this depends on the store. *)
Lemma execute_step_frame st w i t0 t1 s :
  Workflow.steps w !! i = Some s ->
  let r := _execute_workflow_step C st w i t0 t1 in
  Workflow.id (fst r) = Workflow.id w /\
  Workflow.current_step (fst r) = Workflow.current_step w /\
  length (Workflow.steps (fst r)) = length (Workflow.steps w) /\
  (forall j, j <> i -> Workflow.steps (fst r) !! j = Workflow.steps w !! j) /\
  (exists s',
     Workflow.steps (fst r) !! i = Some s' /\
     WorkflowStep.progress s' = 100 /\
     ((WorkflowStep.status s' = "error" /\ Workflow.status (fst r) = "error") \/
      (WorkflowStep.status s' = "completed" /\
       Workflow.status (fst r) = Workflow.status w))) /\
  snd r !! Workflow.id w = Some (Workflow.to_dict (fst r)).
Proof.
  intros Hstep. pose proof (lookup_lt_Some _ _ _ Hstep) as Hlt.
  unfold _execute_workflow_step.
  destruct (Nat.leb_spec (length (Workflow.steps w)) i) as [Hle|_]; [lia|].
  cbn [update_step with_steps Workflow.steps].
  rewrite list_lookup_alter_eq, Hstep. cbn [fmap option_fmap option_map].
  cbn [step_with_progress step_with_start_time step_with_status WorkflowStep.name].
  unfold _execute_research_step, _execute_extraction_step, _execute_drafting_step,
    _execute_validation_step, _execute_review_step, _execute_dynamic_step.
  assert (Hfin : forall (raised : option string) (w2 : Workflow.t) (st2 : gmap string Dict),
            Workflow.id w2 = Workflow.id w ->
            Workflow.current_step w2 = Workflow.current_step w ->
            Workflow.status w2 = Workflow.status w ->
            length (Workflow.steps w2) = length (Workflow.steps w) ->
            (forall j, j <> i -> Workflow.steps w2 !! j = Workflow.steps w !! j) ->
            (raised = None ->
             exists s2, Workflow.steps w2 !! i = Some s2 /\
                        WorkflowStep.status s2 = "completed") ->
            let w3 :=
              match raised with
              | Some e =>
                  with_status "error"
                    (update_step i
                       (fun s => step_with_error (VStr e) (step_with_status "error" s)) w2)
              | None => w2
              end in
            let w4 := with_updated_at t1 (update_step i (step_finish t1) w3) in
            Workflow.id w4 = Workflow.id w /\
            Workflow.current_step w4 = Workflow.current_step w /\
            length (Workflow.steps w4) = length (Workflow.steps w) /\
            (forall j, j <> i -> Workflow.steps w4 !! j = Workflow.steps w !! j) /\
            (exists s',
               Workflow.steps w4 !! i = Some s' /\
               WorkflowStep.progress s' = 100 /\
               ((WorkflowStep.status s' = "error" /\ Workflow.status w4 = "error") \/
                (WorkflowStep.status s' = "completed" /\
                 Workflow.status w4 = Workflow.status w))) /\
            store w4 st2 !! Workflow.id w = Some (Workflow.to_dict w4)).
  { intros raised w2 st2 Hid Hcur Hstat Hlen Hother Hdone w3 w4.
    assert (Hi : (i < length (Workflow.steps w2))%nat) by lia.
    destruct (lookup_lt_is_Some_2 _ _ Hi) as [s2 Hs2].
    assert (Hid4 : Workflow.id w4 = Workflow.id w)
      by (unfold w4, w3; destruct raised; cbn; assumption).
    assert (Hstore : store w4 st2 !! Workflow.id w = Some (Workflow.to_dict w4))
      by (unfold store; rewrite Hid4; apply lookup_insert_eq).
    split; [exact Hid4|]. revert Hstore. generalize (store w4 st2). intros st4 Hstore.
    unfold w4, w3. clear Hid4.
    destruct raised as [e|];
      cbn [with_status with_updated_at update_step with_steps
           Workflow.id Workflow.current_step Workflow.steps Workflow.status];
      (split; [assumption|]); (split; [now rewrite !length_alter|]);
      (split; [intros j Hj; rewrite !list_lookup_alter_ne by congruence;
               now apply Hother|]); (split; [|exact Hstore]).
    - rewrite !list_lookup_alter_eq, Hs2. cbn. eexists. split; [reflexivity|].
      split; [reflexivity|]. left. split; reflexivity.
    - destruct (Hdone eq_refl) as (s2' & Hs2' & Hc).
      rewrite !list_lookup_alter_eq, Hs2'. cbn. eexists. split; [reflexivity|].
      split; [reflexivity|]. right. split; [exact Hc|exact Hstat]. }
  destruct (String.eqb (str_lower (WorkflowStep.name s)) "research").
  { destruct (conduct_legal_research C _) as [r|e]; cbv beta iota zeta; cbn [fst snd];
      [apply (Hfin None)|apply (Hfin (Some e))]; step_frame Hstep. }
  destruct (String.eqb (str_lower (WorkflowStep.name s)) "extraction").
  { destruct (extract_document_info C _) as [r|e]; cbv beta iota zeta; cbn [fst snd];
      [apply (Hfin None)|apply (Hfin (Some e))]; step_frame Hstep. }
  destruct (String.eqb (str_lower (WorkflowStep.name s)) "drafting").
  { destruct (draft_document C _) as [r|e]; cbv beta iota zeta; cbn [fst snd];
      [apply (Hfin None)|apply (Hfin (Some e))]; step_frame Hstep. }
  destruct (String.eqb (str_lower (WorkflowStep.name s)) "validation").
  { destruct (validate_document C _) as [r|e]; cbv beta iota zeta; cbn [fst snd];
      [apply (Hfin None)|apply (Hfin (Some e))]; step_frame Hstep. }
  destruct (String.eqb (str_lower (WorkflowStep.name s)) "review").
  { destruct (review_document C _) as [r|e]; cbv beta iota zeta; cbn [fst snd];
      [apply (Hfin None)|apply (Hfin (Some e))]; step_frame Hstep. }
  destruct (dynamic_result C _ _ _ _) as [r|e]; cbv beta iota zeta; cbn [fst snd];
    [apply (Hfin None)|apply (Hfin (Some e))]; step_frame Hstep.
Qed.

(** The workflow object the executor ends with does not depend on the
    store it runs against. *)
Lemma execute_step_independent st st' w i t0 t1 :
  fst (_execute_workflow_step C st w i t0 t1) = fst (_execute_workflow_step C st' w i t0 t1).
Proof.
  unfold _execute_workflow_step.
  destruct (length (Workflow.steps w) <=? i)%nat; [reflexivity|].
  destruct (Workflow.steps _ !! i) as [s|]; [|reflexivity].
  unfold _execute_research_step, _execute_extraction_step, _execute_drafting_step,
    _execute_validation_step, _execute_review_step, _execute_dynamic_step.
  destruct (String.eqb (str_lower (WorkflowStep.name s)) "research");
    [destruct (conduct_legal_research C _); reflexivity|].
  destruct (String.eqb (str_lower (WorkflowStep.name s)) "extraction");
    [destruct (extract_document_info C _); reflexivity|].
  destruct (String.eqb (str_lower (WorkflowStep.name s)) "drafting");
    [destruct (draft_document C _); reflexivity|].
  destruct (String.eqb (str_lower (WorkflowStep.name s)) "validation");
    [destruct (validate_document C _); reflexivity|].
  destruct (String.eqb (str_lower (WorkflowStep.name s)) "review");
    [destruct (review_document C _); reflexivity|].
  destruct (dynamic_result C _ _ _ _); reflexivity.
Qed.

Lemma execute_steps_independent clock indices : forall w st st',
  fst (execute_steps C clock indices w st) = fst (execute_steps C clock indices w st').
Proof.
  induction indices as [|i rest IH]; intros w st st'; cbn [execute_steps]; [reflexivity|].
  destruct (negb (String.eqb (Workflow.status w) "running")); [reflexivity|].
  pose proof (execute_step_independent st st' (with_current_step i w) i
                (fst (clock i)) (snd (clock i))) as Hstep.
  destruct (_execute_workflow_step C st _ i _ _) as [w2 st2].
  destruct (_execute_workflow_step C st' _ i _ _) as [w2' st2'].
  cbn [fst] in Hstep. subst w2'.
  destruct (negb (String.eqb (Workflow.status w2) "running")); [reflexivity|].
  apply IH.
Qed.

(** The loop of the driver over the steps from [k] on. *)
Lemma execute_steps_outcome clock m : forall k w st,
  Workflow.status w = "running" ->
  (k + m = length (Workflow.steps w))%nat ->
  let r := execute_steps C clock (seq k m) w st in
  Workflow.id (fst r) = Workflow.id w /\
  length (Workflow.steps (fst r)) = length (Workflow.steps w) /\
  (forall j, (j < k)%nat -> Workflow.steps (fst r) !! j = Workflow.steps w !! j) /\
  ((Workflow.status (fst r) = "running" /\
    forall j s', (k <= j)%nat -> Workflow.steps (fst r) !! j = Some s' ->
                 WorkflowStep.status s' = "completed" /\ WorkflowStep.progress s' = 100) \/
   (Workflow.status (fst r) = "error" /\
    exists e s',
      (k <= e)%nat /\
      Workflow.current_step (fst r) = e /\
      Workflow.steps (fst r) !! e = Some s' /\
      WorkflowStep.status s' = "error" /\
      (forall j s'', (k <= j < e)%nat -> Workflow.steps (fst r) !! j = Some s'' ->
                     WorkflowStep.status s'' = "completed" /\
                     WorkflowStep.progress s'' = 100) /\
      (forall j, (e < j)%nat -> Workflow.steps (fst r) !! j = Workflow.steps w !! j))) /\
  ((0 < m)%nat -> snd r !! Workflow.id w = Some (Workflow.to_dict (fst r))) /\
  (m = 0%nat -> r = (w, st)).
Proof.
  induction m as [|m IH]; intros k w st Hrun Hlen r.
  - subst r. cbn [seq execute_steps fst snd]. split_and!; try reflexivity.
    + left. split; [exact Hrun|]. intros j s' Hj Hs.
      apply lookup_lt_Some in Hs. lia.
    + intros H. lia.
  - subst r. cbn [seq execute_steps]. rewrite Hrun. cbn [String.eqb Ascii.eqb Bool.eqb negb].
    change (negb (String.eqb "running" "running")) with false. cbv iota.
    assert (Hk : (k < length (Workflow.steps w))%nat) by lia.
    destruct (lookup_lt_is_Some_2 _ _ Hk) as [s Hs].
    pose proof (execute_step_frame st (with_current_step k w) k
                  (fst (clock k)) (snd (clock k)) s Hs) as Hframe.
    destruct (_execute_workflow_step C st (with_current_step k w) k _ _) as [w2 st2].
    cbn [fst snd with_current_step Workflow.id Workflow.steps Workflow.status
         Workflow.current_step] in Hframe.
    destruct Hframe as (Hid & Hcur & Hlen2 & Hother & (s' & Hs' & Hprog & Hcase) & Hstore).
    destruct Hcase as [[Herr Hwerr]|[Hdone Hwrun]].
    + rewrite Hwerr. change (negb (String.eqb "error" "running")) with true. cbv iota.
      cbn [fst snd]. split_and!; try assumption.
      * intros j Hj. apply Hother. lia.
      * right. split; [exact Hwerr|]. exists k, s'. split_and!; try assumption.
        -- lia.
        -- intros j s'' Hj. lia.
        -- intros j Hj. apply Hother. lia.
      * intros _. exact Hstore.
      * discriminate.
    + rewrite Hwrun, Hrun. change (negb (String.eqb "running" "running")) with false.
      cbv iota.
      assert (Hrun2 : Workflow.status w2 = "running") by congruence.
      assert (Hlen' : (S k + m = length (Workflow.steps w2))%nat) by lia.
      destruct (IH (S k) w2 st2 Hrun2 Hlen') as (Hid' & Hl' & Hbelow & Hcase & Hst' & Hnil).
      split_and!.
      * congruence.
      * congruence.
      * intros j Hj. rewrite Hbelow by lia. apply Hother. lia.
      * destruct Hcase as [[Hr Hall]|[Hr (e & se & He & Hce & Hse & Hes & Hbefore & Hafter)]].
        -- left. split; [exact Hr|]. intros j s'' Hj Hs''.
           destruct (decide (j = k)) as [->|Hne].
           ++ rewrite Hbelow in Hs'' by lia. rewrite Hs' in Hs''.
              injection Hs'' as <-. auto.
           ++ apply (Hall j); [lia|exact Hs''].
        -- right. split; [exact Hr|]. exists e, se. split_and!; try assumption.
           ++ lia.
           ++ intros j s'' Hj Hs''. destruct (decide (j = k)) as [->|Hne].
              ** rewrite Hbelow in Hs'' by lia. rewrite Hs' in Hs''.
                 injection Hs'' as <-. auto.
              ** apply (Hbefore j); [lia|exact Hs''].
           ++ intros j Hj. rewrite Hafter by exact Hj. apply Hother. lia.
      * intros _. destruct m as [|m'].
        -- rewrite (Hnil eq_refl). cbn [fst snd]. exact Hstore.
        -- rewrite <- Hid. apply Hst'. lia.
      * discriminate.
Qed.

(** The loop of the driver is the sequence of its iterations: what the
    driver does from an iteration on depends on its own workflow object
    and on the store as it is then. *)
Lemma execute_steps_app clock l1 l2 : forall w st,
  execute_steps C clock (l1 ++ l2)%list w st
  = execute_steps C clock l2 (fst (execute_steps C clock l1 w st))
      (snd (execute_steps C clock l1 w st)).
Proof.
  induction l1 as [|i l1 IH]; intros w st; [reflexivity|].
  cbn [List.app execute_steps].
  destruct (String.eqb (Workflow.status w) "running") eqn:Hw; cbn [negb].
  - destruct (_execute_workflow_step C st (with_current_step i w) i _ _) as [w2 st2].
    destruct (String.eqb (Workflow.status w2) "running") eqn:Hw2; cbn [negb].
    + apply IH.
    + cbn [fst snd]. destruct l2 as [|j l2]; [reflexivity|].
      cbn [execute_steps]. now rewrite Hw2.
  - cbn [fst snd]. destruct l2 as [|j l2]; [reflexivity|].
    cbn [execute_steps]. now rewrite Hw.
Qed.

(** The driver executes the steps from [a] on in increasing order, each
    once, and stops after the first one that leaves the workflow in
    'error'. *)
Lemma executed_indices_in_order clock n : forall a w st,
  Workflow.status w = "running" ->
  (a + n <= length (Workflow.steps w))%nat ->
  exists k,
    (k <= n)%nat /\
    ((0 < n)%nat -> (0 < k)%nat) /\
    executed_indices C clock (seq a n) w st = seq a k /\
    ((k = n /\ Workflow.status (fst (execute_steps C clock (seq a n) w st)) = "running") \/
     (Workflow.status (fst (execute_steps C clock (seq a n) w st)) = "error" /\
      (0 < k)%nat /\
      Workflow.current_step (fst (execute_steps C clock (seq a n) w st)) = (a + k - 1)%nat)).
Proof.
  induction n as [|n IH]; intros a w st Hrun Hlen.
  - exists 0%nat. cbn. split; [lia|]. split; [lia|]. split; [reflexivity|]. now left.
  - cbn [seq executed_indices execute_steps]. rewrite Hrun.
    change (String.eqb "running" "running") with true. cbn [negb].
    assert (Ha : (a < length (Workflow.steps (with_current_step a w)))%nat) by (cbn; lia).
    destruct (lookup_lt_is_Some_2 _ _ Ha) as [s Hs].
    destruct (execute_step_frame st (with_current_step a w) a
                (fst (clock a)) (snd (clock a)) s Hs)
      as (_ & Hcur & Hl & _ & (s' & _ & _ & Hcase) & _).
    destruct (_execute_workflow_step C st (with_current_step a w) a _ _) as [w2 st2].
    cbn [fst snd] in Hcur, Hl, Hcase. cbn in Hcur, Hl.
    destruct Hcase as [[_ Herr]|[_ Hsame]].
    + rewrite Herr. change (String.eqb "error" "running") with false. cbn [negb fst].
      exists 1%nat. split; [lia|]. split; [lia|]. split; [reflexivity|].
      right. split; [exact Herr|]. split; [lia|]. rewrite Hcur. lia.
    + cbn in Hsame. rewrite Hsame, Hrun.
      change (String.eqb "running" "running") with true. cbn [negb].
      assert (Hrun2 : Workflow.status w2 = "running") by congruence.
      destruct (IH (S a) w2 st2 Hrun2 ltac:(lia)) as (k & Hk & Hpos & Hlog & Hfin).
      exists (S k). split; [lia|]. split; [lia|]. split; [cbn [seq]; now rewrite Hlog|].
      destruct Hfin as [[-> Hr]|(Hr & Hk0 & Hc)].
      * left. split; [reflexivity|exact Hr].
      * right. split; [exact Hr|]. split; [lia|]. rewrite Hc. lia.
Qed.

End Driver.

End DriverFacts.

(** The outcome of [_execute_workflow_step] on an existing step: the
    progress is 100 and the duration is the difference of the two clock
    readings; either the handler raised, and step and workflow are in
    'error', or the step is 'completed', [can_approve] is set unless the
    step is named 'review' (that handler leaves the flag as it found it),
    and [can_modify] is set when the step is named 'drafting' and left as
    it was otherwise. *)
Lemma executed_step_outcome (C : WorkflowService.Collaborators)
    (st : gmap string Dict) (w : Workflow.t) (i : nat) (step : WorkflowStep.t)
    (t_start t_end : Z) :
  Workflow.steps w !! i = Some step ->
  exists step',
    Workflow.steps (fst (WorkflowService._execute_workflow_step C st w i t_start t_end)) !! i
      = Some step' /\
    WorkflowStep.progress step' = 100 /\
    WorkflowStep.start_time step' = Some t_start /\
    WorkflowStep.end_time step' = Some t_end /\
    WorkflowStep.duration step' = VFloat (t_end - t_start) (-6) /\
    ((WorkflowStep.status step' = "error" /\
      Workflow.status (fst (WorkflowService._execute_workflow_step C st w i t_start t_end))
        = "error") \/
     (WorkflowStep.status step' = "completed" /\
      WorkflowStep.can_approve step' =
        (if String.eqb (str_lower (WorkflowStep.name step)) "review"
         then WorkflowStep.can_approve step else true) /\
      WorkflowStep.can_modify step' =
        (if String.eqb (str_lower (WorkflowStep.name step)) "drafting"
         then true else WorkflowStep.can_modify step))).
Proof.
  intros Hstep. pose proof (lookup_lt_Some _ _ _ Hstep) as Hlt.
  unfold WorkflowService._execute_workflow_step.
  destruct (Nat.leb_spec (length (Workflow.steps w)) i) as [Hle|_]; [lia|].
  cbn [WorkflowService.update_step WorkflowService.with_steps Workflow.steps].
  rewrite list_lookup_alter_eq, Hstep. cbn [fmap option_fmap option_map].
  cbn [WorkflowService.step_with_progress WorkflowService.step_with_start_time
       WorkflowService.step_with_status WorkflowStep.name].
  unfold WorkflowService._execute_research_step, WorkflowService._execute_extraction_step,
    WorkflowService._execute_drafting_step, WorkflowService._execute_validation_step,
    WorkflowService._execute_review_step, WorkflowService._execute_dynamic_step.
  destruct (String.eqb (str_lower (WorkflowStep.name step)) "research") eqn:E1.
  { apply String.eqb_eq in E1. rewrite E1.
    destruct (WorkflowService.conduct_legal_research C _); cbn;
      rewrite !list_lookup_alter_eq, Hstep; cbn; eexists; split_and!; eauto. }
  destruct (String.eqb (str_lower (WorkflowStep.name step)) "extraction") eqn:E2.
  { apply String.eqb_eq in E2. rewrite E2.
    destruct (WorkflowService.extract_document_info C _); cbn;
      rewrite !list_lookup_alter_eq, Hstep; cbn; eexists; split_and!; eauto. }
  destruct (String.eqb (str_lower (WorkflowStep.name step)) "drafting") eqn:E3.
  { apply String.eqb_eq in E3. rewrite E3.
    destruct (WorkflowService.draft_document C _); cbn;
      rewrite !list_lookup_alter_eq, Hstep; cbn; eexists; split_and!; eauto. }
  destruct (String.eqb (str_lower (WorkflowStep.name step)) "validation") eqn:E4.
  { apply String.eqb_eq in E4. rewrite E4.
    destruct (WorkflowService.validate_document C _); cbn;
      rewrite !list_lookup_alter_eq, Hstep; cbn; eexists; split_and!; eauto. }
  destruct (String.eqb (str_lower (WorkflowStep.name step)) "review") eqn:E5.
  { destruct (WorkflowService.review_document C _); cbn;
      rewrite !list_lookup_alter_eq, Hstep; cbn; eexists; split_and!; eauto. }
  destruct (WorkflowService.dynamic_result C _ _ _ _); cbn;
    rewrite !list_lookup_alter_eq, Hstep; cbn; eexists; split_and!; eauto.
Qed.

(** ** C4: starting a workflow and approving its steps *)

(** C4, as the code has it.  [control_workflow] with 'start' puts the
    workflow at step 0 with that step 'running' and spawns the driver.
    The driver, by itself and without waiting for any approval, executes
    the steps 0, 1, ..., k-1 in this order, each once: all of them, the
    workflow ending 'completed', or up to the first step whose handler
    fails, the workflow ending 'error' at that step.  [approve_step]
    looks at the status of the step alone: on a step that is absent or
    not 'completed' it changes nothing and spawns nothing; on a
    'completed' step, whatever its [can_approve] flag, it clears the flag,
    moves [current_step] forward by exactly one when a next step exists
    and marks that step 'running' with a new start time (otherwise
    [current_step] stays), stores the workflow and spawns an executor for
    the step at [current_step].  That executor executes the step on the
    copy of the workflow it was given, whatever the status of the step:
    the step ends at progress 100, 'completed' or 'error', with the
    start time of this execution. *)
Theorem start_runs_steps_in_order_and_approve_reruns
    (C : WorkflowService.Collaborators)
    (st : gmap string Dict) (workflow_id step_id : string) (now : Z) (w : Workflow.t) :
  WorkflowService.get_workflow st workflow_id = Ok (Some w) ->
  Workflow.steps w <> [] ->
  (exists w0 first,
     WorkflowService.control_workflow st workflow_id "start" now
       = (Ok (Some w0), <[Workflow.id w := Workflow.to_dict w0]> st,
          Some (ExecuteWorkflow w0)) /\
     Workflow.status w0 = "running" /\
     Workflow.current_step w0 = 0%nat /\
     Workflow.steps w0 !! 0%nat = Some first /\
     WorkflowStep.status first = "running" /\
     length (Workflow.steps w0) = length (Workflow.steps w) /\
     forall (st' : gmap string Dict) (clock : nat -> Z * Z) (t_final : Z),
       let final := fst (WorkflowService.run_task C st' (ExecuteWorkflow w0) clock t_final) in
       exists k,
         (0 < k <= length (Workflow.steps w))%nat /\
         WorkflowService.steps_run_by C st' (ExecuteWorkflow w0) clock = seq 0 k /\
         ((k = length (Workflow.steps w) /\ Workflow.status final = "completed") \/
          (Workflow.status final = "error" /\
           Workflow.current_step final = (k - 1)%nat))) /\
  (WorkflowService.find_step step_id (Workflow.steps w) = None ->
   WorkflowService.approve_step st workflow_id step_id now = (Ok (Some w), st, None)) /\
  (forall i step,
     WorkflowService.find_step step_id (Workflow.steps w) = Some (i, step) ->
     WorkflowStep.status step <> "completed" ->
     WorkflowService.approve_step st workflow_id step_id now = (Ok (Some w), st, None)) /\
  (forall i step,
     WorkflowService.find_step step_id (Workflow.steps w) = Some (i, step) ->
     WorkflowStep.status step = "completed" ->
     exists w' approved,
       WorkflowService.approve_step st workflow_id step_id now
         = (Ok (Some w'), <[workflow_id := Workflow.to_dict w']> st,
            Some (ExecuteWorkflowStep w' (Workflow.current_step w'))) /\
       Workflow.steps w' !! i = Some approved /\
       WorkflowStep.can_approve approved = false /\
       length (Workflow.steps w') = length (Workflow.steps w) /\
       ((S (Workflow.current_step w) < length (Workflow.steps w))%nat ->
        Workflow.current_step w' = S (Workflow.current_step w) /\
        exists next,
          Workflow.steps w' !! S (Workflow.current_step w) = Some next /\
          WorkflowStep.status next = "running" /\
          WorkflowStep.start_time next = Some now) /\
       (~ (S (Workflow.current_step w) < length (Workflow.steps w))%nat ->
        Workflow.current_step w' = Workflow.current_step w) /\
       (forall (st' : gmap string Dict) (clock : nat -> Z * Z) (t_final : Z),
          let c := Workflow.current_step w' in
          let task := ExecuteWorkflowStep w' c in
          (c < length (Workflow.steps w))%nat ->
          WorkflowService.steps_run_by C st' task clock = [c] /\
          exists ran,
            Workflow.steps (fst (WorkflowService.run_task C st' task clock t_final)) !! c
              = Some ran /\
            WorkflowStep.progress ran = 100 /\
            WorkflowStep.start_time ran = Some (fst (clock c)) /\
            (WorkflowStep.status ran = "completed" \/ WorkflowStep.status ran = "error"))).
Proof.
  intros Hget Hne.
  assert (Htask : forall (w' : Workflow.t) (st' : gmap string Dict) (clock : nat -> Z * Z)
                         (t_final : Z),
            length (Workflow.steps w') = length (Workflow.steps w) ->
            let c := Workflow.current_step w' in
            let task := ExecuteWorkflowStep w' c in
            (c < length (Workflow.steps w))%nat ->
            WorkflowService.steps_run_by C st' task clock = [c] /\
            exists ran,
              Workflow.steps (fst (WorkflowService.run_task C st' task clock t_final)) !! c
                = Some ran /\
              WorkflowStep.progress ran = 100 /\
              WorkflowStep.start_time ran = Some (fst (clock c)) /\
              (WorkflowStep.status ran = "completed" \/ WorkflowStep.status ran = "error")).
  { intros w' st' clock t_final Hlen c task Hc. subst task. split.
    - cbn [WorkflowService.steps_run_by].
      destruct (Nat.leb_spec (length (Workflow.steps w')) c) as [Hle|_]; [lia|reflexivity].
    - cbn [WorkflowService.run_task].
      assert (Hc' : (c < length (Workflow.steps w'))%nat) by lia.
      destruct (lookup_lt_is_Some_2 _ _ Hc') as [s Hs].
      destruct (executed_step_outcome C st' w' c s (fst (clock c)) (snd (clock c)) Hs)
        as (ran & Hran & Hp & Hst & _ & _ & Hcase).
      exists ran. split; [exact Hran|]. split; [exact Hp|]. split; [exact Hst|].
      destruct Hcase as [[He _]|[Hd _]]; auto. }
  split_and!.
  - unfold WorkflowService.control_workflow. rewrite Hget.
    cbn [String.eqb Ascii.eqb Bool.eqb fst snd].
    unfold WorkflowService._start_workflow. cbn [fst snd].
    destruct (Workflow.steps w) as [|s0 ss] eqn:Hss; [congruence|].
    cbn [WorkflowService.with_updated_at WorkflowService.with_current_step
         WorkflowService.with_status Workflow.steps].
    rewrite Hss. eexists _, _. split; [reflexivity|].
    split_and!; try reflexivity.
    + cbn. rewrite Hss. reflexivity.
    + reflexivity.
    + cbn. rewrite Hss. reflexivity.
    + intros st' clock t_final.
      match goal with
      | |- context [ExecuteWorkflow ?x] => set (w0 := x)
      end.
      assert (Hrun : Workflow.status w0 = "running") by reflexivity.
      assert (Hlen : length (Workflow.steps w0) = S (length ss))
        by (subst w0; cbn; rewrite Hss; reflexivity).
      cbv zeta. cbn [WorkflowService.run_task WorkflowService.steps_run_by].
      unfold WorkflowService._execute_workflow.
      destruct (DriverFacts.executed_indices_in_order C clock (length (Workflow.steps w0))
                  0 w0 st' Hrun ltac:(lia)) as (k & Hk & Hpos & Hlog & Hcase).
      destruct (WorkflowService.execute_steps C clock _ w0 st') as [w1 st1].
      cbn [fst] in Hcase. exists k. rewrite Hlen in *.
      split; [cbn [length]; lia|]. split; [exact Hlog|].
      destruct Hcase as [[-> Hr]|(Hr & Hk0 & Hcur)].
      * left. rewrite Hr. change (String.eqb "running" "running") with true.
        cbn. split; reflexivity.
      * right. rewrite Hr. change (String.eqb "error" "running") with false.
        cbn [fst]. split; [exact Hr|]. rewrite Hcur. lia.
  - intros Hnone. unfold WorkflowService.approve_step. now rewrite Hget, Hnone.
  - intros i step Hf Hs. unfold WorkflowService.approve_step.
    rewrite Hget, Hf. apply String.eqb_neq in Hs. now rewrite Hs.
  - intros i step Hf Hs.
    apply list_find_Some in Hf as Hf'. destruct Hf' as (Hi & _ & _).
    pose proof (lookup_lt_Some _ _ _ Hi) as Hlt.
    unfold WorkflowService.approve_step. rewrite Hget, Hf, Hs.
    cbn [String.eqb Ascii.eqb Bool.eqb].
    cbn [WorkflowService.update_step WorkflowService.with_steps Workflow.steps
         Workflow.current_step].
    rewrite length_alter.
    destruct (Z.ltb_spec (Z.of_nat (Workflow.current_step w))
                (Z.of_nat (length (Workflow.steps w)) - 1)) as [Hmore|Hlast].
    + destruct (decide (i = S (Workflow.current_step w))) as [->|Hi'].
      * eexists _, _. split; [reflexivity|].
        split; [cbn; rewrite !list_lookup_alter_eq, Hi; reflexivity|].
        split; [reflexivity|].
        split; [cbn; now rewrite !length_alter|].
        split; [|split; [intros ?; exfalso; lia|]].
        -- intros _. split; [reflexivity|]. cbn.
           rewrite !list_lookup_alter_eq, Hi. cbn.
           eexists. split_and!; reflexivity.
        -- intros st' clock t_final. apply Htask. cbn. now rewrite !length_alter.
      * assert (exists next, Workflow.steps w !! S (Workflow.current_step w) = Some next)
          as [next Hnext] by (apply lookup_lt_is_Some; lia).
        eexists _, _. split; [reflexivity|].
        split; [cbn; rewrite list_lookup_alter_ne, list_lookup_alter_eq, Hi by auto;
                reflexivity|].
        split; [reflexivity|].
        split; [cbn; now rewrite !length_alter|].
        split; [|split; [intros ?; exfalso; lia|]].
        -- intros _. split; [reflexivity|]. cbn.
           rewrite list_lookup_alter_eq, list_lookup_alter_ne, Hnext by auto. cbn.
           eexists. split_and!; reflexivity.
        -- intros st' clock t_final. apply Htask. cbn. now rewrite !length_alter.
    + eexists _, _. split; [reflexivity|].
      split; [cbn; rewrite list_lookup_alter_eq, Hi; reflexivity|].
      split; [reflexivity|].
      split; [cbn; now rewrite !length_alter|].
      split; [intros ?; exfalso; lia|]. split; [intros _; reflexivity|].
      intros st' clock t_final. apply Htask. cbn. now rewrite !length_alter.
Qed.

Lemma start_runs_steps_in_order_and_approve_reruns_witness :
  WorkflowService.get_workflow store_abc "w2"
    = Ok (Some (WorkflowService.reloaded workflow_abc)) /\
  Workflow.steps (WorkflowService.reloaded workflow_abc) <> [] /\
  WorkflowService.find_step "step_1" (Workflow.steps (WorkflowService.reloaded workflow_abc))
    = Some (0%nat, step_A) /\
  WorkflowStep.status step_A = "completed" /\
  exists w' next,
    fst (fst (WorkflowService.approve_step store_abc "w2" "step_1" 30)) = Ok (Some w') /\
    Workflow.current_step w' = 2%nat /\
    Workflow.steps w' !! 2%nat = Some next /\
    WorkflowStep.status next = "running" /\
    WorkflowService.steps_run_by quiet store_abc
      (ExecuteWorkflowStep w' (Workflow.current_step w')) (fun _ => (10, 20))
      = [Workflow.current_step w'].
Proof.
  assert (Hget : WorkflowService.get_workflow store_abc "w2"
                 = Ok (Some (WorkflowService.reloaded workflow_abc)))
    by (vm_compute; reflexivity).
  assert (Hne : Workflow.steps (WorkflowService.reloaded workflow_abc) <> [])
    by discriminate.
  assert (Hf : WorkflowService.find_step "step_1"
                 (Workflow.steps (WorkflowService.reloaded workflow_abc))
               = Some (0%nat, step_A)) by (vm_compute; reflexivity).
  split; [exact Hget|]. split; [exact Hne|]. split; [exact Hf|]. split; [reflexivity|].
  destruct (proj2 (proj2 (proj2 (start_runs_steps_in_order_and_approve_reruns quiet
                                   store_abc "w2" "step_1" 30 _ Hget Hne))) _ _ Hf eq_refl)
    as (w' & approved & Happ & _ & _ & _ & Hmore & _ & Htask).
  destruct Hmore as (Hcur & next & Hnext & Hrun & _); [cbn; lia|].
  exists w', next. rewrite Happ. cbn [fst].
  split; [reflexivity|]. split; [exact Hcur|]. split; [exact Hnext|].
  split; [exact Hrun|].
  apply (Htask store_abc (fun _ => (10, 20)) 40). rewrite Hcur. cbn. lia.
Defined.

(** Two runs of the generic five-step workflow of alice.  In the first
    the driver runs alone: it executes all five steps without a single
    approval and leaves the workflow 'completed'; the fifth step
    ('Review') is then 'completed' with [can_approve] false, and
    [approve_step] on it still acts and spawns an executor that executes
    that completed step again.  In the second the driver has executed
    step 0, which sets [can_approve], and sleeps; the first step is
    approved and the executor of step 1 runs, the second step is approved
    and the executor of step 2 runs; then the driver wakes up and
    executes step 1 on its own copy.  The steps executed are 0, 1, 2, 1
    and the stored [current_step] reads 0, 0, 1, 1, 2, 2, 1: step 1 runs
    again after it was completed and approved, and the position moves
    back. *)
Lemma approvals_rerun_steps_and_move_back :
  exists w0 wa wb wc : Workflow.t,
    let clock := fun _ : nat => (10, 20) in
    let started := WorkflowService.control_workflow store_w1 "w1" "start" 6 in
    let st0 := snd (fst started) in
    let finished := WorkflowService.run_task quiet st0 (ExecuteWorkflow w0) clock 25 in
    let a5 := WorkflowService.approve_step (snd finished) "w1" "step_5" 30 in
    let d1 := WorkflowService.execute_steps quiet clock [0%nat] w0 st0 in
    let a1 := WorkflowService.approve_step (snd d1) "w1" "step_1" 30 in
    let e1 := WorkflowService.run_task quiet (snd (fst a1)) (ExecuteWorkflowStep wa 1) clock 0 in
    let a2 := WorkflowService.approve_step (snd e1) "w1" "step_2" 50 in
    let e2 := WorkflowService.run_task quiet (snd (fst a2)) (ExecuteWorkflowStep wb 2) clock 0 in
    let d2 := WorkflowService.execute_steps quiet clock [1%nat] (fst d1) (snd e2) in
    snd started = Some (ExecuteWorkflow w0) /\
    length (Workflow.steps w0) = 5%nat /\
    (* the driver alone, then an approval *)
    (WorkflowService.steps_run_by quiet st0 (ExecuteWorkflow w0) clock
       = [0; 1; 2; 3; 4]%nat /\
     Workflow.status (fst finished) = "completed" /\
     (exists w s,
        WorkflowService.get_workflow (snd finished) "w1" = Ok (Some w) /\
        WorkflowService.find_step "step_5" (Workflow.steps w) = Some (4%nat, s) /\
        WorkflowStep.status s = "completed" /\
        WorkflowStep.can_approve s = false) /\
     snd a5 = Some (ExecuteWorkflowStep wc 4) /\
     WorkflowService.steps_run_by quiet (snd (fst a5)) (ExecuteWorkflowStep wc 4) clock
       = [4%nat]) /\
    (* approvals while the driver sleeps *)
    (Workflow.status (fst d1) = "running" /\
     (exists s, Workflow.steps (fst d1) !! 0%nat = Some s /\
                WorkflowStep.status s = "completed" /\
                WorkflowStep.can_approve s = true) /\
     snd a1 = Some (ExecuteWorkflowStep wa 1) /\
     snd a2 = Some (ExecuteWorkflowStep wb 2) /\
     (exists w s,
        WorkflowService.get_workflow (snd e2) "w1" = Ok (Some w) /\
        Workflow.steps w !! 1%nat = Some s /\
        WorkflowStep.status s = "completed" /\
        WorkflowStep.can_approve s = false) /\
     (WorkflowService.executed_indices quiet clock [0%nat] w0 st0 ++
      WorkflowService.steps_run_by quiet (snd (fst a1)) (ExecuteWorkflowStep wa 1) clock ++
      WorkflowService.steps_run_by quiet (snd (fst a2)) (ExecuteWorkflowStep wb 2) clock ++
      WorkflowService.executed_indices quiet clock [1%nat] (fst d1) (snd e2))%list
       = [0; 1; 2; 1]%nat /\
     map (fun st => WorkflowService.stored_current_step st "w1")
         [st0; snd d1; snd (fst a1); snd e1; snd (fst a2); snd e2; snd d2]
       = [Some 0; Some 0; Some 1; Some 1; Some 2; Some 2; Some 1]%nat /\
     WorkflowService.execute_steps quiet clock (seq 0 5) w0 st0
       = WorkflowService.execute_steps quiet clock (seq 1 4) (fst d1) (snd d1)).
Proof.
  eexists _, _, _, _. cbv zeta.
  split; [vm_compute; reflexivity|]. split; [reflexivity|]. split.
  - split; [vm_compute; reflexivity|]. split; [vm_compute; reflexivity|].
    split; [eexists _, _; split; [vm_compute; reflexivity|];
            split; [vm_compute; reflexivity|]; split; reflexivity|].
    split; [vm_compute; reflexivity|]. vm_compute; reflexivity.
  - split; [vm_compute; reflexivity|].
    split; [eexists; split; [vm_compute; reflexivity|]; split; reflexivity|].
    split; [vm_compute; reflexivity|]. split; [vm_compute; reflexivity|].
    split; [eexists _, _; split; [vm_compute; reflexivity|];
            split; [vm_compute; reflexivity|]; split; reflexivity|].
    split; [vm_compute; reflexivity|]. split; [vm_compute; reflexivity|].
    apply (DriverFacts.execute_steps_app quiet _ [0%nat] (seq 1 4)).
Qed.

(** ** C5: stopping a workflow *)

(** C5, as the code has it.  When [control_workflow] is called with
    'stop' on a workflow whose current step [B] exists, the workflow gets
    status 'error', [B] gets status 'error' and the message "Workflow
    stopped by user" (which contains "stopped by user"), every other step
    -- a pending step after [B] among them -- is left as it was, and
    the result is stored under the id of the workflow.  The method does
    not look at the status it finds: called with 'start' on that stored
    'error' workflow it sets the status back to 'running'. *)
Theorem stop_marks_current_step_and_start_reopens
    (st : gmap string Dict) (workflow_id : string) (now now' : Z)
    (w : Workflow.t) (B : WorkflowStep.t) :
  WorkflowService.get_workflow st workflow_id = Ok (Some w) ->
  Workflow.steps w !! Workflow.current_step w = Some B ->
  exists w' B',
    WorkflowService.control_workflow st workflow_id "stop" now
      = (Ok (Some w'), <[Workflow.id w := Workflow.to_dict w']> st, None) /\
    Workflow.status w' = "error" /\
    Workflow.current_step w' = Workflow.current_step w /\
    Workflow.steps w' !! Workflow.current_step w = Some B' /\
    WorkflowStep.status B' = "error" /\
    WorkflowStep.error B' = VStr "Workflow stopped by user" /\
    contains "stopped by user" "Workflow stopped by user" = true /\
    (forall j, j <> Workflow.current_step w ->
               Workflow.steps w' !! j = Workflow.steps w !! j) /\
    exists w'',
      fst (fst (WorkflowService.control_workflow
                  (<[Workflow.id w := Workflow.to_dict w']> st) (Workflow.id w) "start" now'))
        = Ok (Some w'') /\
      Workflow.status w'' = "running".
Proof.
  intros Hget HB.
  pose proof (lookup_lt_Some _ _ _ HB) as Hlt.
  set (f := fun s => WorkflowService.step_with_error (VStr "Workflow stopped by user")
                       (WorkflowService.step_with_status "error" s)).
  set (w1 := WorkflowService.with_updated_at now (WorkflowService.with_status "error" w)).
  exists (WorkflowService.update_step (Workflow.current_step w) f w1), (f B).
  unfold WorkflowService.control_workflow. rewrite Hget.
  cbn [String.eqb Ascii.eqb Bool.eqb fst snd].
  unfold WorkflowService._stop_workflow. fold w1. cbn [fst snd].
  assert (Hin : (Workflow.current_step w1 <? length (Workflow.steps w1))%nat = true)
    by (apply Nat.ltb_lt; exact Hlt).
  rewrite Hin. split_and!; try reflexivity.
  - cbn. rewrite list_lookup_alter_eq, HB. reflexivity.
  - intros j Hj. cbn. now rewrite list_lookup_alter_ne.
  - rewrite WorkflowFacts.get_workflow_insert.
    cbn [String.eqb Ascii.eqb Bool.eqb fst snd].
    eexists. split; [reflexivity|].
    unfold WorkflowService._start_workflow. cbn [fst].
    match goal with |- context [match ?l with [] => _ | _ :: _ => _ end] =>
      destruct l end; reflexivity.
Qed.

Lemma stop_marks_current_step_and_start_reopens_witness :
  WorkflowService.get_workflow store_abc "w2" = Ok (Some (WorkflowService.reloaded workflow_abc)) /\
  Workflow.steps (WorkflowService.reloaded workflow_abc)
    !! Workflow.current_step (WorkflowService.reloaded workflow_abc) = Some step_B /\
  exists w' B',
    fst (fst (WorkflowService.control_workflow store_abc "w2" "stop" 50)) = Ok (Some w') /\
    Workflow.status w' = "error" /\
    Workflow.steps w' = [step_A; B'; step_C] /\
    WorkflowStep.status B' = "error" /\
    WorkflowStep.status step_C = "pending".
Proof.
  assert (Hget : WorkflowService.get_workflow store_abc "w2"
                 = Ok (Some (WorkflowService.reloaded workflow_abc)))
    by (vm_compute; reflexivity).
  assert (HB : Workflow.steps (WorkflowService.reloaded workflow_abc)
                 !! Workflow.current_step (WorkflowService.reloaded workflow_abc)
               = Some step_B) by reflexivity.
  split; [exact Hget|]. split; [exact HB|].
  destruct (stop_marks_current_step_and_start_reopens store_abc "w2" 50 60 _ _ Hget HB)
    as (w' & B' & Hc & Hs & _ & HB' & HsB & _).
  exists w', B'. rewrite Hc. cbn [fst snd].
  split; [reflexivity|]. split; [exact Hs|].
  split; [|split; [exact HsB|reflexivity]].
  injection Hc as Hw _. vm_compute in Hw. subst w'.
  cbn in HB'. injection HB' as <-. reflexivity.
Defined.

(** A workflow in status 'error' is taken out of it by 'start': the store
    holds the stopped workflow, and [control_workflow] answers it running. *)
Lemma stopped_workflow_restarts :
  let stopped := snd (fst (WorkflowService.control_workflow store_abc "w2" "stop" 50)) in
  exists w w',
    WorkflowService.get_workflow stopped "w2" = Ok (Some w) /\
    Workflow.status w = "error" /\
    fst (fst (WorkflowService.control_workflow stopped "w2" "start" 60)) = Ok (Some w') /\
    Workflow.status w' = "running" /\
    Workflow.status w' <> "error".
Proof.
  eexists _, _. split; [vm_compute; reflexivity|].
  split; [reflexivity|]. split; [vm_compute; reflexivity|].
  split; [reflexivity|discriminate].
Qed.

(** ** C6: what a step looks like after it ran *)

(** C6 at the step the code gets wrong: the fifth step of the generic
    workflow, named "Review", run with a review that succeeds, ends
    'completed' at progress 100 with [can_approve] still false. *)
Theorem review_step_completes_without_can_approve :
  exists w step',
    WorkflowService.get_workflow store_w1 "w1" = Ok (Some w) /\
    Workflow.steps
      (fst (WorkflowService._execute_workflow_step quiet store_w1 w 4 10 20)) !! 4%nat
      = Some step' /\
    WorkflowStep.name step' = "Review" /\
    WorkflowStep.status step' = "completed" /\
    WorkflowStep.progress step' = 100 /\
    WorkflowStep.can_approve step' = false.
Proof.
  eexists _, _. split; [vm_compute; reflexivity|].
  split; [vm_compute; reflexivity|]. repeat split.
Qed.

(** ** C7: schema inference *)



(** ** C8: the missing fields of a form *)

Module MissingInfo.

Import DynamicSchemaLoader DynamicFormGenerator.

Lemma missing_in_category (category : string) (info : gmap string Value)
    (fs : list Field) (x : string) :
  x ∈ concat (map (fun field =>
                     if is_required field then
                       match info !! field_name_of category field with
                       | None => [field_name_of category field]
                       | Some _ => []
                       end
                     else []) fs)
  <-> x ∈ map (field_name_of category) (filter (fun f => is_required f = true) fs)
      /\ info !! x = None.
Proof.
  induction fs as [|f fs IH]; cbn [map concat].
  - rewrite filter_nil. cbn. rewrite elem_of_nil. tauto.
  - rewrite elem_of_app, IH, filter_cons.
    destruct (is_required f) eqn:Hreq.
    + destruct (decide (true = true)) as [_|]; [|congruence].
      cbn [map]. rewrite elem_of_cons.
      destruct (info !! field_name_of category f) eqn:Hinfo.
      * rewrite elem_of_nil. split; [tauto|].
        intros [[->|Hin] Hx]; [congruence|tauto].
      * rewrite list_elem_of_singleton. split; [|tauto].
        intros [->|[Hin Hx]]; tauto.
    + destruct (decide (false = true)) as [|_]; [congruence|].
      rewrite elem_of_nil. tauto.
Qed.

(** A name is reported missing exactly when it is the name of a required
    field and not a key of [extracted_info]. *)
Lemma missing_iff (schema : Schema) (info : gmap string Value) (x : string) :
  x ∈ _identify_missing_info schema info
  <-> x ∈ _get_required_fields schema /\ info !! x = None.
Proof.
  unfold _identify_missing_info, _get_required_fields.
  induction (field_discovery schema) as [|[category fs] fd IH]; cbn [map concat fst snd].
  - rewrite elem_of_nil. tauto.
  - rewrite !elem_of_app, IH, missing_in_category. tauto.
Qed.

Lemma after_underscore_field_name category field :
  is_Some (after_underscore (field_name_of category field)).
Proof.
  unfold field_name_of. generalize (or_default "value" (field_role field)). intros r.
  induction category as [|c category IH].
  - eexists; reflexivity.
  - change (is_Some (if Ascii.eqb c "_" then Some (category ++ "_" ++ r)
                     else after_underscore (category ++ "_" ++ r))).
    destruct (Ascii.eqb c "_"); [eexists; reflexivity|exact IH].
Qed.

Lemma required_fields_have_underscore (schema : Schema) (x : string) :
  x ∈ _get_required_fields schema -> is_Some (after_underscore x).
Proof.
  unfold _get_required_fields.
  induction (field_discovery schema) as [|[category fs] fd IH]; cbn [map concat fst snd].
  - now rewrite elem_of_nil.
  - rewrite elem_of_app. intros [Hx|Hx]; [|auto].
    apply list_elem_of_In, in_map_iff in Hx as (f & <- & _).
    apply after_underscore_field_name.
Qed.

Lemma next_questions_defined (schema : Schema) (names : list string) :
  Forall (fun x => is_Some (after_underscore x)) names ->
  exists qs, _generate_next_questions names schema = Ok qs.
Proof.
  unfold _generate_next_questions.
  induction 1 as [|x names [r Hr] _ [qs IH]]; cbn [mapM]; [eauto|].
  unfold next_question at 1. rewrite Hr.
  repeat case_match; cbn [bind]; rewrite IH; cbn [bind]; eauto.
Qed.

End MissingInfo.

(** C8, as the code has it.  The missing fields of a form are, as a set,
    exactly the names ([category_role]) of the required fields of the
    schema that are not keys of [extracted_info] -- so every required
    field whose name has no entry there is reported.  Supplying a value
    under one missing name through [update_form_with_user_input] succeeds
    and shrinks the set by exactly that one element, the schema being
    unchanged. *)
Theorem missing_info_is_required_minus_extracted
    (schema : DynamicSchemaLoader.Schema) (info : gmap string Value) :
  (list_to_set (DynamicFormGenerator._identify_missing_info schema info) : gset string)
    = list_to_set (DynamicFormGenerator._get_required_fields schema) ∖ dom info /\
  (forall x,
     x ∈ DynamicFormGenerator._get_required_fields schema -> info !! x = None ->
     x ∈ DynamicFormGenerator._identify_missing_info schema info) /\
  (forall (form : DynamicFormGenerator.Form) (f : string) (v : Value),
     DynamicFormGenerator.schema form = schema ->
     DynamicFormGenerator.extracted_info form = info ->
     DynamicFormGenerator.missing_info form
       = DynamicFormGenerator._identify_missing_info schema info ->
     f ∈ DynamicFormGenerator.missing_info form ->
     exists form',
       DynamicFormGenerator.update_form_with_user_input form {[ f := v ]} = Ok form' /\
       DynamicFormGenerator.schema form' = schema /\
       DynamicFormGenerator.extracted_info form' = <[f := v]> info /\
       (list_to_set (DynamicFormGenerator.missing_info form') : gset string)
         = list_to_set (DynamicFormGenerator.missing_info form) ∖ {[ f ]} /\
       (size (list_to_set (DynamicFormGenerator.missing_info form') : gset string) + 1
        = size (list_to_set (DynamicFormGenerator.missing_info form) : gset string))%nat).
Proof.
  split_and!.
  - apply set_eq. intros x.
    rewrite elem_of_difference, !elem_of_list_to_set, MissingInfo.missing_iff,
      not_elem_of_dom. reflexivity.
  - intros x Hx Hinfo. apply MissingInfo.missing_iff. auto.
  - intros form f v Hschema Hinfo Hmissing Hf.
    unfold DynamicFormGenerator.update_form_with_user_input.
    rewrite Hschema, Hinfo, <- insert_union_singleton_l.
    destruct (MissingInfo.next_questions_defined schema
                (DynamicFormGenerator._identify_missing_info schema (<[f := v]> info)))
      as [qs Hqs].
    { apply Forall_forall. intros x Hx. apply MissingInfo.missing_iff in Hx as [Hx _].
      now apply MissingInfo.required_fields_have_underscore with (schema := schema). }
    rewrite Hqs. cbn [bind]. eexists. split; [reflexivity|]. cbn.
    split; [reflexivity|]. split; [reflexivity|].
    assert (Heq : (list_to_set (DynamicFormGenerator._identify_missing_info schema
                                  (<[f := v]> info)) : gset string)
                  = list_to_set (DynamicFormGenerator.missing_info form) ∖ {[ f ]}).
    { rewrite Hmissing. apply set_eq. intros x.
      rewrite elem_of_difference, !elem_of_list_to_set, !MissingInfo.missing_iff,
        elem_of_singleton, lookup_insert_None. intuition congruence. }
    split; [exact Heq|].
    rewrite Heq, size_difference by (apply singleton_subseteq_l, elem_of_list_to_set, Hf).
    rewrite size_singleton.
    assert (size (list_to_set (DynamicFormGenerator.missing_info form) : gset string) <> 0)%nat.
    { apply size_non_empty_iff. intros Hempty.
      apply (not_elem_of_empty (C := gset string) f). rewrite <- Hempty.
      apply elem_of_list_to_set, Hf. }
    lia.
Qed.

Lemma missing_info_is_required_minus_extracted_witness :
  DynamicFormGenerator.missing_info employment_form
    = DynamicFormGenerator._identify_missing_info
        (DynamicFormGenerator.schema employment_form) ∅ /\
  "salary_value" ∈ DynamicFormGenerator.missing_info employment_form /\
  exists form',
    DynamicFormGenerator.update_form_with_user_input employment_form
      {[ "salary_value" := VStr "50000" ]} = Ok form' /\
    (size (list_to_set (DynamicFormGenerator.missing_info form') : gset string) + 1
     = size (list_to_set (DynamicFormGenerator.missing_info employment_form)
               : gset string))%nat.
Proof.
  assert (Hm : DynamicFormGenerator.missing_info employment_form
               = DynamicFormGenerator._identify_missing_info
                   (DynamicFormGenerator.schema employment_form) ∅) by reflexivity.
  assert (Hf : "salary_value" ∈ DynamicFormGenerator.missing_info employment_form)
    by (vm_compute; apply list_elem_of_here).
  split; [exact Hm|]. split; [exact Hf|].
  destruct (proj2 (proj2 (missing_info_is_required_minus_extracted
                            (DynamicFormGenerator.schema employment_form) ∅))
              employment_form "salary_value" (VStr "50000") eq_refl eq_refl Hm Hf)
    as (form' & Hu & _ & _ & _ & Hsize).
  exists form'. split; [exact Hu|exact Hsize].
Defined.

(** After the user supplied the salary under the name of the field, the
    required field 'salary_value' has no prefilled value (the form
    structure looks values up under the role of a field, and this field
    has none) and yet is not reported missing. *)
Lemma required_field_without_prefill_not_missing :
  exists form' config,
    DynamicFormGenerator.update_form_with_user_input employment_form salary_input
      = Ok form' /\
    assoc_get "salary_value"
      (DynamicFormGenerator.fields (DynamicFormGenerator.form_structure form'))
      = Some config /\
    DynamicFormGenerator.required config = true /\
    DynamicFormGenerator.prefilled_value config = None /\
    DynamicFormGenerator.missing_info form' = [] /\
    "salary_value" ∉ DynamicFormGenerator.missing_info form'.
Proof.
  eexists _, _. split; [reflexivity|].
  split; [vm_compute; reflexivity|]. split; [reflexivity|]. split; [reflexivity|].
  split; [vm_compute; reflexivity|].
  vm_compute. apply not_elem_of_nil.
Qed.

(** ** C9: regenerating a version *)

(** C9.  For a draft owned by [user_id], [regenerate_draft_version]
    answers a new version and stores the draft with that version appended
    to the versions it had, each of which -- the referenced one among
    them -- is as it was.  The new version is pending, and its content
    is what [_generate_draft_content] makes of the draft's messages and
    the context bundle; for a referenced version that exists the bundle
    holds its content, the supplied feedback, its rejection reason and its
    modifications, and when analysis and drafting succeed the content of
    the new version is the drafting agent's answer to that bundle. *)
Theorem regenerate_appends_and_keeps_versions
    (C : DraftingService.Collaborators) (st : gmap string Dict)
    (draft_id version_id user_id new_version_id : string) (feedback : Value) (now : Z)
    (d : DocumentDraft.t) :
  DraftingService.get_draft st draft_id = Ok (Some d) ->
  DocumentDraft.user_id d = user_id ->
  let context :=
    DraftingService.regeneration_context
      (snd <$> DraftingService.find_version version_id (DocumentDraft.versions d))
      feedback in
  let chat_messages :=
    match DocumentDraft.original_content d with
    | Some (String c r) => DraftingService._parse_chat_content (String c r)
    | _ => DraftingService._load_chat_messages C user_id (DocumentDraft.chat_id d)
    end in
  exists new_version st' d',
    DraftingService.regenerate_draft_version C st draft_id version_id user_id feedback
      new_version_id now = (Ok (Some new_version), st') /\
    DraftingService.get_draft st' draft_id = Ok (Some d') /\
    DocumentDraft.versions d' = (DocumentDraft.versions d ++ [new_version])%list /\
    (forall i v, DocumentDraft.versions d !! i = Some v ->
                 DocumentDraft.versions d' !! i = Some v) /\
    DraftVersion.id new_version = new_version_id /\
    DraftVersion.status new_version = "pending" /\
    DraftVersion.content new_version
      = DraftingService._generate_draft_content C chat_messages
          (DocumentDraft.document_type d) (Some context) now /\
    (forall i v,
       DraftingService.find_version version_id (DocumentDraft.versions d) = Some (i, v) ->
       DocumentDraft.versions d' !! i = Some v /\
       dict_get "previous_version" context = Some (DraftVersion.content v) /\
       dict_get "user_feedback" context = Some feedback /\
       dict_get "rejection_reason" context = Some (DraftVersion.rejected_reason v) /\
       dict_get "modifications" context = Some (VDict (DraftVersion.modifications v))) /\
    (forall analysis_result draft_result,
       DraftingService.analyze_conversation C chat_messages = Ok analysis_result ->
       DraftingService.draft_document C (DocumentDraft.document_type d)
         [("conversation_text",
           VStr (DraftingService._extract_conversation_text chat_messages));
          ("document_type", VStr (DocumentDraft.document_type d));
          ("analysis_result", VDict analysis_result);
          ("user_context", VDict context)] = Ok draft_result ->
       exists payload,
         DraftVersion.content new_version = VDict payload /\
         dict_get "content" payload = Some draft_result).
Proof.
  intros Hget Hown context chat_messages.
  set (version :=
         DraftVersion.init new_version_id
           (DraftingService._generate_draft_content C chat_messages
              (DocumentDraft.document_type d) (Some context) now) user_id now).
  set (d1 := DraftingService.append_version version now d).
  exists version, (<[draft_id := DocumentDraft.to_dict d1]> st), (DraftingService.reloaded d1).
  split.
  { unfold DraftingService.regenerate_draft_version. rewrite Hget, Hown, eqb_refl_neg.
    unfold DraftingService.generate_draft_version. rewrite Hget, Hown, eqb_refl_neg.
    reflexivity. }
  split; [apply DraftFacts.get_draft_insert|].
  rewrite DraftFacts.reloaded_versions.
  cbn [d1 DraftingService.append_version DocumentDraft.versions].
  split; [reflexivity|].
  split; [intros i v Hi; now apply lookup_app_l_Some|].
  split; [reflexivity|]. split; [reflexivity|]. split; [reflexivity|].
  split.
  - intros i v Hf. subst context. rewrite Hf. cbn.
    apply DraftFacts.find_version_id in Hf as [_ Hi].
    split; [now apply lookup_app_l_Some|]. repeat split.
  - intros analysis_result draft_result Ha Hd. subst version.
    cbn [DraftVersion.init DraftVersion.content].
    unfold DraftingService._generate_draft_content.
    rewrite Ha. cbn [bind DraftingService.or_empty]. rewrite Hd. cbn [bind].
    eexists. split; reflexivity.
Qed.

Lemma regenerate_appends_and_keeps_versions_witness :
  DraftingService.get_draft store_d1 "d1" = Ok (Some draft_d1) /\
  DocumentDraft.user_id draft_d1 = "alice" /\
  exists new_version st' d',
    DraftingService.regenerate_draft_version silent store_d1 "d1" "v1" "alice"
      (VStr "shorter, please") "v2" 30 = (Ok (Some new_version), st') /\
    DraftingService.get_draft st' "d1" = Ok (Some d') /\
    DocumentDraft.versions d' = [version_v1; new_version] /\
    DraftVersion.status new_version = "pending".
Proof.
  assert (Hget : DraftingService.get_draft store_d1 "d1" = Ok (Some draft_d1))
    by (vm_compute; reflexivity).
  split; [exact Hget|]. split; [reflexivity|].
  destruct (regenerate_appends_and_keeps_versions silent store_d1 "d1" "v1" "alice" "v2"
              (VStr "shorter, please") 30 draft_d1 Hget eq_refl)
    as (nv & st' & d' & Hr & Hg & Hv & _ & _ & Hs & _).
  exists nv, st', d'. split; [exact Hr|]. split; [exact Hg|]. split; [exact Hv|exact Hs].
Defined.
(** ** C10: the owner of a workflow does not survive the store *)

Lemma filter_none {A} (P : A -> Prop) `{forall x, Decision (P x)} (l : list A) :
  Forall (fun x => ~ P x) l -> filter P l = [].
Proof.
  induction 1 as [|x l Hx _ IH]; [reflexivity|].
  rewrite filter_cons. now destruct (decide (P x)).
Qed.

(** C10.  [to_dict] of a workflow has no owner key and a reload sets the
    owner to the empty string, so a workflow with an owner does not
    reload to itself; in every store the service can reach
    [get_user_workflows] answers the empty list for every user, every
    workflow that [get_workflow] returns has the empty owner, and
    [create_draft_from_workflow], which compares that owner with the
    caller, answers [None] to every caller with a non-empty id. *)
Theorem workflow_owner_lost_on_reload (C : WorkflowService.Collaborators) :
  (forall w, dict_get "user_id" (Workflow.to_dict w) = None) /\
  (forall w, exists w',
     WorkflowService._dict_to_workflow (Workflow.to_dict w) = Ok w' /\
     Workflow.user_id w' = "" /\
     (Workflow.user_id w <> "" -> w' <> w)) /\
  (forall st,
     WorkflowService.reachable C st ->
     (forall user_id, WorkflowService.get_user_workflows st user_id = Ok []) /\
     (forall workflow_id w,
        WorkflowService.get_workflow st workflow_id = Ok (Some w) ->
        Workflow.user_id w = "") /\
     (forall dst workflow_id user_id draft_id now,
        user_id <> "" ->
        WorkflowService.create_draft_from_workflow C st dst workflow_id user_id draft_id now
          = (Ok None, st, dst))).
Proof.
  split; [intros w; apply WorkflowFacts.to_dict_has_no_owner|]. split.
  - intros w. exists (WorkflowService.reloaded w).
    split; [apply WorkflowFacts.dict_to_workflow_to_dict|].
    split; [reflexivity|]. intros Hu Heq. apply Hu. now rewrite <- Heq.
  - intros st Hreach.
    pose proof (WorkflowFacts.reachable_stored C st Hreach) as Hst.
    assert (Hown : forall workflow_id w,
               WorkflowService.get_workflow st workflow_id = Ok (Some w) ->
               Workflow.user_id w = "").
    { intros workflow_id w Hg.
      destruct (WorkflowFacts.get_workflow_stored _ _ _ Hst Hg) as (w0 & _ & ->).
      reflexivity. }
    split_and!.
    + intros user_id. unfold WorkflowService.get_user_workflows.
      rewrite filter_none; [reflexivity|].
      apply Forall_forall. intros x Hx.
      apply list_elem_of_fmap in Hx as ([k y] & -> & Hky).
      apply elem_of_map_to_list in Hky. destruct (Hst _ _ Hky) as (w & ->).
      cbn. discriminate.
    + exact Hown.
    + intros dst workflow_id user_id draft_id now Hne.
      unfold WorkflowService.create_draft_from_workflow.
      destruct (WorkflowService.get_workflow st workflow_id) as [[w|]|e] eqn:Hg;
        [|reflexivity|].
      * rewrite (Hown _ _ Hg), eqb_neq_neg by congruence. reflexivity.
      * exfalso. unfold WorkflowService.get_workflow in Hg.
        destruct (st !! workflow_id) as [x|] eqn:Hx; [|discriminate].
        destruct (Hst _ _ Hx) as (w0 & ->).
        now rewrite WorkflowFacts.dict_to_workflow_to_dict in Hg.
Qed.

Lemma workflow_owner_lost_on_reload_witness :
  WorkflowService.reachable quiet store_w1 /\
  (forall user_id, WorkflowService.get_user_workflows store_w1 user_id = Ok []) /\
  (exists w, WorkflowService.get_workflow store_w1 "w1" = Ok (Some w) /\
             Workflow.user_id w = "").
Proof.
  assert (Hr : WorkflowService.reachable quiet store_w1)
    by (apply WorkflowService.reach_create, WorkflowService.reach_start).
  destruct (proj2 (proj2 (workflow_owner_lost_on_reload quiet)) store_w1 Hr)
    as (Hlist & Hown & _).
  split; [exact Hr|]. split; [exact Hlist|].
  eexists. split; [vm_compute; reflexivity|reflexivity].
Defined.


(** * Further properties of the modelled code *)

(** ** Drafts *)

Module DraftMore.

Import DraftingService.

Lemma reloaded_id d : reloaded d = d <-> DocumentDraft.original_content d <> Some "".
Proof.
  unfold reloaded. destruct d as [i u c dt ti s cv vs ca ua ec wf se oc]. cbn.
  destruct oc as [[|ch r]|]; split; intros H; try reflexivity; try discriminate;
    try congruence.
Qed.

Lemma reloaded_owner d : DocumentDraft.user_id (reloaded d) = DocumentDraft.user_id d.
Proof. unfold reloaded. now destruct (DocumentDraft.original_content d) as [[|]|]. Qed.

Lemma reloaded_document_type d :
  DocumentDraft.document_type (reloaded d) = DocumentDraft.document_type d.
Proof. unfold reloaded. now destruct (DocumentDraft.original_content d) as [[|]|]. Qed.

(** After a version has been replaced in place, the version found under
    its id is the replacement. *)
Lemma find_after_set vid d i v v' s now :
  find_version vid (DocumentDraft.versions d) = Some (i, v) ->
  DraftVersion.id v' = vid ->
  find_version vid (DocumentDraft.versions (reloaded (set_status s now (set_version i v' d))))
    = Some (i, v').
Proof.
  intros Hf Hid. rewrite DraftFacts.reloaded_versions. cbn.
  now apply DraftFacts.find_version_replace with (v := v).
Qed.

(** Looking a key up after an item assignment. *)
Lemma dict_get_set k k' x d :
  dict_get k (dict_set k' x d) = if String.eqb k k' then Some x else dict_get k d.
Proof.
  induction d as [|[k0 x0] d IH]; cbn.
  - destruct (String.eqb k k') eqn:E; [|reflexivity].
    reflexivity.
  - destruct (String.eqb k' k0) eqn:E0; cbn.
    + destruct (String.eqb k k') eqn:E; [reflexivity|].
      apply String.eqb_eq in E0. subst k0. now rewrite E.
    + rewrite IH. destruct (String.eqb k k0) eqn:E1; [|reflexivity].
      destruct (String.eqb k k') eqn:E; [|reflexivity].
      apply String.eqb_eq in E1, E. subst. now rewrite String.eqb_refl in E0.
Qed.

Lemma dict_get_app k d e :
  dict_get k (d ++ e)%list
  = match dict_get k d with Some x => Some x | None => dict_get k e end.
Proof.
  induction d as [|[k0 x0] d IH]; cbn; [reflexivity|].
  destruct (String.eqb k k0); [reflexivity|exact IH].
Qed.

(** [d.update(e)] read back: the last entry of [e] under a key wins, and a
    key that [e] does not have keeps the value of [d]. *)
Lemma dict_get_update k e : forall d,
  dict_get k (dict_update d e)
  = match dict_get k (rev e) with Some x => Some x | None => dict_get k d end.
Proof.
  unfold dict_update. induction e as [|[k0 x0] e IH]; intros d; [reflexivity|].
  cbn [fold_left fst snd rev]. rewrite IH, dict_get_app, dict_get_set. cbn.
  destruct (dict_get k (rev e)); [reflexivity|].
  destruct (String.eqb k k0); reflexivity.
Qed.

Lemma dict_get_not_key k (e : Dict) : k ∉ map fst e -> dict_get k e = None.
Proof.
  induction e as [|[k0 x0] e IH]; cbn; [reflexivity|].
  rewrite not_elem_of_cons. intros [Hne Hk].
  apply String.eqb_neq in Hne. rewrite Hne. now apply IH.
Qed.

(** A Python dictionary has every key once; then the entry under a key is
    the same from either end. *)
Lemma dict_get_rev (e : Dict) k : NoDup (map fst e) -> dict_get k (rev e) = dict_get k e.
Proof.
  induction e as [|[k0 x0] e IH]; [reflexivity|].
  cbn [map fst]. intros [Hk0 Hnd]%NoDup_cons. cbn [rev]. rewrite dict_get_app, IH by exact Hnd.
  cbn. destruct (String.eqb k k0) eqn:E.
  - apply String.eqb_eq in E. subst k0. now rewrite dict_get_not_key.
  - now destruct (dict_get k e).
Qed.

Lemma dict_get_update_nodup k e d :
  NoDup (map fst e) ->
  dict_get k (dict_update d e)
  = match dict_get k e with Some x => Some x | None => dict_get k d end.
Proof. intros H. now rewrite dict_get_update, dict_get_rev. Qed.

End DraftMore.

(** X1.  A draft written to the store with [to_dict] and read back with
    [_dict_to_draft] is the draft that was written, field by field and
    version by version, provided its [original_content] is not the empty
    string (an empty one is not written and comes back unset); so
    [get_draft] returns what an operation has just stored. *)
Theorem stored_draft_reloads_unchanged (d : DocumentDraft.t) :
  DocumentDraft.original_content d <> Some "" ->
  DraftingService._dict_to_draft (DocumentDraft.to_dict d) = Ok d /\
  (forall (st : gmap string Dict) draft_id,
     DraftingService.get_draft (<[draft_id := DocumentDraft.to_dict d]> st) draft_id
       = Ok (Some d)).
Proof.
  intros Hoc. apply DraftMore.reloaded_id in Hoc. split.
  - now rewrite DraftFacts.dict_to_draft_to_dict, Hoc.
  - intros st draft_id. now rewrite DraftFacts.get_draft_insert, Hoc.
Qed.

Lemma stored_draft_reloads_unchanged_witness :
  DocumentDraft.original_content draft_d1 <> Some "" /\
  DraftingService._dict_to_draft (DocumentDraft.to_dict draft_d1) = Ok draft_d1.
Proof.
  assert (H : DocumentDraft.original_content draft_d1 <> Some "") by discriminate.
  split; [exact H|]. exact (proj1 (stored_draft_reloads_unchanged draft_d1 H)).
Defined.

(** X2.  A version is decided once: after [approve_draft_version] or
    [reject_draft_version] has succeeded on a pending version, every later
    approve or reject of that version answers [False] and leaves the store
    as it is. *)
Theorem version_is_decided_once
    (st : gmap string Dict) (draft_id version_id user_id reason : string)
    (feedback : Value) (now : Z) (d : DocumentDraft.t) (i : nat) (v : DraftVersion.t) :
  DraftingService.get_draft st draft_id = Ok (Some d) ->
  DocumentDraft.user_id d = user_id ->
  DraftingService.find_version version_id (DocumentDraft.versions d) = Some (i, v) ->
  DraftVersion.status v = "pending" ->
  forall st1,
    st1 = snd (DraftingService.approve_draft_version st draft_id version_id user_id
                 feedback now) \/
    st1 = snd (DraftingService.reject_draft_version st draft_id version_id user_id
                 reason feedback now) ->
    forall reason' feedback' now',
      DraftingService.approve_draft_version st1 draft_id version_id user_id feedback' now'
        = (Ok false, st1) /\
      DraftingService.reject_draft_version st1 draft_id version_id user_id reason'
        feedback' now' = (Ok false, st1).
Proof.
  intros Hget Hown Hfind Hpend st1 Hst1 reason' feedback' now'.
  destruct (DraftFacts.find_version_id _ _ _ _ Hfind) as [Hid _].
  assert (Hshape : exists d' v',
             st1 = <[draft_id := DocumentDraft.to_dict d']> st /\
             DocumentDraft.user_id d' = user_id /\
             DraftingService.find_version version_id
               (DocumentDraft.versions (DraftingService.reloaded d')) = Some (i, v') /\
             DraftVersion.status v' <> "pending").
  { destruct Hst1 as [-> | ->].
    - unfold DraftingService.approve_draft_version.
      rewrite Hget, Hown, eqb_refl_neg, Hfind, Hpend. cbn [negb String.eqb snd].
      eexists _, _. split; [reflexivity|]. split; [exact Hown|].
      split; [now apply DraftMore.find_after_set with (v := v)|]. discriminate.
    - unfold DraftingService.reject_draft_version.
      rewrite Hget, Hown, eqb_refl_neg, Hfind, Hpend. cbn [negb String.eqb snd].
      eexists _, _. split; [reflexivity|]. split; [exact Hown|].
      split; [now apply DraftMore.find_after_set with (v := v)|]. discriminate. }
  destruct Hshape as (d' & v' & -> & Hown' & Hfind' & Hnp).
  unfold DraftingService.approve_draft_version, DraftingService.reject_draft_version.
  rewrite DraftFacts.get_draft_insert, DraftMore.reloaded_owner, Hown', eqb_refl_neg,
    Hfind', (eqb_neq_neg _ _ Hnp).
  split; reflexivity.
Qed.

Lemma version_is_decided_once_witness :
  DraftingService.get_draft store_d1 "d1" = Ok (Some draft_d1) /\
  DraftVersion.status version_v1 = "pending" /\
  let st1 := snd (DraftingService.approve_draft_version store_d1 "d1" "v1" "alice"
                    VNone 20) in
  DraftingService.approve_draft_version st1 "d1" "v1" "alice" VNone 21 = (Ok false, st1) /\
  DraftingService.reject_draft_version st1 "d1" "v1" "alice" "late" VNone 21
    = (Ok false, st1).
Proof.
  assert (Hget : DraftingService.get_draft store_d1 "d1" = Ok (Some draft_d1))
    by (vm_compute; reflexivity).
  assert (Hf : DraftingService.find_version "v1" (DocumentDraft.versions draft_d1)
               = Some (0%nat, version_v1)) by (vm_compute; reflexivity).
  split; [exact Hget|]. split; [reflexivity|].
  exact (version_is_decided_once store_d1 "d1" "v1" "alice" "late" VNone 20 draft_d1
           0%nat version_v1 Hget eq_refl Hf eq_refl _ (or_introl eq_refl) "late" VNone 21).
Defined.

(** X3.  [modify_draft_version] acts on a version of the owner's draft
    whatever its status: it answers [True], gives the version status
    'modified', keeps its content and merges the modifications into those
    it had -- every key of the request (a dictionary, so each key occurs
    once) takes the request's value and every other key keeps its own --,
    takes the feedback from the request's 'feedback' entry ([''] when
    there is none) and leaves the status of the draft alone.  The version
    is then no longer pending, so approve and reject refuse it. *)
Theorem modify_marks_version_and_blocks_decision
    (st : gmap string Dict) (draft_id version_id user_id : string)
    (mods : Dict) (now : Z) (d : DocumentDraft.t) (i : nat) (v : DraftVersion.t) :
  DraftingService.get_draft st draft_id = Ok (Some d) ->
  DocumentDraft.user_id d = user_id ->
  DraftingService.find_version version_id (DocumentDraft.versions d) = Some (i, v) ->
  exists st1 d1 v1,
    DraftingService.modify_draft_version st draft_id version_id user_id mods now
      = (Ok true, st1) /\
    DraftingService.get_draft st1 draft_id = Ok (Some d1) /\
    DocumentDraft.status d1 = DocumentDraft.status d /\
    DocumentDraft.versions d1 = <[i := v1]> (DocumentDraft.versions d) /\
    DraftVersion.status v1 = "modified" /\
    DraftVersion.content v1 = DraftVersion.content v /\
    (NoDup (map fst mods) ->
     forall k, dict_get k (DraftVersion.modifications v1)
               = match dict_get k mods with
                 | Some x => Some x
                 | None => dict_get k (DraftVersion.modifications v)
                 end) /\
    DraftVersion.user_feedback v1
      = match dict_get "feedback" mods with Some f => f | None => VStr "" end /\
    (forall reason feedback now',
       DraftingService.approve_draft_version st1 draft_id version_id user_id feedback now'
         = (Ok false, st1) /\
       DraftingService.reject_draft_version st1 draft_id version_id user_id reason
         feedback now' = (Ok false, st1)).
Proof.
  intros Hget Hown Hfind.
  destruct (DraftFacts.find_version_id _ _ _ _ Hfind) as [Hid _].
  set (v1 := DraftingService.modify_version mods v).
  set (d1 := DraftingService.set_status (DocumentDraft.status d) now
               (DraftingService.set_version i v1 d)).
  exists (<[draft_id := DocumentDraft.to_dict d1]> st), (DraftingService.reloaded d1), v1.
  split.
  { unfold DraftingService.modify_draft_version.
    now rewrite Hget, Hown, eqb_refl_neg, Hfind. }
  split; [apply DraftFacts.get_draft_insert|].
  rewrite DraftFacts.reloaded_status, DraftFacts.reloaded_versions.
  split; [reflexivity|]. split; [reflexivity|]. split; [reflexivity|].
  split; [reflexivity|].
  split; [intros Hnd k; now apply DraftMore.dict_get_update_nodup|].
  split; [reflexivity|].
  intros reason feedback now'.
  assert (Hfind1 : DraftingService.find_version version_id
                     (DocumentDraft.versions (DraftingService.reloaded d1)) = Some (i, v1))
    by (apply DraftMore.find_after_set with (v := v); [exact Hfind|exact Hid]).
  unfold DraftingService.approve_draft_version, DraftingService.reject_draft_version.
  rewrite DraftFacts.get_draft_insert, DraftMore.reloaded_owner.
  cbn [d1 DraftingService.set_status DraftingService.set_version DocumentDraft.user_id].
  rewrite Hown, eqb_refl_neg.
  fold (DraftingService.set_version i v1 d).
  fold (DraftingService.set_status (DocumentDraft.status d) now
          (DraftingService.set_version i v1 d)).
  fold d1. rewrite Hfind1. split; reflexivity.
Qed.

Lemma modify_marks_version_and_blocks_decision_witness :
  DraftingService.get_draft store_d1 "d1" = Ok (Some draft_d1) /\
  DraftingService.find_version "v1" (DocumentDraft.versions draft_d1)
    = Some (0%nat, version_v1) /\
  exists st1 d1 v1,
    DraftingService.modify_draft_version store_d1 "d1" "v1" "alice"
      [("tone", VStr "formal"); ("feedback", VStr "shorter")] 20 = (Ok true, st1) /\
    DraftingService.get_draft st1 "d1" = Ok (Some d1) /\
    DocumentDraft.versions d1 = [v1] /\
    dict_get "tone" (DraftVersion.modifications v1) = Some (VStr "formal") /\
    dict_get "feedback" (DraftVersion.modifications v1) = Some (VStr "shorter") /\
    DraftingService.approve_draft_version st1 "d1" "v1" "alice" VNone 21 = (Ok false, st1).
Proof.
  assert (Hget : DraftingService.get_draft store_d1 "d1" = Ok (Some draft_d1))
    by (vm_compute; reflexivity).
  assert (Hf : DraftingService.find_version "v1" (DocumentDraft.versions draft_d1)
               = Some (0%nat, version_v1)) by (vm_compute; reflexivity).
  assert (Hnd : NoDup (map fst [("tone", VStr "formal"); ("feedback", VStr "shorter")])).
  { apply (bool_decide_unpack _). vm_compute. exact I. }
  split; [exact Hget|]. split; [exact Hf|].
  destruct (modify_marks_version_and_blocks_decision store_d1 "d1" "v1" "alice"
              [("tone", VStr "formal"); ("feedback", VStr "shorter")] 20 draft_d1 0%nat
              version_v1 Hget eq_refl Hf)
    as (st1 & d1 & v1 & Hm & Hg1 & _ & Hvs & _ & _ & Hmerge & _ & Hblock).
  exists st1, d1, v1. split; [exact Hm|]. split; [exact Hg1|]. split; [exact Hvs|].
  split; [rewrite (Hmerge Hnd "tone"); reflexivity|].
  split; [rewrite (Hmerge Hnd "feedback"); reflexivity|].
  exact (proj1 (Hblock "late" VNone 21)).
Defined.

(** X4.  [delete_draft] by the owner answers [True] and removes the draft:
    [get_draft] then finds nothing under the id, a second delete answers
    [False], and every other stored draft is still returned as before. *)
Theorem delete_removes_only_that_draft
    (st : gmap string Dict) (draft_id user_id : string) (d : DocumentDraft.t) :
  DraftingService.get_draft st draft_id = Ok (Some d) ->
  DocumentDraft.user_id d = user_id ->
  exists st1,
    DraftingService.delete_draft st draft_id user_id = (Ok true, st1) /\
    DraftingService.get_draft st1 draft_id = Ok None /\
    DraftingService.delete_draft st1 draft_id user_id = (Ok false, st1) /\
    (forall other, other <> draft_id ->
                   DraftingService.get_draft st1 other = DraftingService.get_draft st other).
Proof.
  intros Hget Hown. exists (delete draft_id st).
  assert (Hin : is_Some (st !! draft_id)).
  { unfold DraftingService.get_draft in Hget.
    destruct (st !! draft_id); [eauto|discriminate]. }
  destruct Hin as [x Hx].
  assert (Hnone : DraftingService.get_draft (delete draft_id st) draft_id = Ok None)
    by (unfold DraftingService.get_draft; now rewrite lookup_delete_eq).
  split_and!.
  - unfold DraftingService.delete_draft. now rewrite Hget, Hown, eqb_refl_neg, Hx.
  - exact Hnone.
  - unfold DraftingService.delete_draft. now rewrite Hnone.
  - intros other Hne. unfold DraftingService.get_draft.
    now rewrite lookup_delete_ne.
Qed.

Lemma delete_removes_only_that_draft_witness :
  DraftingService.get_draft store_d1 "d1" = Ok (Some draft_d1) /\
  DocumentDraft.user_id draft_d1 = "alice" /\
  exists st1,
    DraftingService.delete_draft store_d1 "d1" "alice" = (Ok true, st1) /\
    DraftingService.get_draft st1 "d1" = Ok None.
Proof.
  assert (Hget : DraftingService.get_draft store_d1 "d1" = Ok (Some draft_d1))
    by (vm_compute; reflexivity).
  split; [exact Hget|]. split; [reflexivity|].
  destruct (delete_removes_only_that_draft store_d1 "d1" "alice" draft_d1 Hget eq_refl)
    as (st1 & Hd & Hg & _).
  exists st1. split; [exact Hd|exact Hg].
Defined.

(** X5.  For the owner of a stored draft [generate_draft_version] always
    produces a version, whatever the collaborators do: the version is
    pending and created by the caller, the draft keeps its status, and
    when the analyzer or the drafting agent raises [e] the version is
    still stored, its content being the error payload (content
    [{'error': e}], no sections, confidence 0). *)
Theorem generate_absorbs_collaborator_failures
    (C : DraftingService.Collaborators) (st : gmap string Dict)
    (draft_id user_id version_id : string) (context : option Dict) (now : Z)
    (d : DocumentDraft.t) :
  DraftingService.get_draft st draft_id = Ok (Some d) ->
  DocumentDraft.user_id d = user_id ->
  let chat_messages :=
    match DocumentDraft.original_content d with
    | Some (String c r) => DraftingService._parse_chat_content (String c r)
    | _ => DraftingService._load_chat_messages C user_id (DocumentDraft.chat_id d)
    end in
  let error_payload e :=
    VDict [("document_type", VStr (DocumentDraft.document_type d));
           ("content", VDict [("error", VStr e)]);
           ("sections", VList []);
           ("metadata",
            VDict [("generation_time", VTime now);
                   ("confidence", VFloat 0 0);
                   ("sources", VList []);
                   ("template_used", VStr "");
                   ("customizations", VList [])])] in
  exists v st1 d1,
    DraftingService.generate_draft_version C st draft_id user_id context version_id now
      = (Ok (Some v), st1) /\
    DraftingService.get_draft st1 draft_id = Ok (Some d1) /\
    DocumentDraft.status d1 = DocumentDraft.status d /\
    last (DocumentDraft.versions d1) = Some v /\
    DraftVersion.status v = "pending" /\
    DraftVersion.created_by v = user_id /\
    (forall e, DraftingService.analyze_conversation C chat_messages = Raise e ->
               DraftVersion.content v = error_payload e) /\
    (forall a e,
       DraftingService.analyze_conversation C chat_messages = Ok a ->
       DraftingService.draft_document C (DocumentDraft.document_type d)
         [("conversation_text",
           VStr (DraftingService._extract_conversation_text chat_messages));
          ("document_type", VStr (DocumentDraft.document_type d));
          ("analysis_result", VDict a);
          ("user_context", VDict (DraftingService.or_empty context))] = Raise e ->
       DraftVersion.content v = error_payload e).
Proof.
  intros Hget Hown chat_messages error_payload.
  set (v := DraftVersion.init version_id
              (DraftingService._generate_draft_content C chat_messages
                 (DocumentDraft.document_type d) context now) user_id now).
  set (d1 := DraftingService.append_version v now d).
  exists v, (<[draft_id := DocumentDraft.to_dict d1]> st), (DraftingService.reloaded d1).
  split.
  { unfold DraftingService.generate_draft_version.
    now rewrite Hget, Hown, eqb_refl_neg. }
  split; [apply DraftFacts.get_draft_insert|].
  rewrite DraftFacts.reloaded_status, DraftFacts.reloaded_versions.
  split; [reflexivity|]. split; [apply last_snoc|].
  split; [reflexivity|]. split; [reflexivity|]. split.
  - intros e He. cbn [v DraftVersion.init DraftVersion.content].
    unfold DraftingService._generate_draft_content. now rewrite He.
  - intros a e Ha He. cbn [v DraftVersion.init DraftVersion.content].
    unfold DraftingService._generate_draft_content. rewrite Ha. cbn [bind].
    now rewrite He.
Qed.

Lemma generate_absorbs_collaborator_failures_witness :
  DraftingService.get_draft store_d1 "d1" = Ok (Some draft_d1) /\
  exists v st1,
    DraftingService.generate_draft_version analyzer_down store_d1 "d1" "alice" None "v2" 20
      = (Ok (Some v), st1) /\
    DraftVersion.status v = "pending".
Proof.
  assert (Hget : DraftingService.get_draft store_d1 "d1" = Ok (Some draft_d1))
    by (vm_compute; reflexivity).
  split; [exact Hget|].
  destruct (generate_absorbs_collaborator_failures analyzer_down store_d1 "d1" "alice"
              "v2" None 20 draft_d1 Hget eq_refl)
    as (v & st1 & d1 & Hg & _ & _ & _ & Hs & _).
  exists v, st1. split; [exact Hg|exact Hs].
Defined.

Module ExportFacts.

Import DraftingService.

Lemma find_app_none {A} (p : A -> bool) (l l' : list A) :
  find p l = None -> find p (l ++ l')%list = find p l'.
Proof.
  induction l as [|a l IH]; cbn; [reflexivity|].
  destruct (p a); [discriminate|exact IH].
Qed.

Lemma find_none_forall {A} (p : A -> bool) (l : list A) :
  Forall (fun a => p a = false) l -> find p l = None.
Proof. induction 1 as [|a l Ha _ IH]; cbn; [reflexivity|now rewrite Ha]. Qed.

Lemma not_approved_rev (vs : list DraftVersion.t) :
  Forall (fun w => DraftVersion.status w <> "approved") vs ->
  Forall (fun w => String.eqb (DraftVersion.status w) "approved" = false) (rev vs).
Proof.
  intros H. apply Forall_rev. eapply Forall_impl; [exact H|].
  intros w Hw. now apply String.eqb_neq.
Qed.

(** The version exported: the last approved one. *)
Lemma latest_version_approved before v after :
  DraftVersion.status v = "approved" ->
  Forall (fun w => DraftVersion.status w <> "approved") after ->
  latest_version (before ++ v :: after)%list = Some v.
Proof.
  intros Hv Hafter. unfold latest_version.
  rewrite rev_app_distr. cbn [rev]. rewrite <- app_assoc. cbn [List.app].
  rewrite find_app_none
    by (apply (find_none_forall _ _ (not_approved_rev _ Hafter))).
  cbn [find]. now rewrite Hv.
Qed.

(** Without an approved version: the last one. *)
Lemma latest_version_none_approved vs :
  Forall (fun w => DraftVersion.status w <> "approved") vs ->
  latest_version vs = last vs.
Proof.
  intros H. unfold latest_version.
  now rewrite (find_none_forall _ _ (not_approved_rev _ H)).
Qed.

End ExportFacts.

(** X6.  [export_draft] for the owner exports the last approved version of
    the draft whatever was generated after it, and the last version when
    none is approved.  Of the version so chosen the formats 'json',
    'docx' and 'pdf' give [json.dumps] of the export data, whose 'version'
    entry is the dictionary of that version, and the format 'txt' gives
    the text of its content.  It answers [None] for a draft without
    versions and for every other format. *)
Theorem export_prefers_last_approved_version
    (C : DraftingService.Collaborators) (st : gmap string Dict)
    (draft_id user_id : string) (now : Z) (d : DocumentDraft.t) :
  DraftingService.get_draft st draft_id = Ok (Some d) ->
  DocumentDraft.user_id d = user_id ->
  (forall v,
     (exists before after,
        DocumentDraft.versions d = (before ++ v :: after)%list /\
        DraftVersion.status v = "approved" /\
        Forall (fun w => DraftVersion.status w <> "approved") after) \/
     (exists earlier,
        DocumentDraft.versions d = (earlier ++ [v])%list /\
        Forall (fun w => DraftVersion.status w <> "approved") (earlier ++ [v])%list) ->
     (forall format,
        format = "json" \/ format = "docx" \/ format = "pdf" ->
        DraftingService.export_draft C st draft_id user_id format now
          = Ok (Some (DraftingService.json_dumps C (DraftingService.export_data d v now)))) /\
     DraftingService.export_draft C st draft_id user_id "txt" now
       = Ok (Some (DraftingService._export_as_text C (DraftVersion.content v))) /\
     (exists e, DraftingService.export_data d v now = VDict e /\
                dict_get "version" e = Some (VDict (DraftVersion.to_dict v)) /\
                dict_get "exportedAt" e = Some (VTime now))) /\
  (DocumentDraft.versions d = [] ->
   forall format, DraftingService.export_draft C st draft_id user_id format now = Ok None) /\
  (forall format,
     format <> "json" -> format <> "txt" -> format <> "docx" -> format <> "pdf" ->
     DraftingService.export_draft C st draft_id user_id format now = Ok None).
Proof.
  intros Hget Hown.
  assert (Hexp : forall format,
            DraftingService.export_draft C st draft_id user_id format now
            = match DraftingService.latest_version (DocumentDraft.versions d) with
              | None => Ok None
              | Some v =>
                  if String.eqb format "json"
                  then Ok (Some (DraftingService.json_dumps C
                                   (DraftingService.export_data d v now)))
                  else if String.eqb format "txt"
                  then Ok (Some (DraftingService._export_as_text C (DraftVersion.content v)))
                  else if String.eqb format "docx"
                  then Ok (Some (DraftingService.json_dumps C
                                   (DraftingService.export_data d v now)))
                  else if String.eqb format "pdf"
                  then Ok (Some (DraftingService.json_dumps C
                                   (DraftingService.export_data d v now)))
                  else Ok None
              end).
  { intros format. unfold DraftingService.export_draft.
    rewrite Hget. cbn [bind]. now rewrite Hown, eqb_refl_neg. }
  split_and!.
  - intros v Hv.
    assert (Hl : DraftingService.latest_version (DocumentDraft.versions d) = Some v).
    { destruct Hv as [(before & after & Hvs & Hap & Hafter)|(earlier & Hvs & Hnone)];
        rewrite Hvs.
      - now apply ExportFacts.latest_version_approved.
      - rewrite ExportFacts.latest_version_none_approved by exact Hnone.
        now rewrite last_snoc. }
    split_and!.
    + intros format [ -> | [ -> | -> ] ]; rewrite Hexp, Hl; reflexivity.
    + rewrite Hexp, Hl. reflexivity.
    + eexists. split; [reflexivity|]. split; reflexivity.
  - intros Hvs format. rewrite Hexp, Hvs. reflexivity.
  - intros format Hj Ht Hd Hp. rewrite Hexp.
    destruct (DraftingService.latest_version (DocumentDraft.versions d)); [|reflexivity].
    apply String.eqb_neq in Hj, Ht, Hd, Hp. now rewrite Hj, Ht, Hd, Hp.
Qed.

Lemma export_prefers_last_approved_version_witness :
  DraftingService.get_draft store_d2 "d2" = Ok (Some draft_d2) /\
  DocumentDraft.versions draft_d2 = [version_v1_approved; version_v2] /\
  DraftingService.export_draft dumps_version_id store_d2 "d2" "alice" "json" 30
    = Ok (Some "v1") /\
  DraftingService.export_draft dumps_version_id store_d2 "d2" "alice" "pdf" 30
    = Ok (Some "v1") /\
  DraftingService.export_draft dumps_version_id store_d2 "d2" "alice" "txt" 30
    = Ok (Some "Dear Sir") /\
  DraftingService.export_draft dumps_version_id store_d2 "d2" "alice" "html" 30 = Ok None.
Proof.
  assert (Hget : DraftingService.get_draft store_d2 "d2" = Ok (Some draft_d2))
    by (vm_compute; reflexivity).
  destruct (export_prefers_last_approved_version dumps_version_id store_d2 "d2" "alice" 30
              draft_d2 Hget eq_refl) as (Hv & _ & Hfmt).
  destruct (Hv version_v1_approved) as (Hjson & Htxt & _).
  { left. exists [], [version_v2]. split; [reflexivity|]. split; [reflexivity|].
    repeat constructor. discriminate. }
  split; [exact Hget|]. split; [reflexivity|].
  split; [rewrite Hjson by (left; reflexivity); reflexivity|].
  split; [rewrite Hjson by (right; right; reflexivity); reflexivity|].
  split; [rewrite Htxt; vm_compute; reflexivity|].
  apply Hfmt; discriminate.
Defined.

(** X7.  The three answers of [_export_as_text].  It answers 'No content
    available' for an empty content; for any other content it collects the
    text parts, joins them with newlines, and answers 'Content exported
    successfully' when the joined text is blank (nothing but white space)
    and the joined text otherwise.  So the export is never blank.  For a
    content that is a string the joined text is that string, for a
    content that is neither a string nor a dictionary (a number, a list)
    nothing is collected. *)
Theorem text_export_is_never_blank
    (C : DraftingService.Collaborators) (content : Value) :
  let collected := join nl (DraftingService.text_parts C content) in
  (truthy content = false ->
   DraftingService._export_as_text C content = "No content available") /\
  (truthy content = true -> strip collected = "" ->
   DraftingService._export_as_text C content = "Content exported successfully") /\
  (truthy content = true -> strip collected <> "" ->
   DraftingService._export_as_text C content = collected) /\
  strip (DraftingService._export_as_text C content) <> "" /\
  (forall s, content = VStr s -> collected = s) /\
  ((forall s, content <> VStr s) -> (forall d, content <> VDict d) -> collected = "").
Proof.
  intros collected. unfold DraftingService._export_as_text. fold collected.
  split_and!.
  - intros H. now rewrite H.
  - intros H Hb. rewrite H, Hb. reflexivity.
  - intros H Hb. rewrite H. apply String.eqb_neq in Hb. now rewrite Hb.
  - destruct (negb (truthy content)); [vm_compute; discriminate|].
    destruct (String.eqb (strip collected) "") eqn:E.
    + vm_compute; discriminate.
    + now apply String.eqb_neq.
  - intros s ->. reflexivity.
  - intros Hs Hd. unfold collected.
    destruct content; try reflexivity; [now destruct (Hs s)|now destruct (Hd d)].
Qed.

Lemma text_export_is_never_blank_witness :
  truthy (VStr (String (ascii_of_nat 160) "")) = true /\
  strip (join nl (DraftingService.text_parts silent (VStr (String (ascii_of_nat 160) ""))))
    = "" /\
  DraftingService._export_as_text silent (VStr (String (ascii_of_nat 160) ""))
    = "Content exported successfully" /\
  DraftingService._export_as_text silent (VStr "Dear Sir") = "Dear Sir".
Proof.
  assert (H1 : truthy (VStr (String (ascii_of_nat 160) "")) = true) by reflexivity.
  assert (H2 : strip (join nl (DraftingService.text_parts silent
                                 (VStr (String (ascii_of_nat 160) "")))) = "")
    by (vm_compute; reflexivity).
  split; [exact H1|]. split; [exact H2|]. split.
  - exact (proj1 (proj2 (text_export_is_never_blank silent
                           (VStr (String (ascii_of_nat 160) "")))) H1 H2).
  - apply (proj1 (proj2 (proj2 (text_export_is_never_blank silent (VStr "Dear Sir")))));
      [reflexivity|vm_compute; discriminate].
Defined.

Module ListingFacts.

Import DraftingService.

Lemma mapM_Forall2 {A B} (f : A -> Res B) (l : list A) :
  Forall (fun a => exists b, f a = Ok b) l ->
  exists bs, mapM f l = Ok bs /\ Forall2 (fun a b => f a = Ok b) l bs.
Proof.
  induction 1 as [|a l [b Hb] _ (bs & Hbs & HF)]; cbn.
  - exists []. split; [reflexivity|constructor].
  - exists (b :: bs). rewrite Hb. cbn. rewrite Hbs. cbn.
    split; [reflexivity|now constructor].
Qed.

Lemma stored_owner_to_dict user_id d :
  stored_owner_is user_id (DocumentDraft.to_dict d) = String.eqb (DocumentDraft.user_id d) user_id.
Proof.
  unfold stored_owner_is, DocumentDraft.to_dict.
  destruct (DocumentDraft.original_content d) as [[|]|]; reflexivity.
Qed.

End ListingFacts.

(** X8.  In every store the service can reach, [get_user_drafts] does not
    fail and returns exactly the stored drafts of the user: a draft is in
    the list if and only if the user owns it and [get_draft] returns it
    for some id. *)
Theorem get_user_drafts_lists_own_drafts
    (C : DraftingService.Collaborators) (st : gmap string Dict) (user_id : string) :
  DraftingService.reachable C st ->
  exists ds,
    DraftingService.get_user_drafts st user_id = Ok ds /\
    forall d,
      d ∈ ds <->
      (DocumentDraft.user_id d = user_id /\
       exists draft_id, DraftingService.get_draft st draft_id = Ok (Some d)).
Proof.
  intros Hreach. apply VersionPointer.reachable_inv in Hreach.
  unfold DraftingService.get_user_drafts.
  set (l := filter (fun x => DraftingService.stored_owner_is user_id x = true)
              (snd <$> map_to_list st)).
  assert (Hl : forall x, x ∈ l <->
                 DraftingService.stored_owner_is user_id x = true /\
                 exists k, st !! k = Some x).
  { intros x. unfold l. rewrite list_elem_of_filter, list_elem_of_fmap.
    split.
    - intros [Ho ([k y] & -> & Hin)]. apply elem_of_map_to_list in Hin. eauto.
    - intros [Ho [k Hk]]. split; [exact Ho|].
      exists (k, x). split; [reflexivity|]. now apply elem_of_map_to_list. }
  destruct (ListingFacts.mapM_Forall2 DraftingService._dict_to_draft l) as (ds & Hds & HF).
  { apply Forall_forall. intros x [_ [k Hk]]%Hl.
    destruct (Hreach _ _ Hk) as (d & -> & _).
    rewrite DraftFacts.dict_to_draft_to_dict. eauto. }
  exists ds. split; [exact Hds|].
  intros d. split.
  - intros Hd. apply list_elem_of_lookup in Hd as [i Hi].
    destruct (Forall2_lookup_r _ _ _ _ _ HF Hi) as (x & Hx & Hfx).
    apply list_elem_of_lookup_2, Hl in Hx as [Ho [k Hk]].
    destruct (Hreach _ _ Hk) as (d0 & -> & _).
    rewrite ListingFacts.stored_owner_to_dict in Ho. apply String.eqb_eq in Ho.
    rewrite DraftFacts.dict_to_draft_to_dict in Hfx. injection Hfx as <-.
    split; [now rewrite DraftMore.reloaded_owner|].
    exists k. unfold DraftingService.get_draft.
    now rewrite Hk, DraftFacts.dict_to_draft_to_dict.
  - intros [Ho [k Hg]]. unfold DraftingService.get_draft in Hg.
    destruct (st !! k) as [x|] eqn:Hk; [|discriminate].
    destruct (Hreach _ _ Hk) as (d0 & -> & _).
    rewrite DraftFacts.dict_to_draft_to_dict in Hg. cbn in Hg. injection Hg as <-.
    assert (Hx : DocumentDraft.to_dict d0 ∈ l).
    { apply Hl. split; [|eauto].
      rewrite ListingFacts.stored_owner_to_dict.
      rewrite DraftMore.reloaded_owner in Ho. now apply String.eqb_eq. }
    apply list_elem_of_lookup in Hx as [i Hi].
    destruct (Forall2_lookup_l _ _ _ _ _ HF Hi) as (d' & Hd' & Hfx).
    rewrite DraftFacts.dict_to_draft_to_dict in Hfx. injection Hfx as <-.
    eapply list_elem_of_lookup_2; eassumption.
Qed.

Lemma get_user_drafts_lists_own_drafts_witness :
  DraftingService.reachable silent store_fresh /\
  exists ds, DraftingService.get_user_drafts store_fresh "alice" = Ok ds /\ draft_fresh ∈ ds.
Proof.
  assert (Hr : DraftingService.reachable silent store_fresh)
    by (apply DraftingService.reach_create_from_chat, DraftingService.reach_start).
  split; [exact Hr|].
  destruct (get_user_drafts_lists_own_drafts silent store_fresh "alice" Hr) as (ds & Hds & Hin).
  exists ds. split; [exact Hds|].
  apply Hin. split; [reflexivity|]. exists "d1". vm_compute. reflexivity.
Defined.

(** X9.  A draft made by [create_draft_from_content] with a given type is
    stored under the placeholder chat id ['content_' + id], and the next
    [generate_draft_version] of its owner drafts from the messages parsed
    out of that very content.  When the content is the empty string it is
    not written to the store, and generation falls back to the chat
    history of the placeholder chat id. *)
Theorem content_draft_generates_from_its_content
    (C : DraftingService.Collaborators) (st : gmap string Dict)
    (user_id chat_content document_type draft_id version_id : string)
    (context : option Dict) (now now' : Z) :
  document_type <> "" ->
  exists d st1 v st2,
    DraftingService.create_draft_from_content C st user_id chat_content
      (Some document_type) draft_id now = (Ok d, st1) /\
    DocumentDraft.chat_id d = Some ("content_" ++ draft_id) /\
    DocumentDraft.original_content d = Some chat_content /\
    DraftingService.generate_draft_version C st1 draft_id user_id context version_id now'
      = (Ok (Some v), st2) /\
    DraftVersion.content v
      = DraftingService._generate_draft_content C
          (if String.eqb chat_content ""
           then DraftingService._load_chat_messages C user_id (Some ("content_" ++ draft_id))
           else DraftingService._parse_chat_content chat_content)
          document_type context now'.
Proof.
  intros Hdt.
  destruct document_type as [|c r]; [congruence|].
  set (d := DraftingService.with_original_content chat_content
              (DocumentDraft.init draft_id user_id (Some ("content_" ++ draft_id))
                 (String c r) now)).
  eexists d, _, _, _.
  split; [reflexivity|]. split; [reflexivity|]. split; [reflexivity|].
  unfold DraftingService.generate_draft_version.
  rewrite DraftFacts.get_draft_insert, DraftMore.reloaded_owner.
  change (DocumentDraft.user_id d) with user_id. rewrite eqb_refl_neg.
  split; [reflexivity|].
  cbn [DraftVersion.init DraftVersion.content].
  rewrite DraftMore.reloaded_document_type.
  destruct chat_content as [|ch rest]; reflexivity.
Qed.

Lemma content_draft_generates_from_its_content_witness :
  "contract" <> "" /\
  exists d st1,
    DraftingService.create_draft_from_content silent ∅ "alice" "user: hello" (Some "contract")
      "d7" 5 = (Ok d, st1) /\
    DocumentDraft.chat_id d = Some "content_d7".
Proof.
  assert (H : "contract" <> "") by discriminate.
  split; [exact H|].
  destruct (content_draft_generates_from_its_content silent ∅ "alice" "user: hello"
              "contract" "d7" "v1" None 5 6 H) as (d & st1 & _ & _ & Hc & Hid & _).
  exists d, st1. split; [exact Hc|exact Hid].
Defined.

(** X10.  The type of a draft created from a chat without a given type:
    'custom_document' when the chat has no messages or the analyzer
    raises, otherwise whatever string the analyzer reports under
    'document_type' ('custom_document' when the key is absent).  When the
    analyzer reports a value that is not a string (such as [None]) the
    constructor raises, nothing is stored and no draft is returned. *)
Theorem draft_type_is_inferred_from_chat
    (C : DraftingService.Collaborators) (st : gmap string Dict)
    (user_id : string) (chat_id : option string) (draft_id : string) (now : Z) :
  let messages := DraftingService._load_chat_messages C user_id chat_id in
  let create := DraftingService.create_draft_from_chat C st user_id chat_id None draft_id now in
  let created dt :=
    (Ok (DocumentDraft.init draft_id user_id chat_id dt now),
     <[draft_id := DocumentDraft.to_dict
                     (DocumentDraft.init draft_id user_id chat_id dt now)]> st) in
  (messages = [] -> create = created "custom_document") /\
  (forall e, DraftingService.analyze_conversation C messages = Raise e ->
             create = created "custom_document") /\
  (forall a, messages <> [] ->
             DraftingService.analyze_conversation C messages = Ok a ->
             dict_get "document_type" a = None ->
             create = created "custom_document") /\
  (forall a dt, messages <> [] ->
                DraftingService.analyze_conversation C messages = Ok a ->
                dict_get "document_type" a = Some (VStr dt) ->
                create = created dt) /\
  (forall a x, messages <> [] ->
               DraftingService.analyze_conversation C messages = Ok a ->
               dict_get "document_type" a = Some x ->
               (forall dt, x <> VStr dt) ->
               create = (Raise "AttributeError", st)).
Proof.
  intros messages create created.
  unfold create, created, DraftingService.create_draft_from_chat,
    DraftingService.infer_document_type.
  fold messages. split_and!.
  - intros ->. reflexivity.
  - intros e He. rewrite He. now destruct messages.
  - intros a Hm Ha Hk. rewrite Ha, Hk. now destruct messages.
  - intros a dt Hm Ha Hk. rewrite Ha, Hk. now destruct messages.
  - intros a x Hm Ha Hk Hx. rewrite Ha, Hk.
    destruct messages; [congruence|].
    destruct x; try reflexivity. now destruct (Hx s).
Qed.

Lemma draft_type_is_inferred_from_chat_witness :
  DraftingService._load_chat_messages analysis_without_type "alice" (Some "chat1") <> [] /\
  DraftingService.create_draft_from_chat analysis_without_type store_d1 "alice" (Some "chat1")
    None "d2" 5 = (Raise "AttributeError", store_d1) /\
  DraftingService.create_draft_from_chat silent store_d1 "alice" (Some "chat1") None "d2" 5
    = (Ok (DocumentDraft.init "d2" "alice" (Some "chat1") "custom_document" 5),
       <[ "d2" := DocumentDraft.to_dict
                    (DocumentDraft.init "d2" "alice" (Some "chat1") "custom_document" 5)]>
         store_d1).
Proof.
  assert (Hm : DraftingService._load_chat_messages analysis_without_type "alice"
                 (Some "chat1") <> []) by discriminate.
  split; [exact Hm|]. split.
  - destruct (draft_type_is_inferred_from_chat analysis_without_type store_d1 "alice"
                (Some "chat1") "d2" 5) as (_ & _ & _ & _ & Hbad).
    apply (Hbad [("document_type", VNone)] VNone Hm); [reflexivity|reflexivity|discriminate].
  - destruct (draft_type_is_inferred_from_chat silent store_d1 "alice"
                (Some "chat1") "d2" 5) as (Hempty & _).
    apply Hempty. reflexivity.
Defined.

Module ParseFacts.

Import DraftingService.

Lemma blank_opens_nothing raw : strip raw = "" -> opens_message raw = false.
Proof. unfold opens_message. now intros ->. Qed.

Lemma opens_message_split raw :
  opens_message raw
  = startswith_any ["user:"; "human:"; "client:"] (str_lower (strip raw))
    || startswith_any ["assistant:"; "ai:"; "bot:"; "wakili:"] (str_lower (strip raw)).
Proof.
  unfold opens_message, startswith_any. cbn [existsb].
  now rewrite !orb_false_r, !orb_assoc.
Qed.

Lemma flush_length ps :
  parse_inv ps ->
  length (flush ps)
  = (length (messages ps) + match current_role ps with Some _ => 1 | None => 0 end)%nat.
Proof.
  intros [[(Hr & Hc & _)|[[Hr|Hr] Hc]] _]; unfold flush; rewrite Hr.
  - cbn. lia.
  - destruct (current_content ps); [congruence|]. cbn. rewrite length_app. cbn. lia.
  - destruct (current_content ps); [congruence|]. cbn. rewrite length_app. cbn. lia.
Qed.

Lemma flush_roles ps :
  parse_inv ps -> Forall (fun m => role m = "user" \/ role m = "assistant") (flush ps).
Proof.
  intros [[(Hr & Hc & _)|[[Hr|Hr] Hc]] Hm]; unfold flush; rewrite Hr.
  - exact Hm.
  - destruct (current_content ps); [congruence|]. cbn.
    apply Forall_app. split; [exact Hm|]. constructor; [now left|constructor].
  - destruct (current_content ps); [congruence|]. cbn.
    apply Forall_app. split; [exact Hm|]. constructor; [now right|constructor].
Qed.

(** One line of the loop. *)
Lemma parse_line_step ps raw :
  parse_inv ps ->
  parse_inv (parse_line ps raw) /\
  length (flush (parse_line ps raw))
  = (length (flush ps) + if opens_message raw then 1 else 0)%nat.
Proof.
  intros Hinv. unfold parse_line.
  destruct (String.eqb (strip raw) "") eqn:Eblank.
  { apply String.eqb_eq in Eblank. rewrite blank_opens_nothing by exact Eblank.
    split; [exact Hinv|lia]. }
  rewrite opens_message_split.
  destruct (startswith_any ["user:"; "human:"; "client:"] (str_lower (strip raw))).
  { cbn [orb]. split.
    - split; [right; split; [now left|discriminate]|].
      cbn [messages]. now apply flush_roles.
    - unfold flush at 1. cbn. rewrite length_app. cbn. lia. }
  destruct (startswith_any ["assistant:"; "ai:"; "bot:"; "wakili:"]
              (str_lower (strip raw))).
  { cbn [orb]. split.
    - split; [right; split; [now right|discriminate]|].
      cbn [messages]. now apply flush_roles.
    - unfold flush at 1. cbn. rewrite length_app. cbn. lia. }
  cbn [orb].
  destruct Hinv as [[(Hr & Hc & Hm0)|[Hr Hc]] Hm].
  - rewrite Hr. split; [|lia]. split; [left; auto|exact Hm].
  - assert (Hnew : parse_inv {| messages := messages ps;
                                current_role := current_role ps;
                                current_content := (current_content ps ++ [strip raw])%list |}).
    { split; [right; split; [exact Hr|]|exact Hm].
      cbn. now destruct (current_content ps). }
    assert (Hold : parse_inv ps) by (split; [right; split; assumption|exact Hm]).
    assert (Hrole : exists r, current_role ps = Some r /\ String.eqb r "" = false)
      by (destruct Hr as [Hr|Hr]; eexists; (split; [exact Hr|reflexivity])).
    destruct Hrole as (r & Hrr & Hne). rewrite Hrr, Hne, <- Hrr.
    split; [exact Hnew|].
    rewrite (flush_length _ Hnew), (flush_length _ Hold). cbn. rewrite Hrr. lia.
Qed.

(** The whole loop. *)
Lemma parse_lines lines : forall ps,
  parse_inv ps ->
  parse_inv (fold_left parse_line lines ps) /\
  length (flush (fold_left parse_line lines ps))
  = (length (flush ps) + length (List.filter opens_message lines))%nat.
Proof.
  induction lines as [|raw lines IH]; intros ps Hinv; cbn [fold_left List.filter].
  - split; [exact Hinv|cbn [length]; lia].
  - destruct (parse_line_step ps raw Hinv) as [Hinv' Hlen].
    destruct (IH _ Hinv') as [Hfin Hlen'].
    split; [exact Hfin|]. rewrite Hlen', Hlen.
    destruct (opens_message raw); cbn [length]; lia.
Qed.

End ParseFacts.

(** X11.  [_parse_chat_content] returns one message for every line that
    opens one (a line that, stripped and lower-cased, starts with 'user:',
    'human:', 'client:', 'assistant:', 'ai:', 'bot:' or 'wakili:'), and
    every message has role 'user' or 'assistant'.  In particular a text
    without such a line parses to no message at all. *)
Theorem parse_chat_content_counts_role_lines (chat_content : string) :
  let lines := split_on (ascii_of_nat 10) (strip chat_content) in
  length (DraftingService._parse_chat_content chat_content)
    = length (List.filter DraftingService.opens_message lines) /\
  Forall (fun m => role m = "user" \/ role m = "assistant")
    (DraftingService._parse_chat_content chat_content) /\
  (Forall (fun l => DraftingService.opens_message l = false) lines ->
   DraftingService._parse_chat_content chat_content = []).
Proof.
  intros lines. unfold DraftingService._parse_chat_content. fold lines.
  set (ps0 := {| DraftingService.messages := [];
                 DraftingService.current_role := None;
                 DraftingService.current_content := [] |}).
  assert (H0 : DraftingService.parse_inv ps0)
    by (split; [left; auto|constructor]).
  destruct (ParseFacts.parse_lines lines ps0 H0) as [Hinv Hlen].
  split_and!.
  - rewrite Hlen. reflexivity.
  - now apply ParseFacts.flush_roles.
  - intros Hnone. apply length_zero_iff_nil. rewrite Hlen.
    replace (List.filter DraftingService.opens_message lines) with (@nil string);
      [reflexivity|].
    clear -Hnone. induction Hnone as [|l ls Hl _ IH]; cbn [List.filter]; [reflexivity|].
    now rewrite Hl.
Qed.

Lemma parse_chat_content_counts_role_lines_witness :
  Forall (fun l => DraftingService.opens_message l = false)
    (split_on (ascii_of_nat 10) (strip "please draft a lease")) /\
  DraftingService._parse_chat_content "please draft a lease" = [].
Proof.
  assert (H : Forall (fun l => DraftingService.opens_message l = false)
                (split_on (ascii_of_nat 10) (strip "please draft a lease")))
    by (vm_compute; repeat constructor).
  split; [exact H|].
  exact (proj2 (proj2 (parse_chat_content_counts_role_lines "please draft a lease")) H).
Defined.

(** ** Workflows *)

(** X12.  What survives the store: a workflow written with [to_dict] and
    read back with [get_workflow] has the same id, name, description,
    status, current step, steps (each with all of its fields), times,
    estimated duration and draft id; its owner is [''] and its chat id
    [None].  So exactly the workflows without owner and chat reload
    unchanged. *)
Theorem stored_workflow_keeps_all_but_owner_and_chat
    (st : gmap string Dict) (w : Workflow.t) :
  (forall s, WorkflowService._dict_to_step (VDict (WorkflowStep.to_dict s)) = Ok s) /\
  exists w',
    WorkflowService.get_workflow (WorkflowService.store w st) (Workflow.id w)
      = Ok (Some w') /\
    Workflow.id w' = Workflow.id w /\
    Workflow.name w' = Workflow.name w /\
    Workflow.description w' = Workflow.description w /\
    Workflow.status w' = Workflow.status w /\
    Workflow.current_step w' = Workflow.current_step w /\
    Workflow.steps w' = Workflow.steps w /\
    Workflow.created_at w' = Workflow.created_at w /\
    Workflow.updated_at w' = Workflow.updated_at w /\
    Workflow.estimated_duration w' = Workflow.estimated_duration w /\
    Workflow.draft_id w' = Workflow.draft_id w /\
    Workflow.user_id w' = "" /\
    Workflow.chat_id w' = None /\
    (w' = w <-> Workflow.user_id w = "" /\ Workflow.chat_id w = None).
Proof.
  split; [apply WorkflowFacts.dict_to_step_to_dict|].
  exists (WorkflowService.reloaded w).
  split; [apply WorkflowFacts.get_workflow_insert|].
  split_and!; try reflexivity.
  destruct w as [i n d u s c ss ca ua ed ch dr]. unfold WorkflowService.reloaded. cbn.
  split.
  - intros [= <- <-]. auto.
  - intros [-> ->]. reflexivity.
Qed.

Module WorkflowMore.

Import WorkflowService.

(** The owner and the chat of the workflow object a control method hands
    on are those of the object it was given. *)
Lemma start_keeps_owner st w now :
  Workflow.user_id (fst (fst (_start_workflow st w now))) = Workflow.user_id w /\
  Workflow.chat_id (fst (fst (_start_workflow st w now))) = Workflow.chat_id w.
Proof. unfold _start_workflow. cbn. destruct (Workflow.steps w); split; reflexivity. Qed.

Lemma resume_keeps_owner st w now :
  Workflow.user_id (fst (fst (_resume_workflow st w now))) = Workflow.user_id w /\
  Workflow.chat_id (fst (fst (_resume_workflow st w now))) = Workflow.chat_id w.
Proof. unfold _resume_workflow. cbn -[Nat.ltb]. case_match; split; reflexivity. Qed.

Lemma control_task st workflow_id action now w task :
  get_workflow st workflow_id = Ok (Some w) ->
  snd (control_workflow st workflow_id action now) = Some task ->
  Workflow.user_id (task_workflow task) = Workflow.user_id w /\
  Workflow.chat_id (task_workflow task) = Workflow.chat_id w.
Proof.
  intros Hg. unfold control_workflow. rewrite Hg.
  destruct (String.eqb action "start").
  { cbn [snd]. intros [= <-]. apply (start_keeps_owner st w now). }
  destruct (String.eqb action "pause"); [discriminate|].
  destruct (String.eqb action "resume").
  { cbn [snd]. intros [= <-]. apply (resume_keeps_owner st w now). }
  destruct (String.eqb action "stop"); discriminate.
Qed.

Lemma approve_task st workflow_id step_id now w task :
  get_workflow st workflow_id = Ok (Some w) ->
  snd (approve_step st workflow_id step_id now) = Some task ->
  Workflow.user_id (task_workflow task) = Workflow.user_id w /\
  Workflow.chat_id (task_workflow task) = Workflow.chat_id w.
Proof.
  intros Hg. unfold approve_step. rewrite Hg.
  destruct (find_step step_id (Workflow.steps w)) as [[i s]|]; [|discriminate].
  destruct (String.eqb (WorkflowStep.status s) "completed"); [|discriminate].
  cbn [snd]. intros [= <-]. cbn -[Z.ltb Z.of_nat Z.sub]. case_match; split; reflexivity.
Qed.

Lemma no_workflow_no_task st workflow_id :
  (forall w, get_workflow st workflow_id <> Ok (Some w)) ->
  (forall action now, snd (control_workflow st workflow_id action now) = None) /\
  (forall step_id now, snd (approve_step st workflow_id step_id now) = None).
Proof.
  intros Hg. unfold control_workflow, approve_step.
  destruct (get_workflow st workflow_id) as [[w|]|e]; [now destruct (Hg w)|..];
    split; reflexivity.
Qed.

End WorkflowMore.

(** X13.  The executor never sees the chat a workflow was made from.  In
    every store the service can reach, the workflow object that
    [control_workflow] or [approve_step] hands to the task it spawns has
    owner [''] and chat id [None]; so the conversation every step handler
    of that task reads is that of [_load_chat_messages('', None)]. *)
Theorem spawned_tasks_read_no_chat
    (C : WorkflowService.Collaborators) (st : gmap string Dict)
    (workflow_id : string) (task : Task) :
  WorkflowService.reachable C st ->
  (exists action now,
     snd (WorkflowService.control_workflow st workflow_id action now) = Some task) \/
  (exists step_id now,
     snd (WorkflowService.approve_step st workflow_id step_id now) = Some task) ->
  Workflow.user_id (task_workflow task) = "" /\
  Workflow.chat_id (task_workflow task) = None /\
  WorkflowService.conversation_of C (task_workflow task)
    = join nl (map msg_content (WorkflowService._load_chat_messages C "" None)).
Proof.
  intros Hreach Hspawn.
  pose proof (WorkflowFacts.reachable_stored C st Hreach) as Hst.
  assert (H : Workflow.user_id (task_workflow task) = "" /\
              Workflow.chat_id (task_workflow task) = None).
  { destruct (WorkflowService.get_workflow st workflow_id) as [[w|]|e] eqn:Hg.
    - destruct (WorkflowFacts.get_workflow_stored _ _ _ Hst Hg) as (w0 & _ & Hw).
      assert (Hw' : Workflow.user_id w = "" /\ Workflow.chat_id w = None)
        by (subst w; split; reflexivity).
      destruct Hw' as [Hu Hc]. rewrite <- Hu, <- Hc.
      destruct Hspawn as [(action & now & Ht)|(step_id & now & Ht)].
      + exact (WorkflowMore.control_task _ _ _ _ _ _ Hg Ht).
      + exact (WorkflowMore.approve_task _ _ _ _ _ _ Hg Ht).
    - destruct (WorkflowMore.no_workflow_no_task st workflow_id) as [Hc Ha];
        [intros w; rewrite Hg; discriminate|].
      destruct Hspawn as [(action & now & Ht)|(step_id & now & Ht)];
        [rewrite Hc in Ht|rewrite Ha in Ht]; discriminate.
    - destruct (WorkflowMore.no_workflow_no_task st workflow_id) as [Hc Ha];
        [intros w; rewrite Hg; discriminate|].
      destruct Hspawn as [(action & now & Ht)|(step_id & now & Ht)];
        [rewrite Hc in Ht|rewrite Ha in Ht]; discriminate. }
  destruct H as [Hu Hc]. split; [exact Hu|]. split; [exact Hc|].
  unfold WorkflowService.conversation_of. now rewrite Hu, Hc.
Qed.

Lemma spawned_tasks_read_no_chat_witness :
  WorkflowService.reachable quiet store_w1 /\
  exists task,
    snd (WorkflowService.control_workflow store_w1 "w1" "start" 6) = Some task /\
    Workflow.user_id (task_workflow task) = "" /\
    Workflow.chat_id (task_workflow task) = None.
Proof.
  assert (Hr : WorkflowService.reachable quiet store_w1)
    by (apply WorkflowService.reach_create, WorkflowService.reach_start).
  split; [exact Hr|].
  assert (Ht : exists task,
             snd (WorkflowService.control_workflow store_w1 "w1" "start" 6) = Some task)
    by (eexists; vm_compute; reflexivity).
  destruct Ht as [task Ht]. exists task. split; [exact Ht|].
  destruct (spawned_tasks_read_no_chat quiet store_w1 "w1" task Hr) as (Hu & Hc & _).
  - left. exists "start", 6. exact Ht.
  - split; [exact Hu|exact Hc].
Defined.

(** X14.  Requests that do not apply change nothing.  For a stored
    workflow [control_workflow] with an action other than 'start',
    'pause', 'resume' and 'stop', and [approve_step] and [modify_step] on
    a step id that the workflow does not have or whose step is not
    'completed', answer the workflow as stored, leave the store as it was
    and spawn no task; for an id that is not stored all of them and
    [export_workflow] answer [None]. *)
Theorem inapplicable_workflow_requests_change_nothing
    (C : WorkflowService.Collaborators) (st : gmap string Dict) (workflow_id : string) :
  (forall w action now,
     WorkflowService.get_workflow st workflow_id = Ok (Some w) ->
     action <> "start" -> action <> "pause" -> action <> "resume" -> action <> "stop" ->
     WorkflowService.control_workflow st workflow_id action now = (Ok (Some w), st, None)) /\
  (forall w step_id mods now,
     WorkflowService.get_workflow st workflow_id = Ok (Some w) ->
     (forall i s, WorkflowService.find_step step_id (Workflow.steps w) = Some (i, s) ->
                  WorkflowStep.status s <> "completed") ->
     WorkflowService.approve_step st workflow_id step_id now = (Ok (Some w), st, None) /\
     WorkflowService.modify_step st workflow_id step_id mods now = (Ok (Some w), st)) /\
  (st !! workflow_id = None ->
   (forall action now,
      WorkflowService.control_workflow st workflow_id action now = (Ok None, st, None)) /\
   (forall step_id now,
      WorkflowService.approve_step st workflow_id step_id now = (Ok None, st, None)) /\
   (forall step_id mods now,
      WorkflowService.modify_step st workflow_id step_id mods now = (Ok None, st)) /\
   (forall format, WorkflowService.export_workflow C st workflow_id format = Ok None)).
Proof.
  split_and!.
  - intros w action now Hg H1 H2 H3 H4.
    unfold WorkflowService.control_workflow. rewrite Hg.
    apply String.eqb_neq in H1, H2, H3, H4. now rewrite H1, H2, H3, H4.
  - intros w step_id mods now Hg Hstep.
    unfold WorkflowService.approve_step, WorkflowService.modify_step. rewrite Hg.
    destruct (WorkflowService.find_step step_id (Workflow.steps w)) as [[i s]|];
      [|split; reflexivity].
    specialize (Hstep i s eq_refl). apply String.eqb_neq in Hstep.
    rewrite Hstep. split; reflexivity.
  - intros Hnone.
    assert (Hg : WorkflowService.get_workflow st workflow_id = Ok None)
      by (unfold WorkflowService.get_workflow; now rewrite Hnone).
    unfold WorkflowService.control_workflow, WorkflowService.approve_step,
      WorkflowService.modify_step, WorkflowService.export_workflow.
    rewrite Hg. repeat split.
Qed.

Lemma inapplicable_workflow_requests_change_nothing_witness :
  exists w,
    WorkflowService.get_workflow store_w1 "w1" = Ok (Some w) /\
    WorkflowService.control_workflow store_w1 "w1" "restart" 6 = (Ok (Some w), store_w1, None) /\
    WorkflowService.approve_step store_w1 "w1" "step_1" 6 = (Ok (Some w), store_w1, None).
Proof.
  assert (Hg : exists w, WorkflowService.get_workflow store_w1 "w1" = Ok (Some w))
    by (eexists; vm_compute; reflexivity).
  destruct Hg as [w Hg]. exists w. split; [exact Hg|].
  destruct (inapplicable_workflow_requests_change_nothing quiet store_w1 "w1")
    as (Hc & Hs & _).
  split.
  - apply Hc; [exact Hg|discriminate..].
  - apply (Hs w "step_1" [] 6 Hg).
    intros i s Hf.
    assert (Hw : WorkflowService.get_workflow store_w1 "w1"
                 = Ok (Some (WorkflowService.reloaded
                   (WorkflowService.new_workflow "w1" "Legal Workflow 2024-01-01 09:00"
                      "Multi-step legal document processing workflow" "alice" (Some "chat1")
                      WorkflowService.generic_steps 5))))
      by (vm_compute; reflexivity).
    rewrite Hw in Hg. injection Hg as <-.
    vm_compute in Hf. injection Hf as <- <-. discriminate.
Defined.

Module PauseFacts.

Import WorkflowService.

Lemma running_again (s : WorkflowStep.t) :
  WorkflowStep.status s = "running" ->
  step_with_status "running" (step_with_status "paused" s) = s.
Proof. destruct s. cbn. now intros ->. Qed.

Lemma alter_twice (l : list WorkflowStep.t) c s :
  l !! c = Some s -> WorkflowStep.status s = "running" ->
  alter (step_with_status "running") c (alter (step_with_status "paused") c l) = l.
Proof.
  intros Hl Hs.
  apply list_eq. intros j. destruct (decide (j = c)) as [->|Hne].
  - rewrite !list_lookup_alter_eq, Hl. cbn. now rewrite running_again.
  - now rewrite !list_lookup_alter_ne.
Qed.

End PauseFacts.

(** X15.  Pause and resume.  For a stored workflow whose current step is
    'running', [control_workflow] with 'pause' stores the workflow and
    that step as 'paused' and spawns nothing; 'resume' after it stores
    the workflow as 'running' with its steps exactly as they were before
    the pause, and hands the current step to the executor again.  The
    status of the workflow itself is not looked at by either. *)
Theorem pause_then_resume_restores_steps
    (st : gmap string Dict) (workflow_id : string) (w : Workflow.t)
    (s : WorkflowStep.t) (t1 t2 : Z) :
  WorkflowService.get_workflow st workflow_id = Ok (Some w) ->
  Workflow.id w = workflow_id ->
  Workflow.steps w !! Workflow.current_step w = Some s ->
  WorkflowStep.status s = "running" ->
  exists w1 st1 w2 st2,
    WorkflowService.control_workflow st workflow_id "pause" t1 = (Ok (Some w1), st1, None) /\
    Workflow.status w1 = "paused" /\
    Workflow.steps w1
      = <[Workflow.current_step w := WorkflowService.step_with_status "paused" s]>
          (Workflow.steps w) /\
    WorkflowService.get_workflow st1 workflow_id
      = Ok (Some (WorkflowService.reloaded w1)) /\
    WorkflowService.control_workflow st1 workflow_id "resume" t2
      = (Ok (Some w2), st2,
         Some (ExecuteWorkflowStep w2 (Workflow.current_step w))) /\
    Workflow.status w2 = "running" /\
    Workflow.current_step w2 = Workflow.current_step w /\
    Workflow.steps w2 = Workflow.steps w /\
    WorkflowService.get_workflow st2 workflow_id
      = Ok (Some (WorkflowService.reloaded w2)).
Proof.
  intros Hg Hid Hs Hrun.
  pose proof (lookup_lt_Some _ _ _ Hs) as Hlt.
  apply Nat.ltb_lt in Hlt.
  set (w1 := WorkflowService.update_step (Workflow.current_step w)
               (WorkflowService.step_with_status "paused")
               (WorkflowService.with_updated_at t1 (WorkflowService.with_status "paused" w))).
  set (w2 := WorkflowService.update_step (Workflow.current_step w)
               (WorkflowService.step_with_status "running")
               (WorkflowService.with_updated_at t2
                  (WorkflowService.with_status "running" (WorkflowService.reloaded w1)))).
  assert (Hp : WorkflowService._pause_workflow st w t1
               = (w1, WorkflowService.store w1 st, None)).
  { unfold WorkflowService._pause_workflow.
    cbn [WorkflowService.with_updated_at WorkflowService.with_status
         Workflow.current_step Workflow.steps].
    now rewrite Hlt. }
  assert (Hr : forall st', WorkflowService._resume_workflow st' (WorkflowService.reloaded w1) t2
               = (w2, WorkflowService.store w2 st',
                  Some (ExecuteWorkflowStep w2 (Workflow.current_step w)))).
  { intros st'. unfold WorkflowService._resume_workflow.
    cbn [WorkflowService.with_updated_at WorkflowService.with_status
         WorkflowService.reloaded w1 WorkflowService.update_step
         WorkflowService.with_steps Workflow.current_step Workflow.steps].
    rewrite length_alter, Hlt. reflexivity. }
  assert (Hg1 : WorkflowService.get_workflow (WorkflowService.store w1 st) workflow_id
                = Ok (Some (WorkflowService.reloaded w1))).
  { unfold WorkflowService.store. change (Workflow.id w1) with (Workflow.id w).
    rewrite Hid. apply WorkflowFacts.get_workflow_insert. }
  exists w1, (WorkflowService.store w1 st), w2,
    (WorkflowService.store w2 (WorkflowService.store w1 st)).
  split_and!.
  - unfold WorkflowService.control_workflow. rewrite Hg.
    change (String.eqb "pause" "start") with false.
    change (String.eqb "pause" "pause") with true. cbv iota. now rewrite Hp.
  - reflexivity.
  - cbn [w1 WorkflowService.update_step WorkflowService.with_steps
         WorkflowService.with_updated_at WorkflowService.with_status Workflow.steps].
    apply list_eq. intros j.
    destruct (decide (j = Workflow.current_step w)) as [->|Hne].
    + rewrite list_lookup_alter_eq, Hs, list_lookup_insert_eq;
        [reflexivity|now apply Nat.ltb_lt].
    + now rewrite list_lookup_alter_ne, list_lookup_insert_ne.
  - exact Hg1.
  - unfold WorkflowService.control_workflow. rewrite Hg1.
    change (String.eqb "resume" "start") with false.
    change (String.eqb "resume" "pause") with false.
    change (String.eqb "resume" "resume") with true. cbv iota. now rewrite Hr.
  - reflexivity.
  - reflexivity.
  - cbn [w2 w1 WorkflowService.update_step WorkflowService.with_steps
         WorkflowService.with_updated_at WorkflowService.with_status
         WorkflowService.reloaded Workflow.steps Workflow.current_step].
    now apply PauseFacts.alter_twice with (s := s).
  - unfold WorkflowService.store at 1. change (Workflow.id w2) with (Workflow.id w).
    rewrite Hid. apply WorkflowFacts.get_workflow_insert.
Qed.

Lemma pause_then_resume_restores_steps_witness :
  WorkflowService.get_workflow store_abc "w2"
    = Ok (Some (WorkflowService.reloaded workflow_abc)) /\
  exists w1 st1 w2 st2,
    WorkflowService.control_workflow store_abc "w2" "pause" 8 = (Ok (Some w1), st1, None) /\
    WorkflowService.control_workflow st1 "w2" "resume" 9
      = (Ok (Some w2), st2, Some (ExecuteWorkflowStep w2 1)) /\
    Workflow.steps w2 = [step_A; step_B; step_C].
Proof.
  assert (Hg : WorkflowService.get_workflow store_abc "w2"
               = Ok (Some (WorkflowService.reloaded workflow_abc)))
    by (vm_compute; reflexivity).
  split; [exact Hg|].
  destruct (pause_then_resume_restores_steps store_abc "w2"
              (WorkflowService.reloaded workflow_abc) step_B 8 9 Hg eq_refl eq_refl eq_refl)
    as (w1 & st1 & w2 & st2 & Hp & _ & _ & _ & Hr & _ & _ & Hsteps & _).
  exists w1, st1, w2, st2. split; [exact Hp|]. split; [exact Hr|exact Hsteps].
Defined.

(** The outcome of the driver, shared by the two theorems below. *)
Lemma execute_workflow_outcome
    (C : WorkflowService.Collaborators) (st : gmap string Dict) (w : Workflow.t)
    (clock : nat -> Z * Z) (t_final : Z) :
  Workflow.status w = "running" ->
  let w' := fst (WorkflowService._execute_workflow C st w clock t_final) in
  let st' := snd (WorkflowService._execute_workflow C st w clock t_final) in
  Workflow.id w' = Workflow.id w /\
  length (Workflow.steps w') = length (Workflow.steps w) /\
  st' !! Workflow.id w = Some (Workflow.to_dict w') /\
  ((Workflow.status w' = "completed" /\
    Workflow.updated_at w' = t_final /\
    forall j s, Workflow.steps w' !! j = Some s ->
                WorkflowStep.status s = "completed" /\ WorkflowStep.progress s = 100) \/
   (Workflow.status w' = "error" /\
    exists e s,
      Workflow.current_step w' = e /\
      Workflow.steps w' !! e = Some s /\
      WorkflowStep.status s = "error" /\
      (forall j s', (j < e)%nat -> Workflow.steps w' !! j = Some s' ->
                    WorkflowStep.status s' = "completed" /\
                    WorkflowStep.progress s' = 100) /\
      (forall j, (e < j)%nat -> Workflow.steps w' !! j = Workflow.steps w !! j))).
Proof.
  intros Hrun w' st'. subst w' st'. unfold WorkflowService._execute_workflow.
  destruct (DriverFacts.execute_steps_outcome C clock (length (Workflow.steps w)) 0 w st
              Hrun eq_refl) as (Hid & Hlen & _ & Hcase & Hstore & Hnil).
  destruct (WorkflowService.execute_steps C clock _ w st) as [w1 st1].
  cbn [fst snd] in Hid, Hlen, Hcase, Hstore, Hnil.
  destruct Hcase as [[Hr Hall]|[Hr (e & se & He & Hce & Hse & Hes & Hbefore & Hafter)]].
  - rewrite Hr. change (String.eqb "running" "running") with true. cbv iota.
    cbn [fst snd WorkflowService.with_updated_at WorkflowService.with_status
         Workflow.id Workflow.steps Workflow.status Workflow.updated_at].
    split_and!; try assumption.
    + unfold WorkflowService.store.
      cbn [WorkflowService.with_updated_at WorkflowService.with_status Workflow.id].
      rewrite Hid. apply lookup_insert_eq.
    + left. split; [reflexivity|]. split; [reflexivity|].
      intros j s Hs. apply (Hall j s); [lia|exact Hs].
  - rewrite Hr. change (String.eqb "error" "running") with false. cbv iota.
    cbn [fst snd]. split_and!; try assumption.
    + apply Hstore. apply lookup_lt_Some in Hse. lia.
    + right. split; [exact Hr|]. exists e, se. split_and!; try assumption.
      intros j s' Hj. apply Hbefore. lia.
Qed.

(** X16.  The driver of a started workflow.  [_execute_workflow] on a
    'running' workflow runs the steps in order from the first one.  It
    ends either with the workflow 'completed' and every step 'completed'
    at progress 100, or with the workflow 'error', [current_step] at the
    first step whose handler raised, that step 'error', the steps before
    it 'completed' at progress 100 and the steps after it exactly as they
    were.  In both cases the entry stored under the id of the workflow is
    that final state. *)
Theorem driver_runs_steps_until_one_fails
    (C : WorkflowService.Collaborators) (st : gmap string Dict) (w : Workflow.t)
    (clock : nat -> Z * Z) (t_final : Z) :
  Workflow.status w = "running" ->
  let w' := fst (WorkflowService._execute_workflow C st w clock t_final) in
  let st' := snd (WorkflowService._execute_workflow C st w clock t_final) in
  Workflow.id w' = Workflow.id w /\
  length (Workflow.steps w') = length (Workflow.steps w) /\
  st' !! Workflow.id w = Some (Workflow.to_dict w') /\
  ((Workflow.status w' = "completed" /\
    Workflow.updated_at w' = t_final /\
    forall j s, Workflow.steps w' !! j = Some s ->
                WorkflowStep.status s = "completed" /\ WorkflowStep.progress s = 100) \/
   (Workflow.status w' = "error" /\
    exists e s,
      Workflow.current_step w' = e /\
      Workflow.steps w' !! e = Some s /\
      WorkflowStep.status s = "error" /\
      (forall j s', (j < e)%nat -> Workflow.steps w' !! j = Some s' ->
                    WorkflowStep.status s' = "completed" /\
                    WorkflowStep.progress s' = 100) /\
      (forall j, (e < j)%nat -> Workflow.steps w' !! j = Workflow.steps w !! j))).
Proof. apply execute_workflow_outcome. Qed.

Lemma driver_runs_steps_until_one_fails_witness :
  exists w,
    snd (WorkflowService.control_workflow store_w1 "w1" "start" 6)
      = Some (ExecuteWorkflow w) /\
    Workflow.status w = "running" /\
    length (Workflow.steps (fst (WorkflowService._execute_workflow quiet store_w1 w
                                   (fun i => (10, 20)) 30))) = 5%nat.
Proof.
  assert (Ht : exists w,
             snd (WorkflowService.control_workflow store_w1 "w1" "start" 6)
               = Some (ExecuteWorkflow w) /\
             Workflow.status w = "running" /\
             length (Workflow.steps w) = 5%nat).
  { eexists. split; [vm_compute; reflexivity|]. split; reflexivity. }
  destruct Ht as (w & Ht & Hrun & Hlen). exists w.
  split; [exact Ht|]. split; [exact Hrun|].
  destruct (driver_runs_steps_until_one_fails quiet store_w1 w (fun i => (10, 20)) 30 Hrun)
    as (_ & Hl & _).
  now rewrite Hl.
Defined.

(** X17.  A spawned task never reads the store.  Run from the workflow
    object it holds, a task ends with the same object whatever the store
    contains, and a task that runs a step writes that object over the
    entry of the workflow; so a 'paused' or 'error' status that another
    request has stored for the workflow is neither seen by the task nor
    kept.  What another request does change in the object of a task is a
    result dictionary the two share: when [modify_step] has merged
    modifications into the result of step [j] since the task was spawned,
    the executor of another step [i] finds the merged result in its own
    object, keeps it, and writes it back with the rest. *)
Theorem spawned_task_ignores_the_store
    (C : WorkflowService.Collaborators) (st st' : gmap string Dict) (task : Task)
    (clock : nat -> Z * Z) (t_final : Z) :
  fst (WorkflowService.run_task C st task clock t_final)
    = fst (WorkflowService.run_task C st' task clock t_final) /\
  (match task with
   | ExecuteWorkflow w => Workflow.status w = "running"
   | ExecuteWorkflowStep w i => (i < length (Workflow.steps w))%nat
   end ->
   snd (WorkflowService.run_task C st task clock t_final) !! Workflow.id (task_workflow task)
     = Some (Workflow.to_dict (fst (WorkflowService.run_task C st' task clock t_final)))) /\
  (forall (w : Workflow.t) (i j : nat) (modifications : Dict) (s : WorkflowStep.t) (r : Dict),
     task = ExecuteWorkflowStep (WorkflowService.shared_update j modifications w) i ->
     j <> i ->
     (i < length (Workflow.steps w))%nat ->
     Workflow.steps w !! j = Some s ->
     WorkflowStep.result s = VDict r ->
     exists s' stored,
       Workflow.steps (fst (WorkflowService.run_task C st task clock t_final)) !! j
         = Some s' /\
       WorkflowStep.result s' = VDict (dict_update r modifications) /\
       WorkflowStep.status s' = WorkflowStep.status s /\
       WorkflowService.get_workflow
         (snd (WorkflowService.run_task C st task clock t_final)) (Workflow.id w)
         = Ok (Some stored) /\
       Workflow.steps stored !! j = Some s').
Proof.
  assert (Hind : forall st1 st2,
            fst (WorkflowService.run_task C st1 task clock t_final)
            = fst (WorkflowService.run_task C st2 task clock t_final)).
  { intros st1 st2. destruct task as [w|w i]; cbn [WorkflowService.run_task].
    - unfold WorkflowService._execute_workflow.
      pose proof (DriverFacts.execute_steps_independent C clock
                    (seq 0 (length (Workflow.steps w))) w st1 st2) as H.
      destruct (WorkflowService.execute_steps C clock _ w st1) as [w1 s1].
      destruct (WorkflowService.execute_steps C clock _ w st2) as [w2 s2].
      cbn [fst] in H. subst w2.
      destruct (String.eqb (Workflow.status w1) "running"); reflexivity.
    - apply DriverFacts.execute_step_independent. }
  split; [apply Hind|]. split.
  - rewrite <- (Hind st st').
    destruct task as [w|w i]; cbn [WorkflowService.run_task task_workflow].
    + intros Hrun.
      exact (proj1 (proj2 (proj2
               (execute_workflow_outcome C st w clock t_final Hrun)))).
    + intros Hi. destruct (lookup_lt_is_Some_2 _ _ Hi) as [s Hs].
      exact (proj2 (proj2 (proj2 (proj2 (proj2
               (DriverFacts.execute_step_frame C st w i (fst (clock i)) (snd (clock i)) s
                  Hs)))))).
  - intros w i j modifications s r -> Hji Hi Hs Hr.
    cbn [WorkflowService.run_task].
    set (w1 := WorkflowService.shared_update j modifications w).
    assert (Hi1 : (i < length (Workflow.steps w1))%nat)
      by (subst w1; cbn; now rewrite length_alter).
    destruct (lookup_lt_is_Some_2 _ _ Hi1) as [si Hsi].
    destruct (DriverFacts.execute_step_frame C st w1 i (fst (clock i)) (snd (clock i)) si Hsi)
      as (Hid & _ & _ & Hother & _ & Hstore).
    assert (Hj : Workflow.steps w1 !! j
                 = Some (WorkflowService.step_with_result
                           (VDict (dict_update r modifications)) s)).
    { subst w1. cbn. rewrite list_lookup_alter_eq, Hs. cbn. now rewrite Hr. }
    eexists _, _. split; [rewrite Hother by exact Hji; exact Hj|].
    split; [reflexivity|]. split; [reflexivity|].
    assert (Hidw : Workflow.id w1 = Workflow.id w) by reflexivity.
    rewrite Hidw in Hstore. unfold WorkflowService.get_workflow.
    rewrite Hstore, WorkflowFacts.dict_to_workflow_to_dict. split; [reflexivity|].
    cbn [WorkflowService.reloaded Workflow.steps].
    rewrite Hother by exact Hji. exact Hj.
Qed.

Lemma spawned_task_ignores_the_store_witness :
  (exists w,
     snd (WorkflowService.control_workflow store_w1 "w1" "start" 6)
       = Some (ExecuteWorkflow w) /\
     Workflow.status w = "running" /\
     let started := snd (fst (WorkflowService.control_workflow store_w1 "w1" "start" 6)) in
     let paused := snd (fst (WorkflowService.control_workflow started "w1" "pause" 7)) in
     snd (WorkflowService.run_task quiet paused (ExecuteWorkflow w) (fun i => (10, 20)) 30)
       !! Workflow.id w
     = Some (Workflow.to_dict
               (fst (WorkflowService.run_task quiet started (ExecuteWorkflow w)
                       (fun i => (10, 20)) 30)))) /\
  (exists s',
     Workflow.steps
       (fst (WorkflowService.run_task quiet store_done
               (ExecuteWorkflowStep
                  (WorkflowService.shared_update 0 [("tone", VStr "formal")] workflow_done_next)
                  1)
               (fun i => (10, 20)) 30)) !! 0%nat = Some s' /\
     WorkflowStep.result s'
       = VDict [("summary", VStr "draft"); ("tone", VStr "formal")]).
Proof.
  split.
  - assert (Ht : exists w,
               snd (WorkflowService.control_workflow store_w1 "w1" "start" 6)
                 = Some (ExecuteWorkflow w) /\
               Workflow.status w = "running").
    { eexists. split; [vm_compute; reflexivity|reflexivity]. }
    destruct Ht as (w & Ht & Hrun). exists w.
    split; [exact Ht|]. split; [exact Hrun|].
    intros started paused.
    exact (proj1 (proj2 (spawned_task_ignores_the_store quiet paused started
                           (ExecuteWorkflow w) (fun i => (10, 20)) 30)) Hrun).
  - destruct (proj2 (proj2 (spawned_task_ignores_the_store quiet store_done store_done
                              (ExecuteWorkflowStep
                                 (WorkflowService.shared_update 0 [("tone", VStr "formal")]
                                    workflow_done_next) 1)
                              (fun i => (10, 20)) 30))
                workflow_done_next 1%nat 0%nat [("tone", VStr "formal")] step_A_done
                [("summary", VStr "draft"); ("tone", VStr "plain")]
                eq_refl ltac:(discriminate) ltac:(cbn; lia) eq_refl eq_refl)
      as (s' & stored & Hs' & Hr & _).
    exists s'. split; [exact Hs'|]. rewrite Hr. reflexivity.
Defined.

Module CreateFacts.

Import WorkflowService.

(** The eight step lists [_create_dynamic_workflow_steps] can build. *)
Lemma dynamic_steps_cases (analysis_result : Dict) (steps : list WorkflowStep.t) :
  _create_dynamic_workflow_steps analysis_result = Ok steps ->
  exists p k l : bool,
    steps
    = fst (add_step "Final Approval" "Final review and approval"
        (add_step "Review & Validation" "Review document for accuracy and compliance"
          (add_step "Document Generation"
             "Generate the document based on collected information"
            ((fun a => if l then add_step "Legal Requirements"
                                   "Identify and verify legal requirements" a else a)
              ((fun a => if k then add_step "Key Terms Definition"
                                     "Define key terms and conditions" a else a)
                ((fun a => if p then add_step "Party Information"
                                       "Define parties involved in the document" a else a)
                  (add_step "Information Gathering"
                     "Collect and organize required information from conversation"
                     ([], 1%nat)))))))).
Proof.
  unfold _create_dynamic_workflow_steps.
  destruct (get_dict_or_empty "extracted_info" analysis_result) as [ei|e]; [|discriminate].
  cbn [bind]. intros [= <-].
  exists (lacks "parties_involved" ei), (lacks "key_terms" ei),
    (lacks "legal_requirements" ei).
  reflexivity.
Qed.

Lemma generic_steps_pending :
  Forall (fun s => WorkflowStep.status s = "pending") generic_steps.
Proof. repeat constructor. Qed.

Lemma dynamic_steps_pending analysis_result steps :
  _create_dynamic_workflow_steps analysis_result = Ok steps ->
  Forall (fun s => WorkflowStep.status s = "pending") steps /\
  (4 <= length steps <= 7)%nat.
Proof.
  intros (p & k & l & ->)%dynamic_steps_cases.
  destruct p, k, l; (split; [repeat constructor|cbn; lia]).
Qed.

Section Create.

Variable C : Collaborators.

(** What [create_workflow_from_chat] returns when it returns. *)
Lemma created_workflow st user_id chat_id workflow_id now w st1 :
  create_workflow_from_chat C st user_id chat_id workflow_id now = (Ok w, st1) ->
  exists name description steps,
    w = new_workflow workflow_id name description user_id (Some chat_id) steps now /\
    st1 = <[workflow_id := Workflow.to_dict w]> st /\
    Forall (fun s => WorkflowStep.status s = "pending") steps /\
    (4 <= length steps <= 7)%nat.
Proof.
  unfold create_workflow_from_chat.
  destruct (truthy _).
  - destruct (match dict_get "document_type" _ with Some v => v | None => _ end);
      try discriminate.
    destruct (_create_dynamic_workflow_steps _) as [steps|e] eqn:Hsteps; [|discriminate].
    cbn [bind]. intros [= <- <-].
    destruct (dynamic_steps_pending _ _ Hsteps) as [Hp Hl].
    eexists _, _, steps. split; [reflexivity|]. split; [reflexivity|]. split; assumption.
  - intros [= <- <-].
    eexists _, _, generic_steps. split; [reflexivity|]. split; [reflexivity|].
    split; [apply generic_steps_pending|cbn; lia].
Qed.

Lemma create_failure_keeps_store st user_id chat_id workflow_id now e st1 :
  create_workflow_from_chat C st user_id chat_id workflow_id now = (Raise e, st1) ->
  st1 = st.
Proof.
  unfold create_workflow_from_chat.
  destruct (truthy _).
  - destruct (match dict_get "document_type" _ with Some v => v | None => _ end);
      try (now intros [= <- <-]).
    destruct (_create_dynamic_workflow_steps _) as [steps|e']; cbn [bind];
      [discriminate|now intros [= <- <-]].
  - discriminate.
Qed.

End Create.

End CreateFacts.

(** X18.  The steps [_create_dynamic_workflow_steps] builds: between four
    and seven, all pending, with the ids 'step_1', 'step_2', ... in order
    and without a gap whichever of the optional steps are present;
    'Information Gathering' comes first and 'Document Generation',
    'Review & Validation', 'Final Approval' come last.  None of the names
    is one of the five that [_execute_workflow_step] gives to a named
    handler, and each is recognised by the dispatch of
    [_execute_dynamic_step]. *)
Theorem dynamic_steps_are_numbered_without_gap
    (analysis_result : Dict) (steps : list WorkflowStep.t) :
  WorkflowService._create_dynamic_workflow_steps analysis_result = Ok steps ->
  (4 <= length steps <= 7)%nat /\
  map WorkflowStep.id steps
    = map (fun i => WorkflowService.step_name_of (S i)) (seq 0 (length steps)) /\
  Forall (fun s => s = WorkflowStep.init (WorkflowStep.id s) (WorkflowStep.name s)
                         (WorkflowStep.description s)) steps /\
  (exists optional,
     map WorkflowStep.name steps
     = ("Information Gathering" :: optional
        ++ ["Document Generation"; "Review & Validation"; "Final Approval"])%list) /\
  Forall (fun s =>
            let n := str_lower (WorkflowStep.name s) in
            n <> "research" /\ n <> "extraction" /\ n <> "drafting" /\
            n <> "validation" /\ n <> "review" /\
            WorkflowService.dynamic_kind n <> GenericStep) steps.
Proof.
  intros (p & k & l & ->)%CreateFacts.dynamic_steps_cases.
  destruct p, k, l; cbn [WorkflowService.add_step fst snd List.app];
    (split; [cbn; lia|]); (split; [reflexivity|]);
    (split; [repeat (apply List.Forall_cons; [reflexivity|]); apply List.Forall_nil|]);
    (split;
       [first [ exists ["Party Information"; "Key Terms Definition"; "Legal Requirements"];
                reflexivity
              | exists ["Party Information"; "Key Terms Definition"]; reflexivity
              | exists ["Party Information"; "Legal Requirements"]; reflexivity
              | exists ["Key Terms Definition"; "Legal Requirements"]; reflexivity
              | exists ["Party Information"]; reflexivity
              | exists ["Key Terms Definition"]; reflexivity
              | exists ["Legal Requirements"]; reflexivity
              | exists []; reflexivity ]|]);
    repeat (apply List.Forall_cons; [vm_compute; repeat split; discriminate|]);
    apply List.Forall_nil.
Qed.

Lemma dynamic_steps_are_numbered_without_gap_witness :
  exists steps,
    WorkflowService._create_dynamic_workflow_steps
      [("extracted_info", VDict [("key_terms", VStr "rent")])] = Ok steps /\
    map WorkflowStep.id steps
      = ["step_1"; "step_2"; "step_3"; "step_4"; "step_5"; "step_6"].
Proof.
  assert (H : exists steps,
            WorkflowService._create_dynamic_workflow_steps
              [("extracted_info", VDict [("key_terms", VStr "rent")])] = Ok steps /\
            length steps = 6%nat)
    by (eexists; split; vm_compute; reflexivity).
  destruct H as (steps & Hs & Hl). exists steps. split; [exact Hs|].
  destruct (dynamic_steps_are_numbered_without_gap _ steps Hs) as (_ & Hids & _).
  rewrite Hids, Hl. reflexivity.
Defined.

(** X19.  A workflow returned by [create_workflow_from_chat] is idle at
    step 0, belongs to the caller and remembers the chat, has between four
    and seven steps, all pending, and an estimated duration of three
    minutes per step; it is stored under its id, from where it reloads
    without owner and chat.  When the call raises instead (the analyzer
    reported a document type that is not a string) the store is left as it
    was. *)
Theorem created_workflow_is_idle_and_stored
    (C : WorkflowService.Collaborators) (st st1 : gmap string Dict)
    (user_id chat_id workflow_id : string) (now : Z) :
  (forall w,
     WorkflowService.create_workflow_from_chat C st user_id chat_id workflow_id now
       = (Ok w, st1) ->
     Workflow.id w = workflow_id /\
     Workflow.user_id w = user_id /\
     Workflow.chat_id w = Some chat_id /\
     Workflow.status w = "idle" /\
     Workflow.current_step w = 0%nat /\
     (4 <= length (Workflow.steps w) <= 7)%nat /\
     Forall (fun s => WorkflowStep.status s = "pending") (Workflow.steps w) /\
     Workflow.estimated_duration w = 3 * Z.of_nat (length (Workflow.steps w)) /\
     WorkflowService.get_workflow st1 workflow_id
       = Ok (Some (WorkflowService.reloaded w)) /\
     (forall other, other <> workflow_id -> st1 !! other = st !! other)) /\
  (forall e,
     WorkflowService.create_workflow_from_chat C st user_id chat_id workflow_id now
       = (Raise e, st1) ->
     st1 = st).
Proof.
  split.
  - intros w (name & description & steps & -> & -> & Hp & Hl)%CreateFacts.created_workflow.
    cbn [WorkflowService.new_workflow Workflow.id Workflow.user_id Workflow.chat_id
         Workflow.status Workflow.current_step Workflow.steps Workflow.estimated_duration].
    split_and!; try reflexivity; try assumption; try lia.
    + apply WorkflowFacts.get_workflow_insert.
    + intros other Hne. now rewrite lookup_insert_ne.
  - intros e. apply CreateFacts.create_failure_keeps_store.
Qed.

Lemma created_workflow_is_idle_and_stored_witness :
  exists w,
    WorkflowService.create_workflow_from_chat quiet ∅ "alice" "chat1" "w1" 5
      = (Ok w, store_w1) /\
    Workflow.status w = "idle" /\
    Workflow.estimated_duration w = 3 * Z.of_nat (length (Workflow.steps w)).
Proof.
  assert (H : exists w,
            WorkflowService.create_workflow_from_chat quiet ∅ "alice" "chat1" "w1" 5
              = (Ok w, store_w1)) by (eexists; reflexivity).
  destruct H as [w Hw]. exists w. split; [exact Hw|].
  destruct (proj1 (created_workflow_is_idle_and_stored quiet ∅ store_w1 "alice" "chat1"
                     "w1" 5) w Hw) as (_ & _ & _ & Hs & _ & _ & _ & Hd & _).
  split; [exact Hs|exact Hd].
Defined.

(** ** The workflow endpoints *)

Module EndpointFacts.

Import WorkflowEndpoints.

(** An authenticated caller has a non-empty id, which no reloaded
    workflow has as its owner. *)
Lemma caller_is_not_owner user_id w :
  no_user user_id = false -> not_owner (WorkflowService.reloaded w) user_id = true.
Proof. destruct user_id as [[|c r]|]; [discriminate|reflexivity|discriminate]. Qed.

Lemma caller_has_name user_id : no_user user_id = false -> the_user user_id <> "".
Proof. destruct user_id as [[|c r]|]; [discriminate|discriminate|discriminate]. Qed.

(** The three tests let nobody through. *)
Lemma authorize_refuses st workflow_id user_id failure :
  WorkflowService.stored_by_to_dict st ->
  no_user user_id = false ->
  authorize st workflow_id user_id failure
  = inl (match st !! workflow_id with
         | Some _ => HTTPException 403 "Access denied"
         | None => HTTPException 404 "Workflow not found"
         end).
Proof.
  intros Hst Hu. unfold authorize, WorkflowService.get_workflow.
  destruct (st !! workflow_id) as [x|] eqn:Hx; [|reflexivity].
  destruct (Hst _ _ Hx) as (w & ->).
  rewrite WorkflowFacts.dict_to_workflow_to_dict. cbn [bind].
  now rewrite caller_is_not_owner.
Qed.

Section Handlers.

Variable C : WorkflowService.Collaborators.

(** No handler of a stored workflow changes the store or spawns a task. *)
Lemma handlers_keep_store st :
  WorkflowService.stored_by_to_dict st ->
  (forall workflow_id action user_id now,
     snd (fst (control_workflow st workflow_id action user_id now)) = st /\
     snd (control_workflow st workflow_id action user_id now) = None) /\
  (forall workflow_id step_id user_id now,
     snd (fst (approve_step st workflow_id step_id user_id now)) = st /\
     snd (approve_step st workflow_id step_id user_id now) = None) /\
  (forall workflow_id step_id mods user_id now,
     snd (modify_step st workflow_id step_id mods user_id now) = st) /\
  (forall workflow_id user_id, snd (delete_workflow st workflow_id user_id) = st) /\
  (forall dst workflow_id user_id draft_id now,
     snd (fst (create_draft_from_workflow C st dst workflow_id user_id draft_id now)) = st).
Proof.
  intros Hst. split_and!.
  - intros workflow_id action user_id now. unfold control_workflow.
    destruct (no_user user_id) eqn:Hu; [split; reflexivity|].
    destruct action as [a|]; [|split; reflexivity].
    destruct (_ || _); [|split; reflexivity].
    rewrite authorize_refuses by assumption. split; reflexivity.
  - intros workflow_id step_id user_id now. unfold approve_step.
    destruct (no_user user_id) eqn:Hu; [split; reflexivity|].
    rewrite authorize_refuses by assumption. split; reflexivity.
  - intros workflow_id step_id mods user_id now. unfold modify_step.
    destruct (no_user user_id) eqn:Hu; [reflexivity|].
    rewrite authorize_refuses by assumption. reflexivity.
  - intros workflow_id user_id. unfold delete_workflow.
    destruct (no_user user_id) eqn:Hu; [reflexivity|].
    rewrite authorize_refuses by assumption. reflexivity.
  - intros dst workflow_id user_id draft_id now. unfold create_draft_from_workflow.
    destruct (no_user user_id) eqn:Hu; [reflexivity|].
    unfold WorkflowService.create_draft_from_workflow, WorkflowService.get_workflow.
    destruct (st !! workflow_id) as [x|] eqn:Hx; [|reflexivity].
    destruct (Hst _ _ Hx) as (w & ->).
    rewrite WorkflowFacts.dict_to_workflow_to_dict. cbn [bind].
    change (Workflow.user_id (WorkflowService.reloaded w)) with "".
    rewrite eqb_neq_neg; [reflexivity|].
    intros H. now apply (caller_has_name user_id Hu).
Qed.

Lemma untouched_stored st : all_untouched st -> WorkflowService.stored_by_to_dict st.
Proof. intros H k x Hx. destruct (H k x Hx) as (w & -> & _). eauto. Qed.

Lemma create_untouched st chat_id user_id workflow_id now :
  all_untouched st ->
  all_untouched (snd (create_workflow_from_chat C st chat_id user_id workflow_id now)).
Proof.
  intros Hst. unfold create_workflow_from_chat.
  destruct (no_user user_id); [exact Hst|].
  destruct chat_id as [[|c r]|]; [exact Hst| |exact Hst].
  destruct (WorkflowService.create_workflow_from_chat C st _ _ _ _) as [[w|e] st1] eqn:Hc;
    cbn [snd].
  - apply CreateFacts.created_workflow in Hc
      as (name & description & steps & -> & -> & Hp & _).
    intros k x. rewrite lookup_insert. case_decide.
    + intros [= <-]. eexists. split; [reflexivity|].
      split; [reflexivity|]. split; [reflexivity|]. split; [reflexivity|exact Hp].
    + apply Hst.
  - apply CreateFacts.create_failure_keeps_store in Hc. now subst st1.
Qed.

Lemma reachable_untouched st : reachable C st -> all_untouched st.
Proof.
  induction 1 as [|st c u wid now _ IH|st wid a u now _ IH|st wid sid u now _ IH
                  |st wid sid m u now _ IH|st wid u _ IH|st dst wid u did now _ IH
                  |st0 st wid a u now task clock tf _ IH0 Ht _ IH
                  |st0 st wid sid u now task clock tf _ IH0 Ht _ IH].
  - intros k x Hx. now rewrite lookup_empty in Hx.
  - now apply create_untouched.
  - destruct (handlers_keep_store st (untouched_stored _ IH)) as (Hc & _).
    now rewrite (proj1 (Hc wid a u now)).
  - destruct (handlers_keep_store st (untouched_stored _ IH)) as (_ & Ha & _).
    now rewrite (proj1 (Ha wid sid u now)).
  - destruct (handlers_keep_store st (untouched_stored _ IH)) as (_ & _ & Hm & _).
    now rewrite (Hm wid sid m u now).
  - destruct (handlers_keep_store st (untouched_stored _ IH)) as (_ & _ & _ & Hd & _).
    now rewrite (Hd wid u).
  - destruct (handlers_keep_store st (untouched_stored _ IH)) as (_ & _ & _ & _ & Hd).
    now rewrite (Hd dst wid u did now).
  - destruct (handlers_keep_store st0 (untouched_stored _ IH0)) as (Hc & _).
    rewrite (proj2 (Hc wid a u now)) in Ht. discriminate.
  - destruct (handlers_keep_store st0 (untouched_stored _ IH0)) as (_ & Ha & _).
    rewrite (proj2 (Ha wid sid u now)) in Ht. discriminate.
Qed.

End Handlers.

End EndpointFacts.

(** X20.  The workflow handlers let nobody through.  In every store the
    service can reach and for every caller with a non-empty id, the
    handlers of one workflow -- get, control (with a valid action),
    approve step, modify step, export (with a valid format) and delete --
    answer 403 'Access denied' when the id is stored and 404 when it is
    not; create-draft answers 404; the listing answers an empty list.
    None of them changes the store or spawns a task. *)
Theorem workflow_handlers_refuse_every_caller
    (C : WorkflowService.Collaborators) (st : gmap string Dict)
    (workflow_id : string) (user_id : option string) :
  WorkflowService.reachable C st ->
  no_user user_id = false ->
  let refusal :=
    match st !! workflow_id with
    | Some _ => HTTPException 403 "Access denied"
    | None => HTTPException 404 "Workflow not found"
    end in
  WorkflowEndpoints.get_workflow st workflow_id user_id = refusal /\
  (forall action now,
     In action ["start"; "pause"; "resume"; "stop"] ->
     WorkflowEndpoints.control_workflow st workflow_id (Some action) user_id now
       = (refusal, st, None)) /\
  (forall step_id now,
     WorkflowEndpoints.approve_step st workflow_id step_id user_id now
       = (refusal, st, None)) /\
  (forall step_id modifications now,
     WorkflowEndpoints.modify_step st workflow_id step_id modifications user_id now
       = (refusal, st)) /\
  (forall format,
     In format ["json"; "pdf"; "docx"] ->
     WorkflowEndpoints.export_workflow C st workflow_id format user_id = refusal) /\
  WorkflowEndpoints.delete_workflow st workflow_id user_id = (refusal, st) /\
  (forall dst draft_id now,
     WorkflowEndpoints.create_draft_from_workflow C st dst workflow_id user_id draft_id now
       = (HTTPException 404 "Workflow not found or access denied",
          st, dst)) /\
  WorkflowEndpoints.get_workflows st user_id
    = Json [("success", VBool true); ("workflows", VList [])].
Proof.
  intros Hreach Hu refusal.
  pose proof (WorkflowFacts.reachable_stored C st Hreach) as Hst.
  pose proof (fun failure =>
                EndpointFacts.authorize_refuses st workflow_id user_id failure Hst Hu)
    as Hauth.
  fold refusal in Hauth.
  split_and!.
  - unfold WorkflowEndpoints.get_workflow. now rewrite Hu, Hauth.
  - intros action now Hin. unfold WorkflowEndpoints.control_workflow.
    rewrite Hu, Hauth.
    cbn in Hin. destruct Hin as [<-|[<-|[<-|[<-|[]]]]]; reflexivity.
  - intros step_id now. unfold WorkflowEndpoints.approve_step. now rewrite Hu, Hauth.
  - intros step_id modifications now. unfold WorkflowEndpoints.modify_step.
    now rewrite Hu, Hauth.
  - intros format Hin. unfold WorkflowEndpoints.export_workflow.
    rewrite Hu, Hauth.
    cbn in Hin. destruct Hin as [<-|[<-|[<-|[]]]]; reflexivity.
  - unfold WorkflowEndpoints.delete_workflow. now rewrite Hu, Hauth.
  - intros dst draft_id now. unfold WorkflowEndpoints.create_draft_from_workflow.
    rewrite Hu.
    unfold WorkflowService.create_draft_from_workflow, WorkflowService.get_workflow.
    destruct (st !! workflow_id) as [x|] eqn:Hx; [|reflexivity].
    destruct (Hst _ _ Hx) as (w & ->).
    rewrite WorkflowFacts.dict_to_workflow_to_dict. cbn [bind].
    change (Workflow.user_id (WorkflowService.reloaded w)) with "".
    rewrite eqb_neq_neg; [reflexivity|].
    intros H. now apply (EndpointFacts.caller_has_name user_id Hu).
  - unfold WorkflowEndpoints.get_workflows, WorkflowService.get_user_workflows.
    rewrite Hu, filter_none; [reflexivity|].
    apply Forall_forall. intros x Hx.
    apply list_elem_of_fmap in Hx as ([k y] & -> & Hky).
    apply elem_of_map_to_list in Hky. destruct (Hst _ _ Hky) as (w & ->).
    cbn. discriminate.
Qed.

Lemma workflow_handlers_refuse_every_caller_witness :
  WorkflowService.reachable quiet store_w1 /\
  no_user (Some "alice") = false /\
  WorkflowEndpoints.get_workflow store_w1 "w1" (Some "alice")
    = HTTPException 403 "Access denied" /\
  WorkflowEndpoints.control_workflow store_w1 "w1" (Some "start") (Some "alice") 6
    = (HTTPException 403 "Access denied", store_w1, None).
Proof.
  assert (Hr : WorkflowService.reachable quiet store_w1)
    by (apply WorkflowService.reach_create, WorkflowService.reach_start).
  split; [exact Hr|]. split; [reflexivity|].
  destruct (workflow_handlers_refuse_every_caller quiet store_w1 "w1" (Some "alice")
              Hr eq_refl) as (Hg & Hc & _).
  split.
  - rewrite Hg. reflexivity.
  - rewrite (Hc "start" 6) by (left; reflexivity). reflexivity.
Defined.

(** X21.  Through the handlers a workflow never leaves the state it was
    created in.  In every store that requests to the workflow handlers
    can produce, every stored workflow is still 'idle' at step 0, has no
    draft and has all its steps 'pending'; and no request to control or
    approve spawns an executor task. *)
Theorem workflows_stay_idle_behind_the_handlers
    (C : WorkflowService.Collaborators) (st : gmap string Dict) :
  WorkflowEndpoints.reachable C st ->
  (forall workflow_id w,
     WorkflowService.get_workflow st workflow_id = Ok (Some w) ->
     Workflow.status w = "idle" /\
     Workflow.current_step w = 0%nat /\
     Workflow.draft_id w = VNone /\
     Forall (fun s => WorkflowStep.status s = "pending") (Workflow.steps w)) /\
  (forall workflow_id action user_id now,
     snd (WorkflowEndpoints.control_workflow st workflow_id action user_id now) = None) /\
  (forall workflow_id step_id user_id now,
     snd (WorkflowEndpoints.approve_step st workflow_id step_id user_id now) = None).
Proof.
  intros Hreach. apply EndpointFacts.reachable_untouched in Hreach.
  pose proof (EndpointFacts.untouched_stored _ Hreach) as Hst.
  destruct (EndpointFacts.handlers_keep_store C st Hst) as (Hc & Ha & _).
  split_and!.
  - intros workflow_id w Hg. unfold WorkflowService.get_workflow in Hg.
    destruct (st !! workflow_id) as [x|] eqn:Hx; [|discriminate].
    destruct (Hreach _ _ Hx) as (w0 & -> & Hs & Hcur & Hd & Hp).
    rewrite WorkflowFacts.dict_to_workflow_to_dict in Hg. cbn in Hg.
    injection Hg as <-. cbn. auto.
  - intros workflow_id action user_id now. apply Hc.
  - intros workflow_id step_id user_id now. apply Ha.
Qed.

Lemma workflows_stay_idle_behind_the_handlers_witness :
  let st :=
    snd (WorkflowEndpoints.create_workflow_from_chat quiet ∅ (Some "chat1") (Some "alice")
           "w1" 5) in
  WorkflowEndpoints.reachable quiet st /\
  snd (WorkflowEndpoints.control_workflow st "w1" (Some "start") (Some "alice") 6) = None.
Proof.
  intros st.
  assert (Hr : WorkflowEndpoints.reachable quiet st)
    by (apply WorkflowEndpoints.reach_create, WorkflowEndpoints.reach_start).
  split; [exact Hr|].
  destruct (workflows_stay_idle_behind_the_handlers quiet st Hr) as (_ & Hc & _).
  apply Hc.
Defined.

(** ** The draft endpoints *)

(** X22.  What the draft handlers tell a caller about a draft of somebody
    else.  [get_draft] answers 403 'Access denied' for it and 404 for an
    id that is not stored, so it tells the two apart; approve, modify,
    delete, get-version and get-versions answer for it exactly what they
    answer for an id that is not stored, a 404, and leave the store as it
    was. *)
Theorem draft_handlers_and_foreign_drafts
    (st absent : gmap string Dict) (draft_id : string) (user_id : option string)
    (d : DocumentDraft.t) :
  DraftingService.get_draft st draft_id = Ok (Some d) ->
  no_user user_id = false ->
  DocumentDraft.user_id d <> the_user user_id ->
  absent !! draft_id = None ->
  DraftEndpoints.get_draft st draft_id user_id = HTTPException 403 "Access denied" /\
  DraftEndpoints.get_draft absent draft_id user_id = HTTPException 404 "Draft not found" /\
  (forall version_id feedback now,
     DraftEndpoints.approve_draft_version st draft_id version_id feedback user_id now
       = (HTTPException 404 "Draft or version not found, or version cannot be approved",
          st) /\
     DraftEndpoints.approve_draft_version absent draft_id version_id feedback user_id now
       = (HTTPException 404 "Draft or version not found, or version cannot be approved",
          absent)) /\
  (forall version_id modifications now,
     modifications <> [] ->
     DraftEndpoints.modify_draft_version st draft_id version_id modifications user_id now
       = (HTTPException 404 "Draft or version not found", st) /\
     DraftEndpoints.modify_draft_version absent draft_id version_id modifications user_id
       now = (HTTPException 404 "Draft or version not found", absent)) /\
  (DraftEndpoints.delete_draft st draft_id user_id
     = (HTTPException 404 "Draft not found or access denied", st) /\
   DraftEndpoints.delete_draft absent draft_id user_id
     = (HTTPException 404 "Draft not found or access denied", absent)) /\
  (forall version_id,
     DraftEndpoints.get_draft_version st draft_id version_id user_id
       = HTTPException 404 "Draft not found or access denied" /\
     DraftEndpoints.get_draft_version absent draft_id version_id user_id
       = HTTPException 404 "Draft not found or access denied") /\
  (DraftEndpoints.get_draft_versions st draft_id user_id
     = HTTPException 404 "Draft not found or access denied" /\
   DraftEndpoints.get_draft_versions absent draft_id user_id
     = HTTPException 404 "Draft not found or access denied").
Proof.
  intros Hget Hu Hown Habs.
  assert (Hnone : DraftingService.get_draft absent draft_id = Ok None)
    by (unfold DraftingService.get_draft; now rewrite Habs).
  pose proof (eqb_neq_neg _ _ Hown) as Hne.
  assert (Hno : DraftEndpoints.not_owner d user_id = true).
  { destruct user_id as [u|]; [exact Hne|reflexivity]. }
  unfold DraftEndpoints.get_draft, DraftEndpoints.approve_draft_version,
    DraftEndpoints.modify_draft_version, DraftEndpoints.delete_draft,
    DraftEndpoints.get_draft_version, DraftEndpoints.get_draft_versions,
    DraftingService.approve_draft_version, DraftingService.modify_draft_version,
    DraftingService.delete_draft.
  rewrite Hu, Hget, Hnone, Hno, Hne.
  split_and!; try reflexivity; try (intros; split; reflexivity).
  intros version_id modifications now Hm.
  destruct modifications; [congruence|]. split; reflexivity.
Qed.

Lemma draft_handlers_and_foreign_drafts_witness :
  DraftingService.get_draft store_d1 "d1" = Ok (Some draft_d1) /\
  DraftEndpoints.get_draft store_d1 "d1" (Some "bob") = HTTPException 403 "Access denied" /\
  DraftEndpoints.get_draft_versions store_d1 "d1" (Some "bob")
    = HTTPException 404 "Draft not found or access denied".
Proof.
  assert (Hget : DraftingService.get_draft store_d1 "d1" = Ok (Some draft_d1))
    by (vm_compute; reflexivity).
  assert (Hown : DocumentDraft.user_id draft_d1 <> the_user (Some "bob")) by discriminate.
  assert (Habs : (∅ : gmap string Dict) !! "d1" = None) by reflexivity.
  split; [exact Hget|].
  destruct (draft_handlers_and_foreign_drafts store_d1 ∅ "d1" (Some "bob") draft_d1
              Hget eq_refl Hown Habs) as (Hg & _ & _ & _ & _ & _ & Hv & _).
  split; [exact Hg|exact Hv].
Defined.

(** ** Schemas and forms *)

Module FormFacts.

Import DynamicSchemaLoader DynamicFormGenerator.

Lemma assoc_get_set {A} k k' (x : A) d :
  assoc_get k (assoc_set k' x d) = if String.eqb k k' then Some x else assoc_get k d.
Proof.
  induction d as [|[k0 x0] d IH]; cbn.
  - destruct (String.eqb k k'); reflexivity.
  - destruct (String.eqb k' k0) eqn:E0; cbn.
    + destruct (String.eqb k k') eqn:E; [reflexivity|].
      apply String.eqb_eq in E0. subst k0. now rewrite E.
    + rewrite IH. destruct (String.eqb k k0) eqn:E1; [|reflexivity].
      destruct (String.eqb k k') eqn:E; [|reflexivity].
      apply String.eqb_eq in E1, E. subst. now rewrite String.eqb_refl in E0.
Qed.

(** The fields of one category. *)
Lemma add_fields category info (fs0 : list Field) : forall fs sec,
  (forall n, n ∈ field_order fs <-> is_Some (assoc_get n (fields fs))) ->
  let r := fold_left (add_field category info) fs0 (fs, sec) in
  (forall n, n ∈ field_order (fst r) <-> is_Some (assoc_get n (fields (fst r)))) /\
  field_order (fst r) = (field_order fs ++ map (field_name_of category) fs0)%list /\
  snd r = (sec ++ map (field_name_of category) fs0)%list /\
  sections (fst r) = sections fs.
Proof.
  induction fs0 as [|f fs0 IH]; intros fs sec Hfs; cbn [fold_left map].
  - cbn [fst snd]. rewrite !app_nil_r. auto.
  - set (fs1 := fst (add_field category info (fs, sec) f)).
    set (sec1 := snd (add_field category info (fs, sec) f)).
    assert (H1 : forall n, n ∈ field_order fs1 <-> is_Some (assoc_get n (fields fs1))).
    { intros n. unfold fs1, add_field. cbn [fst snd fields field_order].
      rewrite elem_of_app, list_elem_of_singleton, assoc_get_set, Hfs.
      destruct (String.eqb n (field_name_of category f)) eqn:E.
      - apply String.eqb_eq in E. split; [eauto|auto].
      - apply String.eqb_neq in E. split; [intros [H|H]; [exact H|contradiction]|auto]. }
    destruct (IH fs1 sec1 H1) as (Hm & Ho & Hs & Hsec).
    replace (add_field category info (fs, sec) f) with (fs1, sec1) by reflexivity.
    split; [exact Hm|]. split; [|split].
    + rewrite Ho. unfold fs1, add_field. cbn [fst field_order].
      now rewrite <- app_assoc.
    + rewrite Hs. unfold sec1, add_field. cbn [snd]. now rewrite <- app_assoc.
    + rewrite Hsec. reflexivity.
Qed.

(** All categories. *)
Lemma add_sections info (fd : list (string * list Field)) : forall fs,
  (forall n, n ∈ field_order fs <-> is_Some (assoc_get n (fields fs))) ->
  concat (map snd (sections fs)) = field_order fs ->
  let r := fold_left (add_section info) fd fs in
  (forall n, n ∈ field_order r <-> is_Some (assoc_get n (fields r))) /\
  concat (map snd (sections r)) = field_order r /\
  field_order r
  = (field_order fs
     ++ concat (map (fun e => map (field_name_of (fst e)) (snd e)) fd))%list /\
  map fst (sections r)
  = (map fst (sections fs)
     ++ map (fun e => str_title (replace_underscore (fst e))) fd)%list.
Proof.
  induction fd as [|[category fs0] fd IH]; intros fs Hfs Hsec; cbn [fold_left map concat].
  - rewrite !app_nil_r. auto.
  - destruct (add_fields category info fs0 fs [] Hfs) as (Hm & Ho & Hs & Hsame).
    set (fs1 := add_section info fs (category, fs0)).
    assert (Hfields : fields fs1 = fields (fst (fold_left (add_field category info) fs0 (fs, [])))
                      /\ field_order fs1
                         = field_order (fst (fold_left (add_field category info) fs0 (fs, [])))
                      /\ sections fs1
                         = (sections fs
                            ++ [(str_title (replace_underscore category),
                                 map (field_name_of category) fs0)])%list).
    { unfold fs1, add_section. cbn [fst snd].
      destruct (fold_left (add_field category info) fs0 (fs, [])) as [fs' sec'] eqn:E.
      cbn [fst snd fields field_order sections] in *. subst sec'.
      rewrite Hsame. auto. }
    destruct Hfields as (Hf1 & Ho1 & Hs1).
    assert (H1 : forall n, n ∈ field_order fs1 <-> is_Some (assoc_get n (fields fs1)))
      by (intros n; rewrite Hf1, Ho1; apply Hm).
    assert (H2 : concat (map snd (sections fs1)) = field_order fs1).
    { rewrite Hs1, Ho1, Ho, map_app, concat_app, Hsec. cbn. now rewrite app_nil_r. }
    destruct (IH fs1 H1 H2) as (Hm' & Hc' & Ho' & Hn').
    split; [exact Hm'|]. split; [exact Hc'|]. split.
    + rewrite Ho', Ho1, Ho. cbn [fst snd]. now rewrite <- app_assoc.
    + rewrite Hn', Hs1, map_app. cbn [map fst snd]. now rewrite <- app_assoc.
Qed.

End FormFacts.

(** X23.  The form structure is consistent with the schema and with
    itself: [field_order] lists the names ([category_role]) of all fields
    of [field_discovery] in order; the field lists of the sections, one
    section per category, add up to [field_order]; a name is in
    [field_order] exactly when it has a configuration in [fields]; and
    every field reported missing is a field of the form. *)
Theorem form_structure_is_consistent
    (schema : DynamicSchemaLoader.Schema) (info : gmap string Value) :
  let fs := DynamicFormGenerator._generate_form_structure schema info in
  DynamicFormGenerator.field_order fs
    = concat (map (fun e => map (DynamicFormGenerator.field_name_of (fst e)) (snd e))
                (DynamicSchemaLoader.field_discovery schema)) /\
  concat (map snd (DynamicFormGenerator.sections fs)) = DynamicFormGenerator.field_order fs /\
  map fst (DynamicFormGenerator.sections fs)
    = map (fun e => str_title (replace_underscore (fst e)))
        (DynamicSchemaLoader.field_discovery schema) /\
  (forall n, n ∈ DynamicFormGenerator.field_order fs
             <-> is_Some (assoc_get n (DynamicFormGenerator.fields fs))) /\
  (forall x, x ∈ DynamicFormGenerator._identify_missing_info schema info ->
             is_Some (assoc_get x (DynamicFormGenerator.fields fs))).
Proof.
  intros fs. unfold fs, DynamicFormGenerator._generate_form_structure.
  destruct (FormFacts.add_sections info (DynamicSchemaLoader.field_discovery schema)
              {| DynamicFormGenerator.fields := [];
                 DynamicFormGenerator.field_order := [];
                 DynamicFormGenerator.sections := [] |})
    as (Hm & Hc & Ho & Hn).
  { intros n. cbn. rewrite elem_of_nil. split; [tauto|]. intros [x Hx]. discriminate. }
  { reflexivity. }
  cbn [DynamicFormGenerator.field_order DynamicFormGenerator.sections map List.app] in Ho, Hn.
  split; [exact Ho|]. split; [exact Hc|]. split; [exact Hn|]. split; [exact Hm|].
  intros x Hx. apply Hm. rewrite Ho.
  apply MissingInfo.missing_iff in Hx as [Hx _].
  unfold DynamicFormGenerator._get_required_fields in Hx.
  apply list_elem_of_In, in_concat in Hx as (l & Hl & Hx).
  apply in_map_iff in Hl as (e & <- & He).
  apply in_map_iff in Hx as (f & <- & Hf).
  apply list_elem_of_In, in_concat.
  exists (map (DynamicFormGenerator.field_name_of (fst e)) (snd e)).
  split; [apply in_map_iff; eauto|].
  apply in_map_iff. exists f. split; [reflexivity|].
  apply list_elem_of_In. apply list_elem_of_In in Hf.
  now apply list_elem_of_filter in Hf as [_ Hf].
Qed.

(** X24.  The schema inferred from a conversation, by document type.
    The type detected by the form generator and the category chosen by
    the schema loader agree; an employment contract requires exactly
    'salary_value', a lease exactly 'duration_value', partnership and
    service agreements nothing, and demand letters, plaints, affidavits
    and custom documents get the general schema without any field.  So
    whatever was extracted, at most one field is reported missing, and a
    party field never is. *)
Theorem inferred_schema_by_document_type
    (self : DynamicSchemaLoader.t) (hint text : string) :
  let schema := DynamicSchemaLoader.create_dynamic_schema self hint text in
  let type := DynamicFormGenerator._detect_document_type text in
  let category := DynamicSchemaLoader.schema_category schema in
  let required := DynamicFormGenerator._get_required_fields schema in
  ((type = "employment_contract" /\ category = "employment" /\
    required = ["salary_value"]) \/
   (type = "lease_agreement" /\ category = "property" /\
    required = ["duration_value"]) \/
   (type = "partnership_agreement" /\ category = "business" /\ required = []) \/
   (type = "service_agreement" /\ category = "services" /\ required = []) \/
   (In type ["demand_letter"; "plaint"; "affidavit"; "custom_document"] /\
    category = "general" /\
    DynamicSchemaLoader.field_discovery schema = [])) /\
  (forall info x,
     x ∈ DynamicFormGenerator._identify_missing_info schema info ->
     x = "salary_value" \/ x = "duration_value") /\
  (forall info, (length (DynamicFormGenerator._identify_missing_info schema info) <= 1)%nat).
Proof.
  intros schema type category required.
  assert (Htable :
    (type = "employment_contract" /\ category = "employment" /\
     DynamicSchemaLoader.field_discovery schema
       = [("parties", map DynamicSchemaLoader.party_field ["employer"; "employee"]);
          ("salary", DynamicSchemaLoader.topic_fields "salary");
          ("working hours", []); ("benefits", []); ("termination", [])]) \/
    (type = "lease_agreement" /\ category = "property" /\
     DynamicSchemaLoader.field_discovery schema
       = [("parties", map DynamicSchemaLoader.party_field ["landlord"; "tenant"]);
          ("rent", []); ("duration", DynamicSchemaLoader.topic_fields "duration");
          ("property details", []); ("utilities", [])]) \/
    (type = "partnership_agreement" /\ category = "business" /\
     DynamicSchemaLoader.field_discovery schema
       = [("parties", map DynamicSchemaLoader.party_field ["partner1"; "partner2"]);
          ("capital", []); ("profit sharing", []); ("management", []);
          ("dissolution", [])]) \/
    (type = "service_agreement" /\ category = "services" /\
     DynamicSchemaLoader.field_discovery schema
       = [("parties", map DynamicSchemaLoader.party_field ["client"; "service_provider"]);
          ("scope", []); ("payment", []); ("deliverables", []); ("timeline", [])]) \/
    (In type ["demand_letter"; "plaint"; "affidavit"; "custom_document"] /\
     category = "general" /\
     DynamicSchemaLoader.field_discovery schema = [])).
  { unfold type, category, schema, DynamicSchemaLoader.create_dynamic_schema,
      DynamicSchemaLoader._analyze_conversation_context,
      DynamicFormGenerator._detect_document_type.
    cbv zeta. generalize (str_lower text). intros l.
    destruct (any_in ["employment"; "employee"; "employer"; "job"; "work"] l);
      [left; split_and!; reflexivity|].
    destruct (any_in ["lease"; "rent"; "tenant"; "landlord"; "property"] l);
      [right; left; split_and!; reflexivity|].
    destruct (any_in ["partnership"; "business"; "company"; "venture"] l);
      [right; right; left; split_and!; reflexivity|].
    destruct (any_in ["service"; "consulting"; "freelance"; "contractor"] l);
      [right; right; right; left; split_and!; reflexivity|].
    right; right; right; right.
    split; [|split; reflexivity].
    destruct (any_in ["demand"; "payment"; "debt"; "owed"] l); [cbn; auto|].
    destruct (any_in ["court"; "plaint"; "lawsuit"; "case"] l); [cbn; auto|].
    destruct (any_in ["affidavit"; "sworn"; "statement"; "witness"] l); cbn; auto. }
  assert (Hreq : required = ["salary_value"] \/ required = ["duration_value"] \/
                 required = []).
  { unfold required, DynamicFormGenerator._get_required_fields.
    destruct Htable as [(_ & _ & Hf)|[(_ & _ & Hf)|[(_ & _ & Hf)|[(_ & _ & Hf)|(_ & _ & Hf)]]]];
      rewrite Hf;
      vm_compute; auto. }
  split; [|split].
  - unfold required in *. unfold DynamicFormGenerator._get_required_fields in *.
    destruct Htable as [(Ht & Hc & Hf)|[(Ht & Hc & Hf)|[(Ht & Hc & Hf)|[(Ht & Hc & Hf)
                       |(Ht & Hc & Hf)]]]]; rewrite Hf.
    + left. split_and!; [exact Ht|exact Hc|vm_compute; reflexivity].
    + right; left. split_and!; [exact Ht|exact Hc|vm_compute; reflexivity].
    + right; right; left. split_and!; [exact Ht|exact Hc|vm_compute; reflexivity].
    + right; right; right; left. split_and!; [exact Ht|exact Hc|vm_compute; reflexivity].
    + right; right; right; right. split_and!; [exact Ht|exact Hc|reflexivity].
  - intros info x Hx. apply MissingInfo.missing_iff in Hx as [Hx _].
    fold required in Hx.
    destruct Hreq as [ -> | [ -> | -> ] ].
    + apply list_elem_of_singleton in Hx. auto.
    + apply list_elem_of_singleton in Hx. auto.
    + now apply elem_of_nil in Hx.
  - intros info. unfold DynamicFormGenerator._identify_missing_info.
    destruct Htable as [(_ & _ & Hf)|[(_ & _ & Hf)|[(_ & _ & Hf)|[(_ & _ & Hf)|(_ & _ & Hf)]]]];
      rewrite Hf;
      cbn; repeat case_match; cbn; lia.
Qed.

Module UpdateFacts.

Import DynamicSchemaLoader DynamicFormGenerator.

Lemma mapM_length {A B} (f : A -> Res B) (l : list A) : forall bs,
  mapM f l = Ok bs -> length bs = length l.
Proof.
  induction l as [|a l IH]; intros bs; cbn [mapM].
  - now intros [= <-].
  - destruct (f a) as [b|e]; cbn [bind]; [|discriminate].
    destruct (mapM f l) as [bs'|e]; cbn [bind]; [|discriminate].
    intros [= <-]. cbn. now rewrite (IH bs').
Qed.

(** Entries added to [extracted_info] only remove names from the list of
    missing fields, and keep the order of the others. *)
Lemma missing_after_update (schema : Schema) (input info : gmap string Value) :
  _identify_missing_info schema (input ∪ info)
  = filter (fun x => input !! x = None) (_identify_missing_info schema info).
Proof.
  unfold _identify_missing_info.
  induction (field_discovery schema) as [|[category fs] fd IH]; cbn [map concat fst snd].
  - reflexivity.
  - rewrite filter_app, <- IH. f_equal.
    clear IH. induction fs as [|f fs IHf]; cbn [map concat]; [reflexivity|].
    rewrite filter_app, <- IHf. f_equal.
    destruct (is_required f); [|reflexivity].
    destruct (input !! field_name_of category f) as [v|] eqn:Hin.
    + rewrite (lookup_union_Some_l _ _ _ _ Hin).
      destruct (info !! field_name_of category f); [reflexivity|].
      rewrite filter_cons, filter_nil. case_decide; [congruence|reflexivity].
    + rewrite lookup_union_r by exact Hin.
      destruct (info !! field_name_of category f); [reflexivity|].
      rewrite filter_cons, filter_nil. case_decide; [reflexivity|congruence].
Qed.

Lemma questions_defined (schema : Schema) (info : gmap string Value) :
  exists qs, _generate_next_questions (_identify_missing_info schema info) schema = Ok qs.
Proof.
  apply MissingInfo.next_questions_defined, Forall_forall. intros x Hx.
  apply MissingInfo.missing_iff in Hx as [Hx _].
  now apply MissingInfo.required_fields_have_underscore with (schema := schema).
Qed.

End UpdateFacts.

(** X25.  [update_form_with_user_input] never raises, whatever the form
    and the input: the names it asks about always have the underscore
    that [_generate_next_questions] splits at.  In the form it returns the
    input has been merged over the extracted information, the missing
    fields are those of the schema that were missing before and are not
    keys of the input (in the same order), there is one question per
    missing field, and everything else is as it was.  Sending the same
    input again returns the same form. *)
Theorem update_form_never_fails
    (form : DynamicFormGenerator.Form) (input : gmap string Value) :
  exists form' qs,
    DynamicFormGenerator.update_form_with_user_input form input = Ok form' /\
    DynamicFormGenerator.extracted_info form'
      = input ∪ DynamicFormGenerator.extracted_info form /\
    DynamicFormGenerator.missing_info form'
      = filter (fun x => input !! x = None)
          (DynamicFormGenerator._identify_missing_info
             (DynamicFormGenerator.schema form)
             (DynamicFormGenerator.extracted_info form)) /\
    DynamicFormGenerator.next_questions form' = Some qs /\
    length qs = length (DynamicFormGenerator.missing_info form') /\
    DynamicFormGenerator.schema form' = DynamicFormGenerator.schema form /\
    DynamicFormGenerator.form_structure form' = DynamicFormGenerator.form_structure form /\
    DynamicFormGenerator.document_type form' = DynamicFormGenerator.document_type form /\
    DynamicFormGenerator.update_form_with_user_input form' input = Ok form'.
Proof.
  destruct (UpdateFacts.questions_defined (DynamicFormGenerator.schema form)
              (input ∪ DynamicFormGenerator.extracted_info form)) as [qs Hqs].
  pose proof (UpdateFacts.mapM_length _ _ _ Hqs) as Hlen.
  eexists _, qs. split.
  { unfold DynamicFormGenerator.update_form_with_user_input. rewrite Hqs. reflexivity. }
  cbn [DynamicFormGenerator.extracted_info DynamicFormGenerator.missing_info
       DynamicFormGenerator.next_questions DynamicFormGenerator.schema
       DynamicFormGenerator.form_structure DynamicFormGenerator.document_type].
  split_and!; try reflexivity.
  - apply UpdateFacts.missing_after_update.
  - exact Hlen.
  - unfold DynamicFormGenerator.update_form_with_user_input.
    cbn [DynamicFormGenerator.extracted_info DynamicFormGenerator.schema
         DynamicFormGenerator.document_type DynamicFormGenerator.form_structure
         DynamicFormGenerator.validation_rules DynamicFormGenerator.interaction_flow].
    rewrite (map_union_assoc input input), (map_union_idemp input), Hqs. reflexivity.
Qed.

(** X26.  Schema inference and type detection look at the lower-cased
    text only: two conversations that differ in letter case alone get the
    same schema and the same document type, and lower-casing a
    conversation changes neither. *)
Theorem schema_inference_ignores_letter_case
    (self : DynamicSchemaLoader.t) (hint text text' : string) :
  str_lower text = str_lower text' ->
  DynamicSchemaLoader.create_dynamic_schema self hint text
    = DynamicSchemaLoader.create_dynamic_schema self hint text' /\
  DynamicFormGenerator._detect_document_type text
    = DynamicFormGenerator._detect_document_type text' /\
  str_lower (str_lower text) = str_lower text.
Proof.
  intros H. split_and!.
  - unfold DynamicSchemaLoader.create_dynamic_schema,
      DynamicSchemaLoader._analyze_conversation_context.
    cbv zeta. now rewrite H.
  - unfold DynamicFormGenerator._detect_document_type. cbv zeta. now rewrite H.
  - clear H. induction text as [|c text IH]; cbn [str_lower]; [reflexivity|].
    rewrite IH. f_equal.
    destruct c as [[] [] [] [] [] [] [] []]; reflexivity.
Qed.

Lemma schema_inference_ignores_letter_case_witness :
  str_lower "Draft a LEASE for my tenant" = str_lower "draft a lease for my Tenant" /\
  DynamicFormGenerator._detect_document_type "Draft a LEASE for my tenant"
    = DynamicFormGenerator._detect_document_type "draft a lease for my Tenant".
Proof.
  assert (H : str_lower "Draft a LEASE for my tenant" = str_lower "draft a lease for my Tenant")
    by reflexivity.
  split; [exact H|].
  exact (proj1 (proj2 (schema_inference_ignores_letter_case loader "" _ _ H))).
Defined.

(** X27.  The verdict of the validator is dropped.  The entity mapper's
    [validate_document] answers under the keys 'status', 'quality_score',
    'issues' and 'recommendations', while [_execute_validation_step]
    reads 'content', 'sources' and 'confidence'.  So with that validator
    a step named 'validation' (in any letter case) ends 'completed' with
    the result [{'type': 'validation', 'content': {}, 'metadata':
    {'sources': [], 'confidence': 0.0, ...}}] whatever the conversation
    was. *)
Theorem validation_step_drops_the_verdict
    (C : WorkflowService.Collaborators) (st : gmap string Dict) (w : Workflow.t)
    (i : nat) (s : WorkflowStep.t) (t_start t_end : Z) :
  (forall text,
     WorkflowService.validate_document C text = Ok (EntityMapper.validate_document text)) ->
  Workflow.steps w !! i = Some s ->
  str_lower (WorkflowStep.name s) = "validation" ->
  exists s',
    Workflow.steps (fst (WorkflowService._execute_workflow_step C st w i t_start t_end)) !! i
      = Some s' /\
    WorkflowStep.status s' = "completed" /\
    WorkflowStep.can_approve s' = true /\
    WorkflowStep.result s'
      = VDict [("type", VStr "validation");
               ("content", VDict []);
               ("metadata",
                VDict [("sources", VList []);
                       ("confidence", VFloat 0 0);
                       ("timestamp", VTime t_end)])].
Proof.
  intros Hval Hs Hname. pose proof (lookup_lt_Some _ _ _ Hs) as Hlt.
  unfold WorkflowService._execute_workflow_step.
  destruct (Nat.leb_spec (length (Workflow.steps w)) i) as [Hle|_]; [lia|].
  cbn [WorkflowService.update_step WorkflowService.with_steps Workflow.steps].
  rewrite list_lookup_alter_eq, Hs. cbn [fmap option_fmap option_map].
  cbn [WorkflowService.step_with_progress WorkflowService.step_with_start_time
       WorkflowService.step_with_status WorkflowStep.name].
  rewrite Hname.
  change (String.eqb "validation" "research") with false.
  change (String.eqb "validation" "extraction") with false.
  change (String.eqb "validation" "drafting") with false.
  change (String.eqb "validation" "validation") with true.
  cbv iota. unfold WorkflowService._execute_validation_step. rewrite Hval.
  cbn. rewrite !list_lookup_alter_eq, Hs. cbn.
  eexists. split; [reflexivity|]. split_and!; reflexivity.
Qed.

Lemma validation_step_drops_the_verdict_witness :
  exists w s',
    WorkflowService.get_workflow store_w1 "w1" = Ok (Some w) /\
    Workflow.steps
      (fst (WorkflowService._execute_workflow_step with_entity_mapper store_w1 w 3 10 20))
      !! 3%nat = Some s' /\
    WorkflowStep.status s' = "completed".
Proof.
  assert (Hg : exists w,
             WorkflowService.get_workflow store_w1 "w1" = Ok (Some w) /\
             Workflow.steps w !! 3%nat
               = Some (WorkflowStep.init "step_4" "Validation"
                         "Legal compliance and quality check"))
    by (eexists; split; vm_compute; reflexivity).
  destruct Hg as (w & Hg & Hs).
  destruct (validation_step_drops_the_verdict with_entity_mapper store_w1 w 3 _ 10 20
              (fun _ => eq_refl) Hs eq_refl) as (s' & Hs' & Hst & _).
  exists w, s'. split; [exact Hg|]. split; [exact Hs'|exact Hst].
Defined.

(** ** Two more invariants of the services *)

Module HistoryFacts.

Import DraftingService.

(** Replacing a version by one with the same id, content, author and
    creation time. *)
Lemma same_core_insert (vs : list DraftVersion.t) i v v' :
  vs !! i = Some v ->
  DraftVersion.id v' = DraftVersion.id v ->
  DraftVersion.content v' = DraftVersion.content v ->
  DraftVersion.created_by v' = DraftVersion.created_by v ->
  DraftVersion.created_at v' = DraftVersion.created_at v ->
  map (fun x => (DraftVersion.id x, DraftVersion.content x, DraftVersion.created_by x,
                 DraftVersion.created_at x)) (<[i := v']> vs)
  = map (fun x => (DraftVersion.id x, DraftVersion.content x, DraftVersion.created_by x,
                   DraftVersion.created_at x)) vs.
Proof.
  intros Hi H1 H2 H3 H4.
  change (map ?f ?l) with (f <$> l). rewrite list_fmap_insert.
  apply list_insert_id. rewrite list_lookup_fmap, Hi. cbn. now rewrite H1, H2, H3, H4.
Qed.

End HistoryFacts.

(** X28.  The version history of a draft is append-only.  Across
    [generate_draft_version], [approve_draft_version],
    [reject_draft_version], [modify_draft_version] and
    [regenerate_draft_version], with any arguments, a stored draft stays
    stored with the same id, owner and document type, and the ids,
    contents, authors and creation times of its versions before the call
    are a prefix of those after it: a generated content is never altered,
    reordered or dropped. *)
Theorem version_history_is_append_only
    (C : DraftingService.Collaborators) (st : gmap string Dict)
    (k : string) (d : DocumentDraft.t) :
  DraftingService.get_draft st k = Ok (Some d) ->
  let core (x : DraftVersion.t) :=
    (DraftVersion.id x, DraftVersion.content x, DraftVersion.created_by x,
     DraftVersion.created_at x) in
  let kept (st' : gmap string Dict) :=
    exists d',
      DraftingService.get_draft st' k = Ok (Some d') /\
      DocumentDraft.id d' = DocumentDraft.id d /\
      DocumentDraft.user_id d' = DocumentDraft.user_id d /\
      DocumentDraft.document_type d' = DocumentDraft.document_type d /\
      map core (DocumentDraft.versions d) `prefix_of` map core (DocumentDraft.versions d') in
  (forall draft_id user_id context version_id now,
     kept (snd (DraftingService.generate_draft_version C st draft_id user_id context
                  version_id now))) /\
  (forall draft_id version_id user_id feedback now,
     kept (snd (DraftingService.approve_draft_version st draft_id version_id user_id
                  feedback now))) /\
  (forall draft_id version_id user_id reason feedback now,
     kept (snd (DraftingService.reject_draft_version st draft_id version_id user_id reason
                  feedback now))) /\
  (forall draft_id version_id user_id mods now,
     kept (snd (DraftingService.modify_draft_version st draft_id version_id user_id mods
                  now))) /\
  (forall draft_id version_id user_id feedback new_version_id now,
     kept (snd (DraftingService.regenerate_draft_version C st draft_id version_id user_id
                  feedback new_version_id now))).
Proof.
  intros Hget core kept.
  assert (Hsame : kept st).
  { exists d. split; [exact Hget|]. split_and!; reflexivity. }
  assert (Hother : forall draft_id x, draft_id <> k -> kept (<[draft_id := x]> st)).
  { intros draft_id x Hne. exists d. split.
    - unfold DraftingService.get_draft in *. now rewrite lookup_insert_ne.
    - split_and!; reflexivity. }
  assert (Hset : forall i v v' s now,
            DocumentDraft.versions d !! i = Some v ->
            core v' = core v ->
            kept (<[k := DocumentDraft.to_dict
                            (DraftingService.set_status s now
                               (DraftingService.set_version i v' d))]> st)).
  { intros i v v' s now Hi Hcore. eexists. split; [apply DraftFacts.get_draft_insert|].
    rewrite DraftFacts.reloaded_versions. unfold DraftingService.reloaded.
    split_and!; try (destruct (DocumentDraft.original_content _) as [[|]|]; reflexivity).
    cbn [DraftingService.set_status DraftingService.set_version DocumentDraft.versions].
    injection Hcore as H1 H2 H3 H4.
    unfold core. rewrite (HistoryFacts.same_core_insert _ i v v') by assumption.
    reflexivity. }
  assert (Happend : forall v now,
            kept (<[k := DocumentDraft.to_dict (DraftingService.append_version v now d)]> st)).
  { intros v now. eexists. split; [apply DraftFacts.get_draft_insert|].
    rewrite DraftFacts.reloaded_versions. unfold DraftingService.reloaded.
    split_and!; try (destruct (DocumentDraft.original_content _) as [[|]|]; reflexivity).
    cbn [DraftingService.append_version DocumentDraft.versions].
    rewrite map_app. now apply prefix_app_r. }
  assert (Hgen : forall draft_id user_id context version_id now,
            kept (snd (DraftingService.generate_draft_version C st draft_id user_id context
                         version_id now))).
  { intros draft_id user_id context version_id now.
    unfold DraftingService.generate_draft_version.
    destruct (decide (draft_id = k)) as [->|Hne].
    - rewrite Hget. destruct (negb _); [exact Hsame|]. cbn [snd]. apply Happend.
    - destruct (DraftingService.get_draft st draft_id) as [[d0|]|e]; try exact Hsame.
      destruct (negb _); [exact Hsame|]. cbn [snd]. now apply Hother. }
  split; [exact Hgen|]. split_and!.
  - intros draft_id version_id user_id feedback now.
    unfold DraftingService.approve_draft_version.
    destruct (decide (draft_id = k)) as [->|Hne].
    + rewrite Hget. destruct (negb _); [exact Hsame|].
      destruct (DraftingService.find_version _ _) as [[i v]|] eqn:Hf; [|exact Hsame].
      destruct (negb _); [exact Hsame|]. cbn [snd].
      apply Hset with (v := v); [apply (DraftFacts.find_version_id _ _ _ _ Hf)|reflexivity].
    + destruct (DraftingService.get_draft st draft_id) as [[d0|]|e]; try exact Hsame.
      destruct (negb _); [exact Hsame|].
      destruct (DraftingService.find_version _ _) as [[i v]|]; [|exact Hsame].
      destruct (negb _); [exact Hsame|]. cbn [snd]. now apply Hother.
  - intros draft_id version_id user_id reason feedback now.
    unfold DraftingService.reject_draft_version.
    destruct (decide (draft_id = k)) as [->|Hne].
    + rewrite Hget. destruct (negb _); [exact Hsame|].
      destruct (DraftingService.find_version _ _) as [[i v]|] eqn:Hf; [|exact Hsame].
      destruct (negb _); [exact Hsame|]. cbn [snd].
      apply Hset with (v := v); [apply (DraftFacts.find_version_id _ _ _ _ Hf)|reflexivity].
    + destruct (DraftingService.get_draft st draft_id) as [[d0|]|e]; try exact Hsame.
      destruct (negb _); [exact Hsame|].
      destruct (DraftingService.find_version _ _) as [[i v]|]; [|exact Hsame].
      destruct (negb _); [exact Hsame|]. cbn [snd]. now apply Hother.
  - intros draft_id version_id user_id mods now.
    unfold DraftingService.modify_draft_version.
    destruct (decide (draft_id = k)) as [->|Hne].
    + rewrite Hget. destruct (negb _); [exact Hsame|].
      destruct (DraftingService.find_version _ _) as [[i v]|] eqn:Hf; [|exact Hsame].
      cbn [snd].
      apply Hset with (v := v); [apply (DraftFacts.find_version_id _ _ _ _ Hf)|reflexivity].
    + destruct (DraftingService.get_draft st draft_id) as [[d0|]|e]; try exact Hsame.
      destruct (negb _); [exact Hsame|].
      destruct (DraftingService.find_version _ _) as [[i v]|]; [|exact Hsame].
      cbn [snd]. now apply Hother.
  - intros draft_id version_id user_id feedback new_version_id now.
    unfold DraftingService.regenerate_draft_version.
    destruct (DraftingService.get_draft st draft_id) as [[d0|]|e]; try exact Hsame.
    destruct (negb _); [exact Hsame|]. apply Hgen.
Qed.

Lemma version_history_is_append_only_witness :
  DraftingService.get_draft store_d1 "d1" = Ok (Some draft_d1) /\
  exists d',
    DraftingService.get_draft
      (snd (DraftingService.approve_draft_version store_d1 "d1" "v1" "alice" VNone 20)) "d1"
      = Ok (Some d') /\
    DocumentDraft.user_id d' = "alice".
Proof.
  assert (Hget : DraftingService.get_draft store_d1 "d1" = Ok (Some draft_d1))
    by (vm_compute; reflexivity).
  split; [exact Hget|].
  destruct (version_history_is_append_only silent store_d1 "d1" draft_d1 Hget)
    as (_ & Ha & _).
  destruct (Ha "d1" "v1" "alice" VNone 20) as (d' & Hd' & _ & Hu & _).
  exists d'. split; [exact Hd'|exact Hu].
Defined.

(** X29.  [modify_step] on a 'completed' step.  When the result of the
    step and the modifications are both non-empty dictionaries the
    modifications are merged into the result -- every key of the request
    (a dictionary, so each key occurs once) reads the request's value
    afterwards and every other key reads what the result had -- and
    [can_modify] is cleared; when either is empty the steps stay as they
    are and only [updated_at] moves; in both cases the workflow is
    written back and no task is spawned.  A result that is a non-empty
    string makes the call raise and leaves the store as it was. *)
Theorem modify_step_merges_into_result
    (st : gmap string Dict) (workflow_id step_id : string) (mods : Dict) (now : Z)
    (w : Workflow.t) (i : nat) (s : WorkflowStep.t) :
  WorkflowService.get_workflow st workflow_id = Ok (Some w) ->
  WorkflowService.find_step step_id (Workflow.steps w) = Some (i, s) ->
  WorkflowStep.status s = "completed" ->
  (forall r,
     WorkflowStep.result s = VDict r -> r <> [] -> mods <> [] ->
     exists w',
       WorkflowService.modify_step st workflow_id step_id mods now
         = (Ok (Some w'), <[workflow_id := Workflow.to_dict w']> st) /\
       Workflow.updated_at w' = now /\
       Workflow.status w' = Workflow.status w /\
       Workflow.current_step w' = Workflow.current_step w /\
       Workflow.steps w'
         = <[i := WorkflowService.step_with_can_modify false
                    (WorkflowService.step_with_result (VDict (dict_update r mods)) s)]>
             (Workflow.steps w) /\
       (exists s', Workflow.steps w' !! i = Some s' /\
                   WorkflowStep.can_modify s' = false /\
                   WorkflowStep.status s' = "completed" /\
                   exists r', WorkflowStep.result s' = VDict r' /\
                     (NoDup (map fst mods) ->
                      forall k, dict_get k r'
                                = match dict_get k mods with
                                  | Some x => Some x
                                  | None => dict_get k r
                                  end))) /\
  (truthy (WorkflowStep.result s) = false \/ mods = [] ->
   WorkflowService.modify_step st workflow_id step_id mods now
     = (Ok (Some (WorkflowService.with_updated_at now w)),
        <[workflow_id := Workflow.to_dict (WorkflowService.with_updated_at now w)]> st)) /\
  (forall text,
     WorkflowStep.result s = VStr text -> text <> "" -> mods <> [] ->
     WorkflowService.modify_step st workflow_id step_id mods now
       = (Raise "AttributeError", st)).
Proof.
  intros Hg Hf Hs. pose proof Hf as Hf'.
  apply list_find_Some in Hf' as (Hi & _ & _).
  unfold WorkflowService.modify_step. rewrite Hg, Hf, Hs.
  change (String.eqb "completed" "completed") with true. cbv iota.
  split_and!.
  - intros r Hr Hne Hm. rewrite Hr.
    destruct r as [|kv r]; [congruence|]. destruct mods as [|m mods]; [congruence|].
    cbn [truthy andb].
    eexists. split; [reflexivity|].
    cbn [WorkflowService.with_updated_at WorkflowService.update_step
         WorkflowService.with_steps Workflow.updated_at Workflow.status
         Workflow.current_step Workflow.steps].
    split_and!; try reflexivity.
    + apply list_eq. intros j. destruct (decide (j = i)) as [->|Hne'].
      * rewrite list_lookup_alter_eq, Hi, list_lookup_insert_eq;
          [reflexivity|eapply lookup_lt_Some; eassumption].
      * now rewrite list_lookup_alter_ne, list_lookup_insert_ne.
    + eexists. split; [rewrite list_lookup_alter_eq, Hi; reflexivity|].
      split; [reflexivity|]. split; [exact Hs|].
      eexists. split; [reflexivity|].
      intros Hnd k. now apply DraftMore.dict_get_update_nodup.
  - intros [Hr| ->].
    + rewrite Hr. reflexivity.
    + cbn [truthy]. rewrite andb_false_r. reflexivity.
  - intros text Hr Hne Hm. rewrite Hr.
    destruct text as [|c text]; [congruence|]. destruct mods as [|m mods]; [congruence|].
    reflexivity.
Qed.

Lemma modify_step_merges_into_result_witness :
  WorkflowService.get_workflow store_done "w5"
    = Ok (Some (WorkflowService.reloaded workflow_done)) /\
  exists w' s' r',
    WorkflowService.modify_step store_done "w5" "step_1"
      [("tone", VStr "formal"); ("note", VStr "x")] 9
      = (Ok (Some w'), <["w5" := Workflow.to_dict w']> store_done) /\
    Workflow.steps w' !! 0%nat = Some s' /\
    WorkflowStep.can_modify s' = false /\
    WorkflowStep.result s' = VDict r' /\
    dict_get "tone" r' = Some (VStr "formal") /\
    dict_get "note" r' = Some (VStr "x") /\
    dict_get "summary" r' = Some (VStr "draft").
Proof.
  assert (Hg : WorkflowService.get_workflow store_done "w5"
               = Ok (Some (WorkflowService.reloaded workflow_done)))
    by (vm_compute; reflexivity).
  split; [exact Hg|].
  assert (Hf : WorkflowService.find_step "step_1"
                 (Workflow.steps (WorkflowService.reloaded workflow_done))
               = Some (0%nat, step_A_done)) by (vm_compute; reflexivity).
  assert (Hnd : NoDup (map fst [("tone", VStr "formal"); ("note", VStr "x")])).
  { apply (bool_decide_unpack _). vm_compute. exact I. }
  destruct (modify_step_merges_into_result store_done "w5" "step_1"
              [("tone", VStr "formal"); ("note", VStr "x")] 9
              _ 0%nat step_A_done Hg Hf eq_refl) as (Hmerge & _ & _).
  destruct (Hmerge [("summary", VStr "draft"); ("tone", VStr "plain")] eq_refl
              ltac:(discriminate) ltac:(discriminate))
    as (w' & Hm & _ & _ & _ & _ & s' & Hs' & Hcm & _ & r' & Hr' & Hkeys).
  exists w', s', r'. split; [exact Hm|]. split; [exact Hs'|]. split; [exact Hcm|].
  split; [exact Hr'|].
  split; [rewrite (Hkeys Hnd "tone"); reflexivity|].
  split; [rewrite (Hkeys Hnd "note"); reflexivity|].
  rewrite (Hkeys Hnd "summary"); reflexivity.
Defined.
